(** * FranceTV extractor: a shallow embedding of
      [yt_dlp/extractor/francetv.py] and the properties of its
      video-resolution pipeline.

    Conventions of the embedding.
    - A Python [str] is a [string]; its characters are the code points
      below 256, so the character classes of [re] and of [str.strip] are
      the ones Python has on that range.
    - A decoded JSON document, and more generally a Python value handled by
      the extractor, is a [json]; Python's [None] is [JNull].  Numbers are
      integers: the extractor only tests numbers for truth and hands them on.
    - A Python [dict] is an association list in insertion order.
    - Network calls go through a [Backend]; every call is recorded in the
      trace of the computation (monad [M]).
    - The extractor's file is the source.  What it calls from the framework
      ([yt_dlp.utils], [InfoExtractor], [urllib.parse]) is either a field of
      [Helpers] or of [Backend], or a definition whose comment says what it
      is modelled from. *)

From Stdlib Require Import String Ascii List ZArith Lia Bool DecimalString.
Import ListNotations.

Local Open Scope string_scope.
Local Open Scope list_scope.
Local Open Scope Z_scope.

Set Warnings "-register-all".

(** ** Python values *)

Inductive json : Type :=
| JNull
| JBool (b : bool)
| JNum (n : Z)
| JStr (s : string)
| JList (l : list json)
| JDict (d : list (string * json)).

Definition pydict := list (string * json).

(** [bool(x)] *)
Definition truthy (j : json) : bool :=
  match j with
  | JNull => false
  | JBool b => b
  | JNum n => negb (n =? 0)
  | JStr s => negb (s =? "")%string
  | JList l => match l with [] => false | _ => true end
  | JDict d => match d with [] => false | _ => true end
  end.

(** [x is None] *)
Definition is_none (j : json) : bool :=
  match j with JNull => true | _ => false end.

(** [d[k]] as an option ([None] stands for [KeyError]). *)
Fixpoint dict_lookup (d : pydict) (k : string) : option json :=
  match d with
  | [] => None
  | (k', v) :: d' => if (k' =? k)%string then Some v else dict_lookup d' k
  end.

(** [d.get(k)] *)
Definition dict_get (d : pydict) (k : string) : json :=
  match dict_lookup d k with Some v => v | None => JNull end.

(** [d[k] = v]: the binding of an existing key is replaced in place, a new
    key goes to the end. *)
Fixpoint dict_set (d : pydict) (k : string) (v : json) : pydict :=
  match d with
  | [] => [(k, v)]
  | (k', v') :: d' =>
      if (k' =? k)%string then (k, v) :: d' else (k', v') :: dict_set d' k v
  end.

(** [x == 'literal'] for a Python value [x]. *)
Definition eq_str (j : json) (s : string) : bool :=
  match j with JStr s' => (s' =? s)%string | _ => false end.

(** ** Characters and strings *)

Definition code (c : ascii) : N := N_of_ascii c.

(** [\d] of [re] on [str] patterns: the decimal digits. *)
Definition is_digit (c : ascii) : bool :=
  ((48 <=? code c) && (code c <=? 57))%N.

(** [str.isspace], which is also [\s]: TAB..CR, FS..US, space, NEL, NBSP. *)
Definition is_space (c : ascii) : bool :=
  (((9 <=? code c) && (code c <=? 13)) || ((28 <=? code c) && (code c <=? 32))
   || (code c =? 133) || (code c =? 160))%N.

(** [str.isalnum] or underscore, which is [\w]. *)
Definition is_word (c : ascii) : bool :=
  let n := code c in
  (((48 <=? n) && (n <=? 57)) || ((65 <=? n) && (n <=? 90))
   || ((97 <=? n) && (n <=? 122)) || (n =? 95)
   || (n =? 170) || (n =? 178) || (n =? 179) || (n =? 181) || (n =? 185)
   || (n =? 186) || ((188 <=? n) && (n <=? 190))
   || ((192 <=? n) && (n <=? 214)) || ((216 <=? n) && (n <=? 246))
   || (248 <=? n))%N.

(** The longest prefix whose characters satisfy [p], and what follows it. *)
Fixpoint span (p : ascii -> bool) (s : string) : string * string :=
  match s with
  | EmptyString => (EmptyString, EmptyString)
  | String c r =>
      if p c then let (a, b) := span p r in (String c a, b)
      else (EmptyString, s)
  end.

Definition all_chars (p : ascii -> bool) (s : string) : bool :=
  forallb p (list_ascii_of_string s).

Definition is_empty (s : string) : bool := (s =? "")%string.

(** [c in s] for a one-character [c]. *)
Fixpoint contains_char (c : ascii) (s : string) : bool :=
  match s with
  | EmptyString => false
  | String c' r => Ascii.eqb c' c || contains_char c r
  end.

(** [s.startswith(p)] *)
Definition startswith (p s : string) : bool := String.prefix p s.

(** [s.lstrip()], [s.rstrip()], [s.strip()] *)
Definition lstrip (s : string) : string := snd (span is_space s).

Fixpoint rstrip (s : string) : string :=
  match s with
  | EmptyString => EmptyString
  | String c r =>
      match rstrip r with
      | EmptyString => if is_space c then EmptyString else String c EmptyString
      | r' => String c r'
      end
  end.

Definition strip (s : string) : string := rstrip (lstrip s).

(** [delim.join(parts)] *)
Fixpoint join (delim : string) (parts : list string) : string :=
  match parts with
  | [] => EmptyString
  | [p] => p
  | p :: rest => (p ++ delim ++ join delim rest)%string
  end.

(** The value of a string of decimal digits. *)
Definition digit_val (c : ascii) : Z := Z.of_N (code c) - 48.

Definition decimal (s : string) : Z :=
  fold_left (fun acc c => 10 * acc + digit_val c) (list_ascii_of_string s) 0.

(** Modelled from the spec: [int_or_none] of [yt_dlp.utils], which is not in
    the extractor's file; a numeric field is coerced to an integer if
    parseable, else absent, never an error.  The values [_extract_video]
    passes are [None] and groups of [\d+] (lemma [search_episode_digits]),
    and on those the integer is the decimal value; other strings are not
    given a value here. *)
Definition int_or_none (v : option string) : option Z :=
  match v with
  | None => None
  | Some s =>
      if negb (is_empty s) && all_chars is_digit s then Some (decimal s)
      else None
  end.

(** ** The pattern [S(\d+)\s*E(\d+)] *)

(** A match of the pattern at the head of [s].  [\d+] and [\s*] are greedy,
    and giving back a character never helps: what follows a shorter run is a
    character of the same class, which is neither a space nor [E]. *)
Definition match_episode_here (s : string) : option (string * string) :=
  match s with
  | String c r =>
      if Ascii.eqb c "S" then
        let (season, r1) := span is_digit r in
        if is_empty season then None
        else
          match snd (span is_space r1) with
          | String e r3 =>
              if Ascii.eqb e "E" then
                let episode := fst (span is_digit r3) in
                if is_empty episode then None else Some (season, episode)
              else None
          | EmptyString => None
          end
      else None
  | EmptyString => None
  end.

(** [re.search]: the leftmost position with a match. *)
Fixpoint search_episode (s : string) : option (string * string) :=
  match match_episode_here s with
  | Some g => Some g
  | None =>
      match s with
      | String _ r => search_episode r
      | EmptyString => None
      end
  end.

(** ** Helpers of the framework *)

(** Functions of [yt_dlp.utils], of [urllib.parse] and of Python itself that
    the extractor calls and whose text is not in the extractor's file. *)
Record Helpers : Type := {
  (** the scheme pattern [url_or_none] matches a stripped string against *)
  url_scheme_ok : string -> bool;
  (** [determine_ext(url)] *)
  determine_ext : string -> string;
  (** [parse_iso8601(v)] *)
  parse_iso8601 : json -> json;
  (** [str(v)] for a value that is not a [str] *)
  py_repr : json -> string;
  (** [format_field(obj, field, template)] *)
  format_field : pydict -> string -> string -> string;
  (** [_merge_subtitles(subs, target=subtitles)], as the new target *)
  merge_subtitles : pydict -> pydict -> pydict;
  (** [unsmuggle_url(url, {})] *)
  unsmuggle_url : string -> string * pydict;
  (** [smuggle_url(url, data)] *)
  smuggle_url : string -> pydict -> string;
  (** [parse_qs(url)]: each key of the query with its values, of which there
      is always a first *)
  parse_qs : string -> list (string * (string * list string));
  (** [urllib.parse.urlparse(url).hostname] *)
  urlparse_hostname : string -> json
}.

(** ** Network *)

(** The calls the extractor makes to the outside. *)
Inductive request : Type :=
| DownloadJSON (url video_id : string) (query : pydict)
| ExtractF4M (url video_id : string) (f4m_id : json)
| ExtractM3U8 (url video_id : string) (m3u8_id : json)
| ExtractMPD (url video_id : string) (mpd_id : json)
| IsValidURL (url video_id : string) (item : json)
| RequestHEAD (url video_id : string).

Definition headers := list (string * string).

(** What the outside answers.  All the calls are made with [fatal=False]: a
    failed download is a false value ([JBool false]), a failed manifest
    parse an empty list, a failed probe [None]. *)
Record Backend : Type := {
  download_json : string -> string -> pydict -> json;
  extract_f4m_formats : string -> string -> json -> list pydict;
  extract_m3u8_formats_and_subtitles :
    string -> string -> json -> list pydict * pydict;
  extract_mpd_formats_and_subtitles :
    string -> string -> json -> list pydict * pydict;
  is_valid_url : string -> string -> json -> bool;
  request_webpage_head : string -> string -> option headers
}.

(** [headers.get(name)], header names kept in lower case. *)
Fixpoint header_get (h : headers) (name : string) : option string :=
  match h with
  | [] => None
  | (n, v) :: h' => if (n =? name)%string then Some v else header_get h' name
  end.

(** ** Computations: a result or an exception, and the calls made *)

Inductive exn : Type :=
| GeoRestrictedError (countries : list string)
| ExtractorError (msg : string) (expected : bool)
| TypeError
| AttributeError.

Inductive outcome (A : Type) : Type :=
| Ok (a : A)
| Raised (e : exn).
Arguments Ok {A} a.
Arguments Raised {A} e.

Definition M (A : Type) : Type := (outcome A * list request)%type.

Definition ret {A} (a : A) : M A := (Ok a, []).

Definition raise {A} (e : exn) : M A := (Raised e, []).

Definition bind {A B} (m : M A) (k : A -> M B) : M B :=
  match m with
  | (Ok a, t) => let (r, t') := k a in (r, t ++ t')
  | (Raised e, t) => (Raised e, t)
  end.

Definition result {A} (m : M A) : outcome A := fst m.
Definition trace {A} (m : M A) : list request := snd m.

Declare Scope m_scope.
Delimit Scope m_scope with M.
Notation "x <- c ;; k" := (bind c (fun x => k))
  (at level 61, c at next level, right associativity) : m_scope.
Notation "' p <- c ;; k" := (bind c (fun x => match x with p => k end))
  (at level 61, p pattern, c at next level, right associativity) : m_scope.
Local Open Scope m_scope.

(** A [for] loop that threads [acc] through [body]. *)
Fixpoint for_each {A S} (body : S -> A -> M S) (xs : list A) (acc : S) : M S :=
  match xs with
  | [] => ret acc
  | x :: xs' => acc' <- body acc x ;; for_each body xs' acc'
  end.

(** One call, answered by the backend and recorded. *)
Definition call_download_json (B : Backend) (url video_id : string)
    (query : pydict) : M json :=
  (Ok (download_json B url video_id query), [DownloadJSON url video_id query]).

Definition call_extract_f4m (B : Backend) (url video_id : string)
    (f4m_id : json) : M (list pydict) :=
  (Ok (extract_f4m_formats B url video_id f4m_id),
   [ExtractF4M url video_id f4m_id]).

Definition call_extract_m3u8 (B : Backend) (url video_id : string)
    (m3u8_id : json) : M (list pydict * pydict) :=
  (Ok (extract_m3u8_formats_and_subtitles B url video_id m3u8_id),
   [ExtractM3U8 url video_id m3u8_id]).

Definition call_extract_mpd (B : Backend) (url video_id : string)
    (mpd_id : json) : M (list pydict * pydict) :=
  (Ok (extract_mpd_formats_and_subtitles B url video_id mpd_id),
   [ExtractMPD url video_id mpd_id]).

Definition call_is_valid_url (B : Backend) (url video_id : string)
    (item : json) : M bool :=
  (Ok (is_valid_url B url video_id item), [IsValidURL url video_id item]).

Definition call_request_head (B : Backend) (url video_id : string)
    : M (option headers) :=
  (Ok (request_webpage_head B url video_id), [RequestHEAD url video_id]).

(** ** The extractor *)

Section Extractor.

Variable H : Helpers.

(** Modelled from the spec: [url_or_none] of [yt_dlp.utils], which is not in
    the extractor's file, keeps a resolvable URL: a non-empty [str] whose
    stripped form has a scheme the framework accepts ([url_scheme_ok]), and
    returns it stripped; anything else is [None]. *)
Definition url_or_none (v : json) : option string :=
  match v with
  | JStr s =>
      if is_empty s then None
      else if url_scheme_ok H (strip s) then Some (strip s) else None
  | _ => None
  end.

(** Truth of an optional string ([None] and [''] are false). *)
Definition truthy_ostr (o : option string) : bool :=
  match o with Some s => negb (is_empty s) | None => false end.

(** [str(v)] *)
Definition py_str (v : json) : string :=
  match v with JStr s => s | _ => py_repr H v end.

(** Modelled from the spec: [traverse_obj] of [yt_dlp.utils] is not in the
    extractor's file; on the path [(key, {dict})] it gives the optional
    object of a payload [{video: object?, meta: object?}]: the value under
    [key] when the payload is a dict and that value is a dict. *)
Definition traverse_obj_dict (obj : json) (key : string) : option pydict :=
  match obj with
  | JDict d => match dict_get d key with JDict v => Some v | _ => None end
  | _ => None
  end.

(** Modelled from the spec: [traverse_obj] on the path
    [('url', {url_or_none})], the URL of a token answer [{url: string}]. *)
Definition traverse_obj_url (obj : json) : option string :=
  match obj with
  | JDict d => url_or_none (dict_get d "url")
  | _ => None
  end.

(** Modelled from the spec: [filter_dict] of [yt_dlp.utils], which makes the
    query [{device_type, browser, domain?}]: the bindings whose value is not
    [None]. *)
Definition filter_dict (d : pydict) : pydict :=
  filter (fun kv => negb (is_none (snd kv))) d.

(** Modelled from the spec: [join_nonempty] of [yt_dlp.utils]; title and
    subtitle joined with the delimiter when both are present, whichever
    exists alone otherwise: the values that are true, as text. *)
Definition join_nonempty (delim : string) (values : list json) : string :=
  join delim (map py_str (filter truthy values)).

(** Modelled from the spec: [_search_regex] of the framework's
    [InfoExtractor], called as [self._search_regex(r'S(\d+)\s*E(\d+)', v,
    'episode info', group=(1, 2), default=(None, None))]: the season and
    episode numbers are parsed from the text [v] where the pattern is found,
    and are absent otherwise.  No search is made on [None], and [re.search]
    raises [TypeError] on a value that is not a string. *)
Definition search_regex_episode (v : json)
    : M (option string * option string) :=
  match v with
  | JNull => ret (None, None)
  | JStr s =>
      match search_episode s with
      | Some (season, episode) => ret (Some season, Some episode)
      | None => ret (None, None)
      end
  | _ => raise TypeError
  end.

(** *** Lines 93-138: the metadata of the two device profiles *)

(** The local variables of [_extract_video] that the first loop fills. *)
Record fetched : Type := {
  st_is_live : json;
  st_videos : list pydict;
  st_title : json;
  st_subtitle : json;
  st_episode_number : option string;
  st_season_number : option string;
  st_image : json;
  st_duration : json;
  st_timestamp : json;
  st_spritesheets : json
}.

Definition fetched_init : fetched :=
  {| st_is_live := JNull; st_videos := []; st_title := JNull;
     st_subtitle := JNull; st_episode_number := None;
     st_season_number := None; st_image := JNull; st_duration := JNull;
     st_timestamp := JNull; st_spritesheets := JNull |}.

(** [if x is None: x = v]. *)
Definition if_none (x v : json) : json := if is_none x then v else x.

Definition player_url (video_id : string) : string :=
  ("https://player.webservices.francetelevisions.fr/v1/videos/" ++ video_id)
  %string.

(** Lines 116-124. *)
Definition merge_video (st : fetched) (dinfo : json) : fetched :=
  match traverse_obj_dict dinfo "video" with
  | Some video =>
      if truthy (JDict video) then
        {| st_is_live := if_none (st_is_live st) (dict_get video "is_live");
           st_videos := st_videos st ++ [video];
           st_title := st_title st;
           st_subtitle := st_subtitle st;
           st_episode_number := st_episode_number st;
           st_season_number := st_season_number st;
           st_image := st_image st;
           st_duration := if_none (st_duration st) (dict_get video "duration");
           st_timestamp := st_timestamp st;
           st_spritesheets :=
             if_none (st_spritesheets st) (dict_get video "spritesheets") |}
      else st
  | None => st
  end.

(** Lines 126-138. *)
Definition merge_meta (st : fetched) (dinfo : json) : M fetched :=
  match traverse_obj_dict dinfo "meta" with
  | Some meta =>
      if truthy (JDict meta) then
        '(season_number, episode_number) <-
            search_regex_episode (dict_get meta "pre_title") ;;
        ret {| st_is_live := st_is_live st;
               st_videos := st_videos st;
               st_title := if_none (st_title st) (dict_get meta "title");
               st_subtitle :=
                 if_none (st_subtitle st) (dict_get meta "additional_title");
               st_episode_number := episode_number;
               st_season_number := season_number;
               st_image := if_none (st_image st) (dict_get meta "image_url");
               st_duration := st_duration st;
               st_timestamp :=
                 if is_none (st_timestamp st)
                 then parse_iso8601 H (dict_get meta "broadcasted_at")
                 else st_timestamp st;
               st_spritesheets := st_spritesheets st |}
      else ret st
  | None => ret st
  end.

(** The query of lines 107-111. *)
Definition profile_query (device_type : string) (hostname : json) : pydict :=
  filter_dict [("device_type", JStr device_type);
               ("browser", JStr "chrome");
               ("domain", hostname)].

(** The body of the loop of line 104. *)
Definition fetch_profile (B : Backend) (video_id : string) (hostname : json)
    (st : fetched) (device_type : string) : M fetched :=
  dinfo <- call_download_json B (player_url video_id) video_id
             (profile_query device_type hostname) ;;
  if negb (truthy dinfo) then ret st
  else merge_meta (merge_video st dinfo) dinfo.

Definition device_types : list string := ["desktop"; "mobile"].

Definition fetch_metadata (B : Backend) (video_id : string) (hostname : json)
    : M fetched :=
  for_each (fetch_profile B video_id hostname) device_types fetched_init.

(** *** Lines 140-183: the formats of the descriptors *)

(** The local variables of the second loop. *)
Record resolved : Type := {
  rs_formats : list pydict;
  rs_subtitles : pydict;
  rs_video_url : option string
}.

Definition resolved_init : resolved :=
  {| rs_formats := []; rs_subtitles := []; rs_video_url := None |}.

(** The filter of line 141, [lambda _, v: url_or_none(v['url'])]; a
    descriptor without the key is dropped ([traverse_obj] swallows the
    [KeyError]). *)
Definition has_url (video : pydict) : bool :=
  match dict_lookup video "url" with
  | Some u => truthy_ostr (url_or_none u)
  | None => false
  end.

(** [video['url']] of a descriptor that passed [has_url], where it is a
    [str] (lemma [has_url_str]). *)
Definition descriptor_url (video : pydict) : string :=
  match dict_get video "url" with JStr s => s | _ => EmptyString end.

(** Lines 145-154: the URL after the token exchange. *)
Definition sign_url (B : Backend) (video_id : string) (video : pydict)
    (video_url : string) : M string :=
  match url_or_none (dict_get video "token") with
  | Some token_url =>
      if negb (is_empty token_url)
         && eq_str (dict_get video "workflow") "token-akamai"
      then
        answer <- call_download_json B token_url video_id
                    [("format", JStr "json"); ("url", JStr video_url)] ;;
        match traverse_obj_url answer with
        | Some tokenized_url =>
            if negb (is_empty tokenized_url) then ret tokenized_url
            else ret video_url
        | None => ret video_url
        end
      else ret video_url
  | None => ret video_url
  end.

(** Lines 156-183: the formats of one URL, added to [acc]. *)
Definition extract_formats (B : Backend) (video_id : string) (acc : resolved)
    (format_id : json) (video_url : string) : M resolved :=
  let ext := determine_ext H video_url in
  if (ext =? "f4m")%string then
    fmts <- call_extract_f4m B video_url video_id format_id ;;
    ret {| rs_formats := rs_formats acc ++ fmts;
           rs_subtitles := rs_subtitles acc;
           rs_video_url := Some video_url |}
  else if (ext =? "m3u8")%string then
    '(fmts, subs) <- call_extract_m3u8 B video_url video_id format_id ;;
    ret {| rs_formats := rs_formats acc ++ fmts;
           rs_subtitles := merge_subtitles H subs (rs_subtitles acc);
           rs_video_url := Some video_url |}
  else if (ext =? "mpd")%string then
    '(fmts, subs) <- call_extract_mpd B video_url video_id format_id ;;
    ret {| rs_formats := rs_formats acc ++ fmts;
           rs_subtitles := merge_subtitles H subs (rs_subtitles acc);
           rs_video_url := Some video_url |}
  else if startswith "rtmp" video_url then
    ret {| rs_formats :=
             rs_formats acc ++
               [[("url", JStr video_url);
                 ("format_id", JStr ("rtmp-" ++ py_str format_id)%string);
                 ("ext", JStr "flv")]];
           rs_subtitles := rs_subtitles acc;
           rs_video_url := Some video_url |}
  else
    valid <- call_is_valid_url B video_url video_id format_id ;;
    ret {| rs_formats :=
             if valid : bool then
               rs_formats acc ++
                 [[("url", JStr video_url); ("format_id", format_id)]]
             else rs_formats acc;
           rs_subtitles := rs_subtitles acc;
           rs_video_url := Some video_url |}.

(** The body of the loop of line 141. *)
Definition resolve_descriptor (B : Backend) (video_id : string)
    (acc : resolved) (video : pydict) : M resolved :=
  video_url <- sign_url B video_id video (descriptor_url video) ;;
  extract_formats B video_id acc (dict_get video "format") video_url.

Definition resolve_formats (B : Backend) (video_id : string)
    (videos : list pydict) : M resolved :=
  for_each (resolve_descriptor B video_id) (filter has_url videos)
    resolved_init.

(** *** Lines 187-192: the probe for a regional block *)

Definition GEO_COUNTRIES : list string := ["FR"].

(** [urlh and urlh.headers.get('x-errortype') == 'geo'] *)
Definition geo_signalled (urlh : option headers) : bool :=
  match urlh with
  | Some h =>
      match header_get h "x-errortype" with
      | Some v => (v =? "geo")%string
      | None => false
      end
  | None => false
  end.

(** Modelled from the spec: [raise_geo_restricted] of the framework's
    [InfoExtractor], which is not in the extractor's file, raises
    [GeoRestricted]. *)
Definition raise_geo_restricted (countries : list string) : M unit :=
  raise (GeoRestrictedError countries).

(** Lines 187-192. *)
Definition check_geo (B : Backend) (video_id : string) (r : resolved)
    : M unit :=
  match rs_formats r, rs_video_url r with
  | [], Some video_url =>
      if negb (is_empty video_url) then
        urlh <- call_request_head B video_url video_id ;;
        if geo_signalled urlh then raise_geo_restricted GEO_COUNTRIES
        else ret tt
      else ret tt
  | _, _ => ret tt
  end.

(** *** Lines 194-197: audio description *)

Definition is_audio_description (f : pydict) : bool :=
  negb (eq_str (dict_get f "acodec") "none")
  && (eq_str (dict_get f "language") "qtz"
      || eq_str (dict_get f "language") "qad").

Definition rank_format (f : pydict) : pydict :=
  if is_audio_description f then
    let f1 := dict_set f "language_preference" (JNum (-10)) in
    dict_set f1 "format_note"
      (JStr ("audio description"
             ++ format_field H f1 "format_note" ", %s")%string)
  else f.

(** *** Lines 199-215: the storyboard *)

(** [for sheet in v]: the elements of a list, the characters of a string,
    the keys of a dict; nothing else can be iterated. *)
Definition py_iter (v : json) : option (list json) :=
  match v with
  | JList l => Some l
  | JStr s =>
      Some (map (fun c => JStr (String c EmptyString)) (list_ascii_of_string s))
  | JDict d => Some (map (fun kv => JStr (fst kv)) d)
  | _ => None
  end.

Definition FRAGMENT_DURATION : Z := 200.

Definition fragment (sheet : json) : json :=
  JDict [("url", sheet); ("duration", JNum FRAGMENT_DURATION)].

Definition storyboard (sheets : list json) : pydict :=
  [("format_id", JStr "spritesheets");
   ("format_note", JStr "storyboard");
   ("acodec", JStr "none");
   ("vcodec", JStr "none");
   ("ext", JStr "mhtml");
   ("protocol", JStr "mhtml");
   ("url", JStr "about:invalid");
   ("fragments", JList (map fragment sheets))].

Definition add_storyboard (spritesheets : json) (formats : list pydict)
    : M (list pydict) :=
  if truthy spritesheets then
    match py_iter spritesheets with
    | Some sheets => ret (formats ++ [storyboard sheets])
    | None => raise TypeError
    end
  else ret formats.

(** *** Lines 217-230: the manifest *)

Record manifest : Type := {
  m_id : string;
  m_title : string;
  m_thumbnail : json;
  m_duration : json;
  m_timestamp : json;
  m_is_live : json;
  m_formats : list pydict;
  m_subtitles : pydict;
  m_episode : json;
  m_series : json;
  m_episode_number : option Z;
  m_season_number : option Z
}.

Definition assemble (video_id : string) (st : fetched) (formats : list pydict)
    (subtitles : pydict) : manifest :=
  {| m_id := video_id;
     m_title := strip (join_nonempty " - " [st_title st; st_subtitle st]);
     m_thumbnail := st_image st;
     m_duration := st_duration st;
     m_timestamp := st_timestamp st;
     m_is_live := st_is_live st;
     m_formats := formats;
     m_subtitles := subtitles;
     m_episode :=
       if truthy_ostr (st_episode_number st) then st_subtitle st else JNull;
     m_series :=
       if truthy_ostr (st_episode_number st) then st_title st else JNull;
     m_episode_number := int_or_none (st_episode_number st);
     m_season_number := int_or_none (st_season_number st) |}.

(** Lines 140-230, from the merged metadata on. *)
Definition resolve_and_assemble (B : Backend) (video_id : string)
    (st : fetched) : M manifest :=
  r <- resolve_formats B video_id (st_videos st) ;;
  _ <- check_geo B video_id r ;;
  formats <- add_storyboard (st_spritesheets st) (map rank_format (rs_formats r)) ;;
  ret (assemble video_id st formats (rs_subtitles r)).

Definition _extract_video (B : Backend) (video_id : string)
    (catalogue hostname : json) : M manifest :=
  st <- fetch_metadata B video_id hostname ;;
  resolve_and_assemble B video_id st.

(** *** [_VALID_URL] of [FranceTVIE] *)

(** [s] without the prefix [p], when it has it. *)
Fixpoint strip_prefix (p s : string) : option string :=
  match p, s with
  | EmptyString, _ => Some s
  | String a p', String b s' =>
      if Ascii.eqb a b then strip_prefix p' s' else None
  | String _ _, EmptyString => None
  end.

(** [https?://] followed by [rest]. *)
Definition after_http (rest url : string) : option string :=
  match strip_prefix ("https://" ++ rest) url with
  | Some r => Some r
  | None => strip_prefix ("http://" ++ rest) url
  end.

Definition newline : ascii := ascii_of_N 10.

Definition not_at (c : ascii) : bool := negb (Ascii.eqb c "@").
Definition not_amp (c : ascii) : bool := negb (Ascii.eqb c "&").
Definition not_newline (c : ascii) : bool := negb (Ascii.eqb c newline).

(** [idDiffusion=[^&]+] at the head of [s]. *)
Definition id_diffusion_here (s : string) : bool :=
  match strip_prefix "idDiffusion=" s with
  | Some (String c _) => not_amp c
  | _ => false
  end.

(** [.*?\bidDiffusion=[^&]+] on [s], the character before [s] being
    [prev]: [.] does not cross a newline, and the boundary asks for a
    character before [i] that is not a word character. *)
Fixpoint lazy_id_diffusion (prev : ascii) (s : string) : bool :=
  (negb (is_word prev) && id_diffusion_here s)
  || match s with
     | String c r => not_newline c && lazy_id_diffusion c r
     | EmptyString => false
     end.

(** The first alternative: the web service URL. *)
Definition match_api_url (url : string) : bool :=
  match after_http
          "sivideo.webservices.francetelevisions.fr/tools/getInfosOeuvre/v2/?"
          url with
  | Some r => lazy_id_diffusion "?" r
  | None => false
  end.

(** [(?P<id>[^@]+)(?:@(?P<catalog>.+))?] at the head of [s]. *)
Definition match_id_catalog (s : string)
    : option (option string * option string) :=
  let (id, r) := span not_at s in
  if is_empty id then None
  else
    match r with
    | String c r' =>
        let catalog := fst (span not_newline r') in
        Some (Some id,
              if Ascii.eqb c "@" && negb (is_empty catalog)
              then Some catalog else None)
    | EmptyString => Some (Some id, None)
    end.

(** [self._match_valid_url(url)], which is [re.match] with [_VALID_URL]:
    [None] when the pattern does not match at the start of [url], the groups
    [id] and [catalog] otherwise. *)
Definition match_valid_url (url : string)
    : option (option string * option string) :=
  if match_api_url url then Some (None, None)
  else
    match after_http "videos.francetv.fr/video/" url with
    | Some r => match_id_catalog r
    | None =>
        match strip_prefix "francetv:" url with
        | Some r => match_id_catalog r
        | None => None
        end
    end.

(** *** [FranceTVIE._real_extract], lines 232-245 *)

(** [qs.get(key, [None])[0]] *)
Definition qs_first (qs : list (string * (string * list string)))
    (key : string) : option string :=
  match find (fun kv => (fst kv =? key)%string) qs with
  | Some (_, (v, _)) => Some v
  | None => None
  end.

Definition ostr_json (o : option string) : json :=
  match o with Some s => JStr s | None => JNull end.

(** Lines 239-243: the identifier from the query string. *)
Definition classify_query (url : string) (hostname : json)
    : M (string * option string * json) :=
  let qs := parse_qs H url in
  let video_id := qs_first qs "idDiffusion" in
  let catalog := qs_first qs "catalogue" in
  match video_id with
  | Some v =>
      if is_empty v then raise (ExtractorError "Invalid URL" true)
      else ret (v, catalog, hostname)
  | None => raise (ExtractorError "Invalid URL" true)
  end.

(** Lines 233-243: the reference a URL stands for, as the arguments the last
    line passes to [_extract_video].  [mobj.group] on a URL the pattern does
    not match raises [AttributeError]. *)
Definition classify (url0 : string) : M (string * option string * json) :=
  let (url, smuggled_data) := unsmuggle_url H url0 in
  let hostname := dict_get smuggled_data "hostname" in
  match match_valid_url url with
  | None => raise AttributeError
  | Some (Some video_id, catalog) =>
      if is_empty video_id then classify_query url hostname
      else ret (video_id, catalog, hostname)
  | Some (None, _) => classify_query url hostname
  end.

Definition _real_extract (B : Backend) (url : string) : M manifest :=
  '(video_id, catalog, hostname) <- classify url ;;
  _extract_video B video_id (ostr_json catalog) hostname.

(** *** [FranceTVBaseInfoExtractor._make_url_result], lines 23-31 *)

(** Modelled from the spec: the result-wrapping constructor [url_result] of
    the framework, from an identifier to a delegated reference: the URL to
    resolve, the extractor to resolve it with, and the video id. *)
Record url_result : Type := {
  ur_url : string;
  ur_ie_key : string;
  ur_video_id : string
}.

(** [s.split('@')[0]] *)
Definition before_at (s : string) : string := fst (span not_at s).

Definition _make_url_result (video_or_full_id : string) (catalog : json)
    (url : option string) : url_result :=
  let full_id := ("francetv:" ++ video_or_full_id)%string in
  let full_id :=
    if negb (contains_char "@" video_or_full_id) && truthy catalog
    then (full_id ++ "@" ++ py_str catalog)%string
    else full_id in
  let full_id :=
    match url with
    | Some u =>
        if negb (is_empty u)
        then smuggle_url H full_id [("hostname", urlparse_hostname H u)]
        else full_id
    | None => full_id
    end in
  {| ur_url := full_id;
     ur_ie_key := "FranceTV";
     ur_video_id := before_at video_or_full_id |}.

End Extractor.

Arguments url_or_none H v : simpl nomatch.

(** ** The vocabulary of the properties *)

Section Vocabulary.

Variable H : Helpers.

(** The answer of the backend to the metadata query of a device profile. *)
Definition profile_answer (B : Backend) (video_id : string) (hostname : json)
    (device_type : string) : json :=
  download_json B (player_url video_id) video_id
    (profile_query device_type hostname).

(** The [video] or [meta] object of an answer as far as the first loop looks
    at it: a false answer, or an entry that is not a non-empty dict, offers
    nothing. *)
Definition usable (dinfo : json) (key : string) : option pydict :=
  if truthy dinfo then
    match traverse_obj_dict dinfo key with
    | Some (b :: d) => Some (b :: d)
    | _ => None
    end
  else None.

Definition offered_under (o : option pydict) (key : string) : json :=
  match o with Some d => dict_get d key | None => JNull end.

(** The metadata fields that the first loop sets under [if x is None]. *)
Inductive field : Type :=
| Title | Subtitle | Image | Duration | Timestamp | IsLive | Spritesheets.

(** The value an answer offers for a field. *)
Definition offered (f : field) (dinfo : json) : json :=
  match f with
  | Title => offered_under (usable dinfo "meta") "title"
  | Subtitle => offered_under (usable dinfo "meta") "additional_title"
  | Image => offered_under (usable dinfo "meta") "image_url"
  | Timestamp =>
      match usable dinfo "meta" with
      | Some meta => parse_iso8601 H (dict_get meta "broadcasted_at")
      | None => JNull
      end
  | Duration => offered_under (usable dinfo "video") "duration"
  | IsLive => offered_under (usable dinfo "video") "is_live"
  | Spritesheets => offered_under (usable dinfo "video") "spritesheets"
  end.

(** The merged value of a field. *)
Definition merged (f : field) (st : fetched) : json :=
  match f with
  | Title => st_title st
  | Subtitle => st_subtitle st
  | Image => st_image st
  | Timestamp => st_timestamp st
  | Duration => st_duration st
  | IsLive => st_is_live st
  | Spritesheets => st_spritesheets st
  end.

(** The first value of a list that is not [None]. *)
Fixpoint first_non_null (vs : list json) : json :=
  match vs with
  | [] => JNull
  | v :: rest => if is_none v then first_non_null rest else v
  end.

(** The same for the optional strings the episode pattern yields. *)
Fixpoint first_some (vs : list (option string)) : option string :=
  match vs with
  | [] => None
  | Some v :: _ => Some v
  | None :: rest => first_some rest
  end.

(** The season and episode groups of a pre-title. *)
Definition episode_groups (pre_title : json) : option string * option string :=
  match pre_title with
  | JStr s =>
      match search_episode s with
      | Some (season, episode) => (Some season, Some episode)
      | None => (None, None)
      end
  | _ => (None, None)
  end.

(** The pre-title the loop is left with: that of the last profile whose
    answer has a usable [meta]. *)
Definition last_pre_title (B : Backend) (video_id : string) (hostname : json)
    : option json :=
  match usable (profile_answer B video_id hostname "mobile") "meta" with
  | Some meta => Some (dict_get meta "pre_title")
  | None =>
      match usable (profile_answer B video_id hostname "desktop") "meta" with
      | Some meta => Some (dict_get meta "pre_title")
      | None => None
      end
  end.

(** A pre-title is text or missing. *)
Definition text_or_none (v : json) : bool :=
  match v with JNull | JStr _ => true | _ => false end.

(** The pre-title of every usable [meta] is text or missing; the first loop
    returns exactly then (lemma [fetch_metadata_returns]). *)
Definition pre_titles_are_text (B : Backend) (video_id : string)
    (hostname : json) : bool :=
  forallb
    (fun dev =>
       match usable (profile_answer B video_id hostname dev) "meta" with
       | Some meta => text_or_none (dict_get meta "pre_title")
       | None => true
       end)
    device_types.

(** The stream descriptor an answer contributes: its [video] entry when that
    is a non-empty dict. *)
Definition contributed (dinfo : json) : list pydict :=
  match usable dinfo "video" with Some video => [video] | None => [] end.

Definition is_dict (v : json) : bool :=
  match v with JDict _ => true | _ => false end.

(** The number of stream descriptors an answer advertises when its [video]
    entry is read as the specification's list of descriptors: one for an
    object, one per object of a list. *)
Definition advertised_descriptors (dinfo : json) : nat :=
  match dinfo with
  | JDict d =>
      match dict_get d "video" with
      | JDict (_ :: _) => 1
      | JList l => length (filter is_dict l)
      | _ => 0
      end
  | _ => 0
  end.

(** The four series fields of a manifest are absent. *)
Definition series_absent (m : manifest) : Prop :=
  m_episode m = JNull /\ m_series m = JNull
  /\ m_episode_number m = None /\ m_season_number m = None.

(** The season and episode groups an answer offers. *)
Definition offered_episode (dinfo : json) : option string * option string :=
  match usable dinfo "meta" with
  | Some meta => episode_groups (dict_get meta "pre_title")
  | None => (None, None)
  end.

(** What the second loop returns; it never raises (lemma
    [resolve_formats_returns]). *)
Definition resolved_of (B : Backend) (video_id : string)
    (videos : list pydict) : resolved :=
  match result (resolve_formats H B video_id videos) with
  | Ok r => r
  | Raised _ => resolved_init
  end.

(** A computation after the calls [t]. *)
Definition logged {A} (t : list request) (m : M A) : M A :=
  (result m, t ++ trace m).


Definition is_download_json (r : request) : bool :=
  match r with DownloadJSON _ _ _ => true | _ => false end.

(** Modelled from the spec: the selection preference of a format is its
    [language_preference], and the default preference of the framework's
    format selection when the format carries none; the format selection
    itself is not part of the extractor. *)
Definition preference (default_preference : Z) (f : pydict) : Z :=
  match dict_lookup f "language_preference" with
  | Some (JNum n) => n
  | _ => default_preference
  end.

Definition language_is_audio_description (f : pydict) : bool :=
  eq_str (dict_get f "language") "qtz" || eq_str (dict_get f "language") "qad".

(** Two backends give the same answer to a call. *)
Definition agree (B1 B2 : Backend) (r : request) : Prop :=
  match r with
  | DownloadJSON url video_id query =>
      download_json B1 url video_id query = download_json B2 url video_id query
  | ExtractF4M url video_id f4m_id =>
      extract_f4m_formats B1 url video_id f4m_id
      = extract_f4m_formats B2 url video_id f4m_id
  | ExtractM3U8 url video_id m3u8_id =>
      extract_m3u8_formats_and_subtitles B1 url video_id m3u8_id
      = extract_m3u8_formats_and_subtitles B2 url video_id m3u8_id
  | ExtractMPD url video_id mpd_id =>
      extract_mpd_formats_and_subtitles B1 url video_id mpd_id
      = extract_mpd_formats_and_subtitles B2 url video_id mpd_id
  | IsValidURL url video_id item =>
      is_valid_url B1 url video_id item = is_valid_url B2 url video_id item
  | RequestHEAD url video_id =>
      request_webpage_head B1 url video_id = request_webpage_head B2 url video_id
  end.

(** Two computations are the same, calls included, as soon as the backends
    agree on the calls of the first. *)
Definition same_run (B1 B2 : Backend) {A} (m1 m2 : M A) : Prop :=
  (forall r, In r (trace m1) -> agree B1 B2 r) -> m1 = m2.

(** The prefixes of the legacy and of the internal shape. *)
Definition reference_prefixes : list string :=
  ["francetv:"; "http://videos.francetv.fr/video/";
   "https://videos.francetv.fr/video/"].


(** The last character of [pre], or [prev] when [pre] is empty. *)
Fixpoint last_char (prev : ascii) (pre : string) : ascii :=
  match pre with
  | EmptyString => prev
  | String c r => last_char c r
  end.

(** [S(\d+)\s*E(\d+)] matches at the head of [s] with the groups [season] and
    [episode] and leaves [rest]: the declarative reading of the pattern,
    without the order in which [re] tries the matches. *)
Definition episode_match (s season episode rest : string) : Prop :=
  exists spaces,
    s = (String "S" season ++ spaces ++ String "E" episode ++ rest)%string
    /\ is_empty season = false /\ all_chars is_digit season = true
    /\ all_chars is_space spaces = true
    /\ is_empty episode = false /\ all_chars is_digit episode = true.

End Vocabulary.

(** ** Sample helpers and backends

    Simple stand-ins for the helpers and the network, to run the extractor
    on concrete inputs. *)

Module Sample.

Definition scheme_ok (s : string) : bool :=
  startswith "http://" s || startswith "https://" s
  || startswith "rtmp://" s || startswith "//" s.

(** What follows the last [c] of [s]. *)
Fixpoint after_last (c : ascii) (s : string) : option string :=
  match s with
  | EmptyString => None
  | String a r =>
      match after_last c r with
      | Some t => Some t
      | None => if Ascii.eqb a c then Some r else None
      end
  end.

Definition is_alnum_ascii (c : ascii) : bool :=
  (((48 <=? code c) && (code c <=? 57)) || ((65 <=? code c) && (code c <=? 90))
   || ((97 <=? code c) && (code c <=? 122)))%N.

(** [determine_ext] without its table of known extensions. *)
Definition ext_of (url : string) : string :=
  let path := fst (span (fun c => negb (Ascii.eqb c "?")) url) in
  match after_last "." path with
  | Some guess =>
      if negb (is_empty guess) && all_chars is_alnum_ascii guess then guess
      else "unknown_video"
  | None => "unknown_video"
  end.

Definition iso8601 (v : json) : json :=
  match v with
  | JStr s =>
      if (s =? "2022-01-21T10:36:00Z")%string then JNum 1642761360
      else if (s =? "2017-08-13T11:25:00Z")%string then JNum 1502623500
      else JNull
  | _ => JNull
  end.

Definition repr (v : json) : string :=
  match v with
  | JNull => "None"
  | JBool true => "True"
  | JBool false => "False"
  | JNum n => NilZero.string_of_int (Z.to_int n)
  | JStr s => s
  | JList _ => "[...]"
  | JDict _ => "{...}"
  end.

Definition merge (subs target : pydict) : pydict := target ++ subs.

(** The pieces of [s] between the occurrences of [c]. *)
Fixpoint split_on (c : ascii) (s : string) : list string :=
  match s with
  | EmptyString => [EmptyString]
  | String a r =>
      if Ascii.eqb a c then EmptyString :: split_on c r
      else
        match split_on c r with
        | p :: ps => String a p :: ps
        | [] => [String a EmptyString]
        end
  end.

Definition is_char (c a : ascii) : bool := Ascii.eqb a c.
Definition not_char (c a : ascii) : bool := negb (Ascii.eqb a c).

(** The side data rides behind a [#host=] mark. *)
Fixpoint unsmuggle (url : string) : string * pydict :=
  match strip_prefix "#host=" url with
  | Some host => (EmptyString, [("hostname", JStr host)])
  | None =>
      match url with
      | String a r => let (u, d) := unsmuggle r in (String a u, d)
      | EmptyString => (EmptyString, [])
      end
  end.

Definition smuggle (url : string) (data : pydict) : string :=
  (url ++ "#host=" ++ repr (dict_get data "hostname"))%string.

(** One [key=value] piece of a query; pieces with a blank value are left out. *)
Definition query_pair (piece : string) : list (string * string) :=
  let (k, r) := span (not_char "=") piece in
  match r with
  | String _ v => if is_empty v then [] else [(k, v)]
  | EmptyString => []
  end.

Fixpoint add_value (qs : list (string * (string * list string)))
    (k v : string) : list (string * (string * list string)) :=
  match qs with
  | [] => [(k, (v, []))]
  | (k', (v0, vs)) :: qs' =>
      if (k' =? k)%string then (k', (v0, vs ++ [v])) :: qs'
      else (k', (v0, vs)) :: add_value qs' k v
  end.

(** The query of a URL, without percent-decoding. *)
Definition query_of (url : string) : list (string * (string * list string)) :=
  let before_fragment := fst (span (not_char "#") url) in
  match snd (span (not_char "?") before_fragment) with
  | String _ q =>
      fold_left (fun qs kv => add_value qs (fst kv) (snd kv))
        (flat_map query_pair (split_on "&" q)) []
  | EmptyString => []
  end.

Definition hostname_of (url : string) : json :=
  match split_on "/" url with
  | _ :: _ :: host :: _ => JStr host
  | _ => JNull
  end.

(** [format_field] on a template that ends in [%s]: nothing for a false
    value. *)
Definition field_text (obj : pydict) (field template : string) : string :=
  let val := dict_get obj field in
  if truthy val then (fst (span (not_char "%") template) ++ repr val)%string
  else EmptyString.

Definition helpers : Helpers :=
  {| url_scheme_ok := scheme_ok;
     determine_ext := ext_of;
     parse_iso8601 := iso8601;
     py_repr := repr;
     format_field := field_text;
     merge_subtitles := merge;
     unsmuggle_url := unsmuggle;
     smuggle_url := smuggle;
     parse_qs := query_of;
     urlparse_hostname := hostname_of |}.

(** A backend that answers the desktop and the mobile metadata query with
    [desktop] and [mobile] and the other calls by the given functions of the
    URL. *)
Definition backend (desktop mobile : json) (token : string -> json)
    (manifest_formats : string -> list pydict * pydict)
    (valid : string -> bool) (probe : string -> option headers) : Backend :=
  {| download_json := fun url _ query =>
       if startswith "https://player.webservices.francetelevisions.fr/" url
       then if eq_str (dict_get query "device_type") "desktop"
            then desktop else mobile
       else token url;
     extract_f4m_formats := fun url _ _ => fst (manifest_formats url);
     extract_m3u8_formats_and_subtitles :=
       fun url _ _ => manifest_formats url;
     extract_mpd_formats_and_subtitles :=
       fun url _ _ => manifest_formats url;
     is_valid_url := fun url _ _ => valid url;
     request_webpage_head := fun url _ => probe url |}.

Definition no_token (_ : string) : json := JBool false.
Definition no_formats (_ : string) : list pydict * pydict := ([], []).
Definition no_probe (_ : string) : option headers := None.

(** A backend with metadata only. *)
Definition metadata_backend (desktop mobile : json) : Backend :=
  backend desktop mobile no_token no_formats (fun _ => false) no_probe.

End Sample.

(** ** Sample inputs *)

Module Inputs.

Import Sample.

(** A series episode as the desktop profile describes it. *)
Definition desktop_episode : json :=
  JDict [("video", JDict [("url", JStr "https://cdn.example/foot2rue.m3u8");
                          ("format", JStr "hls");
                          ("duration", JNum 1441)]);
         ("meta", JDict [("title", JStr "Foot2Rue");
                         ("additional_title", JStr "Duel au vieux port");
                         ("pre_title", JStr "S1 E3");
                         ("broadcasted_at", JStr "2022-01-21T10:36:00Z")])].

(** The same episode from the mobile profile, which leaves the pre-title
    out. *)
Definition mobile_no_pre_title : json :=
  JDict [("video", JDict [("url", JStr "https://cdn.example/foot2rue.mpd");
                          ("format", JStr "dash")]);
         ("meta", JDict [("title", JStr "Foot2Rue")])].

(** The mobile profile with the pre-title. *)
Definition mobile_episode : json :=
  JDict [("video", JDict [("url", JStr "https://cdn.example/foot2rue.mpd");
                          ("format", JStr "dash")]);
         ("meta", JDict [("title", JStr "Foot2Rue (mobile)");
                         ("pre_title", JStr "S1 E3");
                         ("image_url", JStr "https://img.example/f2r.jpg")])].

Definition overwriting_backend : Backend :=
  metadata_backend desktop_episode mobile_no_pre_title.

Definition episode_backend : Backend :=
  metadata_backend desktop_episode mobile_episode.

Definition episode_fetched : fetched :=
  Eval cbv in
    match result (fetch_metadata helpers episode_backend "a9050959" JNull) with
    | Ok st => st
    | Raised _ => fetched_init
    end.

(** An answer whose [video] entry is a list of two descriptors. *)
Definition desktop_two_descriptors : json :=
  JDict [("video",
          JList [JDict [("url", JStr "https://cdn.example/a.m3u8")];
                 JDict [("url", JStr "https://cdn.example/a.mpd")]])].

Definition mobile_one_descriptor : json :=
  JDict [("video", JDict [("url", JStr "https://cdn.example/a.m3u8")])].

Definition list_backend : Backend :=
  metadata_backend desktop_two_descriptors mobile_one_descriptor.

(** Both profiles advertise the same descriptor. *)
Definition twice_backend : Backend :=
  metadata_backend mobile_one_descriptor mobile_one_descriptor.




(** A direct URL that does not answer, with spritesheets; the probe finds
    no sign of a regional block. *)
Definition unreachable_video : pydict :=
  [("url", JStr "https://cdn.example/clip.mp4");
   ("format", JStr "mp4");
   ("spritesheets", JList [JStr "https://img.example/sheet1.jpg";
                           JStr "https://img.example/sheet2.jpg"])].

Definition plain_probe (_ : string) : option headers :=
  Some [("content-type", "video/mp4")].

Definition geo_probe (_ : string) : option headers :=
  Some [("x-errortype", "geo")].

Definition unreachable_backend : Backend :=
  backend (JDict [("video", JDict unreachable_video)]) (JBool false)
    no_token no_formats (fun _ => false) plain_probe.

Definition blocked_backend : Backend :=
  backend (JDict [("video", JDict unreachable_video)]) (JBool false)
    no_token no_formats (fun _ => false) geo_probe.

Definition unreachable_fetched : fetched :=
  Eval cbv in
    match result (fetch_metadata helpers unreachable_backend "clip" JNull) with
    | Ok st => st
    | Raised _ => fetched_init
    end.

(** A DASH manifest with a video-only representation tagged [qad] and an
    audio track tagged [qad]. *)
Definition dash_video : pydict :=
  [("url", JStr "https://cdn.example/a.mpd"); ("format", JStr "dash")].

Definition video_only_qad : pydict :=
  [("format_id", JStr "dash-video=qad");
   ("acodec", JStr "none"); ("vcodec", JStr "avc1");
   ("language", JStr "qad")].

Definition audio_qad : pydict :=
  [("format_id", JStr "dash-audio_qad"); ("acodec", JStr "mp4a");
   ("vcodec", JStr "none"); ("language", JStr "qad");
   ("format_note", JStr "DASH audio")].

Definition dash_formats (_ : string) : list pydict * pydict :=
  ([video_only_qad; audio_qad], []).

Definition dash_backend : Backend :=
  backend (JDict [("video", JDict dash_video)]) (JBool false)
    no_token dash_formats (fun _ => false) no_probe.

Definition dash_fetched : fetched :=
  Eval cbv in
    match result (fetch_metadata helpers dash_backend "ad" JNull) with
    | Ok st => st
    | Raised _ => fetched_init
    end.

Definition dash_manifest : manifest :=
  Eval cbv in
    match result (_extract_video helpers dash_backend "ad" JNull JNull) with
    | Ok m => m
    | Raised _ => assemble helpers "" fetched_init [] []
    end.

(** The backend of the episode, and one that differs from it on a call the
    resolution of the episode does not make. *)
Definition first_backend : Backend := episode_backend.

Definition second_backend : Backend :=
  backend desktop_episode mobile_episode no_token no_formats
    (fun _ => true) no_probe.

End Inputs.

(** ** More vocabulary: the resolution as a whole *)

Section VocabularyResolution.

Variable H : Helpers.

(** The formats one descriptor gives on its own. *)
Definition descriptor_formats (B : Backend) (video_id : string)
    (video : pydict) : list pydict :=
  match result (resolve_descriptor H B video_id resolved_init video) with
  | Ok r => rs_formats r
  | Raised _ => []
  end.

Definition is_request_head (r : request) : bool :=
  match r with RequestHEAD _ _ => true | _ => false end.

(** The reference [_make_url_result] writes before it attaches the origin:
    [francetv:], the identifier, and the catalog when the identifier has
    none. *)
Definition reference_id (video_or_full_id : string) (catalog : json)
    : string :=
  ("francetv:" ++ video_or_full_id
   ++ (if negb (contains_char "@" video_or_full_id) && truthy catalog
       then "@" ++ py_str H catalog else EmptyString))%string.

(** The metadata query of a device profile. *)
Definition metadata_request (video_id : string) (hostname : json)
    (device_type : string) : request :=
  DownloadJSON (player_url video_id) video_id
    (profile_query device_type hostname).

(** The manifest of a video nothing is known about. *)
Definition bare_manifest (video_id : string) : manifest :=
  {| m_id := video_id; m_title := EmptyString; m_thumbnail := JNull;
     m_duration := JNull; m_timestamp := JNull; m_is_live := JNull;
     m_formats := []; m_subtitles := []; m_episode := JNull;
     m_series := JNull; m_episode_number := None; m_season_number := None |}.

End VocabularyResolution.

Module InputsResolution.

Import Sample.

(** Both metadata queries fail. *)
Definition silent_backend : Backend :=
  metadata_backend (JBool false) (JBool false).

(** A descriptor without URL. *)
Definition no_url_backend : Backend :=
  metadata_backend
    (JDict [("video", JDict [("format", JStr "hls"); ("duration", JNum 10)])])
    (JBool false).

Definition no_url_fetched : fetched :=
  Eval cbv in
    match result (fetch_metadata helpers no_url_backend "x" JNull) with
    | Ok st => st
    | Raised _ => fetched_init
    end.

End InputsResolution.

(** ** The page extractors: [FranceTVSiteIE] and [FranceTVInfoIE] *)

(** *** Patterns, in the order [re] tries the matches

    A pattern is written as a function of what follows it: [m k s] matches
    at the head of [s] and hands the rest to [k]; the first way that lets
    [k] succeed is the result, the ways being tried in the order of a
    backtracking search (more repetitions before fewer, the left branch of
    an alternative before the right one). *)

Section Patterns.

Context {A : Type}.

(** A literal text. *)
Definition lit (l : string) (k : string -> option A) (s : string) : option A :=
  match strip_prefix l s with Some r => k r | None => None end.

(** One character of a class. *)
Definition one (p : ascii -> bool) (k : string -> option A) (s : string)
    : option A :=
  match s with
  | String c r => if p c then k r else None
  | EmptyString => None
  end.

(** One character of a class, remembered. *)
Definition cap_one (p : ascii -> bool) (k : ascii -> string -> option A)
    (s : string) : option A :=
  match s with
  | String c r => if p c then k c r else None
  | EmptyString => None
  end.

(** [c*] for a class [c]; [prev] is the character before [s], and [k] gets
    the last character before the rest. *)
Fixpoint star_last (p : ascii -> bool) (k : ascii -> string -> option A)
    (prev : ascii) (s : string) : option A :=
  match s with
  | String c r =>
      if p c then
        match star_last p k c r with
        | Some x => Some x
        | None => k prev s
        end
      else k prev s
  | EmptyString => k prev s
  end.

(** [c+], with the last character it took. *)
Definition plus_last (p : ascii -> bool) (k : ascii -> string -> option A)
    (s : string) : option A :=
  match s with
  | String c r => if p c then star_last p k c r else None
  | EmptyString => None
  end.

(** [c*] and [c+]. *)
Definition star (p : ascii -> bool) (k : string -> option A) (s : string)
    : option A :=
  star_last p (fun _ => k) "000" s.

Definition plus (p : ascii -> bool) (k : string -> option A) (s : string)
    : option A :=
  plus_last p (fun _ => k) s.

(** [c*] and [c+] as a group: the text taken is handed on. *)
Fixpoint cap_star (p : ascii -> bool) (k : string -> string -> option A)
    (s : string) : option A :=
  match s with
  | String c r =>
      if p c then
        match cap_star p (fun g => k (String c g)) r with
        | Some x => Some x
        | None => k EmptyString s
        end
      else k EmptyString s
  | EmptyString => k EmptyString s
  end.

Definition cap_plus (p : ascii -> bool) (k : string -> string -> option A)
    (s : string) : option A :=
  match s with
  | String c r => if p c then cap_star p (fun g => k (String c g)) r else None
  | EmptyString => None
  end.

(** [c{n}] as a group. *)
Fixpoint cap_times (n : nat) (p : ascii -> bool)
    (k : string -> string -> option A) (s : string) : option A :=
  match n with
  | O => k EmptyString s
  | S n' =>
      match s with
      | String c r =>
          if p c then cap_times n' p (fun g => k (String c g)) r else None
      | EmptyString => None
      end
  end.

(** [x?] and [x|y] for patterns [x], [y]. *)
Definition opt (m : (string -> option A) -> string -> option A)
    (k : string -> option A) (s : string) : option A :=
  match m k s with Some x => Some x | None => k s end.

Definition alt (m1 m2 : (string -> option A) -> string -> option A)
    (k : string -> option A) (s : string) : option A :=
  match m1 k s with Some x => Some x | None => m2 k s end.

(** [(?:x)*] for a pattern [x] that takes at least one character; [fuel]
    bounds the repetitions, and the length of the text is enough. *)
Fixpoint group_star (fuel : nat)
    (m : (string -> option A) -> string -> option A)
    (k : string -> option A) (s : string) : option A :=
  match fuel with
  | O => k s
  | S n =>
      match m (group_star n m k) s with
      | Some x => Some x
      | None => k s
      end
  end.

(** [re.search]: the first position of the text where the pattern matches. *)
Fixpoint re_search (m : string -> option A) (s : string) : option A :=
  match m s with
  | Some x => Some x
  | None =>
      match s with
      | String _ r => re_search m r
      | EmptyString => None
      end
  end.

(** [_search_regex] with a tuple of patterns: the first pattern of the tuple
    that is found. *)
Fixpoint first_pattern (ms : list (string -> option A)) (s : string)
    : option A :=
  match ms with
  | [] => None
  | m :: rest =>
      match re_search m s with
      | Some x => Some x
      | None => first_pattern rest s
      end
  end.

End Patterns.

(** *** Characters of the patterns *)

Definition dquote : ascii := ascii_of_N 34.
Definition squote : ascii := ascii_of_N 39.

Definition is_char (c a : ascii) : bool := Ascii.eqb a c.
Definition not_char (c a : ascii) : bool := negb (Ascii.eqb a c).

(** One of the two quotes. *)
Definition is_quote (c : ascii) : bool := is_char dquote c || is_char squote c.
Definition not_quote (c : ascii) : bool := negb (is_quote c).

(** [[:=]] *)
Definition is_colon_or_equal (c : ascii) : bool := is_char ":" c || is_char "=" c.

(** [[\da-f]] *)
Definition is_hex (c : ascii) : bool :=
  is_digit c || ((97 <=? code c) && (code c <=? 102))%N.

(** [[^/?#&.]] *)
Definition is_id_char (c : ascii) : bool :=
  not_char "/" c && not_char "?" c && not_char "#" c && not_char "&" c
  && not_char "." c.

(** [(?!\1).] for the quote [q]: a character other than [q] and other than
    the newline. *)
Definition inside_quotes (q c : ascii) : bool := not_newline c && not_char q c.

(** [s.split(sep)] for a one-character separator. *)
Fixpoint py_split (sep : ascii) (s : string) : list string :=
  match s with
  | EmptyString => [EmptyString]
  | String a r =>
      if Ascii.eqb a sep then EmptyString :: py_split sep r
      else
        match py_split sep r with
        | p :: ps => String a p :: ps
        | [] => [String a EmptyString]
        end
  end.

(** *** What the page extractors return, and how they fail *)

(** Modelled from the spec: a delegated reference to another provider, as
    [self.url_result(url, ie)] of the framework builds it for an entry of a
    playlist: the URL to resolve and the extractor to resolve it with. *)
Record playlist_entry : Type := {
  pe_url : string;
  pe_ie_key : string
}.

(** Modelled from the spec: what a page gives, a delegated reference to
    [FranceTVIE] or, with [self.playlist_result] of the framework, a
    playlist of delegated references. *)
Inductive page_result : Type :=
| Delegated (reference : url_result)
| Playlist (entries : list playlist_entry).

(** The failures of a page: the download failed, [_search_regex] found
    none of its patterns (it names what it looked for), the link did not
    split in two at [@], or [_match_id] had no match to read. *)
Inductive page_exn : Type :=
| DownloadFailed
| RegexNotFoundError (name : string)
| ValueError
| NoMatchObject.

Inductive page_outcome (A : Type) : Type :=
| Returned (a : A)
| Failed (e : page_exn).
Arguments Returned {A} a.
Arguments Failed {A} e.

(** What the page extractors use from outside their file. *)
Record PageHelpers : Type := {
  (** [self._download_webpage(url, display_id)]; [None] when the download
      fails, which raises *)
  download_webpage : string -> string -> option string;
  (** what [_html_search_regex] makes of the text it found ([clean_html]) *)
  clean_html : string -> string;
  (** [DailymotionIE._extract_embed_urls(url, webpage)] *)
  dailymotion_embed_urls : string -> string -> list string
}.

(** [https?://] *)
Definition http_scheme {A} (k : string -> option A) : string -> option A :=
  lit "http" (opt (lit "s") (lit "://" k)).

(** [[^/]+/] *)
Definition path_segment {A} (k : string -> option A) : string -> option A :=
  plus (not_char "/") (lit "/" k).

(** [(?:[^/]+/)*] on a part of the text [s]. *)
Definition path_segments {A} (s : string) (k : string -> option A)
    : string -> option A :=
  group_star (String.length s) path_segment k.

(** [([^@]+@[^\x22]+)] (with [\x22] for the double quote), handed on in one
    piece. *)
Definition id_at_catalog {A} (k : string -> string -> option A)
    : string -> option A :=
  cap_plus not_at
    (fun a => lit "@"
       (cap_plus (not_char dquote)
          (fun b => k (a ++ String "@" b)%string))).

Module FranceTVSiteIE.

(** [_VALID_URL], line 249, and [self._match_id(url)]. *)
Definition _match_id (url : string) : option string :=
  http_scheme
    (alt (fun k => opt (lit "www.") (lit "france.tv" k))
         (lit "mobile.france.tv")
       (lit "/"
          (path_segments url
             (cap_plus (not_char "/")
                (fun id => lit ".html" (fun _ => Some id))))))
    url.

(** The pattern of line 327,
    [(?:data-main-video\s*=|videoId[\x22']?\s*[:=])\s*([\x22'])(?P<id>(?:(?!\1).)+)\1],
    with [\x22] for the double quote, at the head of a text. *)
Definition video_id_here : string -> option string :=
  alt (fun k => lit "data-main-video" (star is_space (lit "=" k)))
      (fun k => lit "videoId"
                  (opt (one is_quote) (star is_space (one is_colon_or_equal k))))
    (star is_space
       (cap_one is_quote
          (fun q => cap_plus (inside_quotes q)
                      (fun id => one (is_char q) (fun _ => Some id))))).

(** The pattern of line 332,
    [(?:href=|player\.setVideo\(\s{0,})\x22http://videos?\.francetv\.fr/video/([^@]+@[^\x22]+)\x22],
    with [\s{0,}] for the starred [\s], at the head of a text. *)
Definition video_href_here : string -> option string :=
  alt (lit "href=")
      (fun k => lit "player.setVideo(" (star is_space k))
    (one (is_char dquote)
       (lit "http://video"
          (opt (lit "s")
             (lit ".francetv.fr/video/"
                (id_at_catalog
                   (fun g => one (is_char dquote) (fun _ => Some g))))))).

Section Extract.

Variable H : Helpers.
Variable P : PageHelpers.

(** Lines 330-333: the identifier from the legacy link. *)
Definition from_href (url webpage : string) : page_outcome url_result :=
  match re_search video_href_here webpage with
  | None => Failed (RegexNotFoundError "video ID")
  | Some g =>
      match py_split "@" (clean_html P g) with
      | [video_id; catalogue] =>
          Returned (_make_url_result H video_id (JStr catalogue) (Some url))
      | _ => Failed ValueError
      end
  end.

(** Lines 320-335. *)
Definition _real_extract (url : string) : page_outcome url_result :=
  match _match_id url with
  | None => Failed NoMatchObject
  | Some display_id =>
      match download_webpage P url display_id with
      | None => Failed DownloadFailed
      | Some webpage =>
          match re_search video_id_here webpage with
          | Some video_id =>
              if is_empty video_id then from_href url webpage
              else Returned (_make_url_result H video_id JNull (Some url))
          | None => from_href url webpage
          end
      end
  end.

End Extract.

End FranceTVSiteIE.

Module FranceTVInfoIE.

(** [_VALID_URL], line 340, and [self._match_id(url)]. *)
Definition _match_id (url : string) : option string :=
  http_scheme
    (alt (lit "www") (alt (lit "mobile") (lit "france3-regions"))
       (lit ".francetvinfo.fr/"
          (path_segments url
             (cap_plus is_id_char (fun id _ => Some id)))))
    url.

(** The four patterns of lines 420-423, each at the head of a text:
    [player\.load[^;]+src:\s*[\x22']([^\x22']+)] *)
Definition player_load_here : string -> option string :=
  lit "player.load"
    (plus (not_char ";")
       (lit "src:"
          (star is_space
             (one is_quote (cap_plus not_quote (fun g _ => Some g)))))).

(** [id-video=([^@]+@[^\x22]+)] *)
Definition id_video_here : string -> option string :=
  lit "id-video=" (id_at_catalog (fun g _ => Some g)).

(** [<a[^>]+href=\x22(?:https?:)?//videos\.francetv\.fr/video/([^@]+@[^\x22]+)\x22] *)
Definition anchor_here : string -> option string :=
  lit "<a"
    (plus (not_char ">")
       (lit "href="
          (one (is_char dquote)
             (opt (fun k => lit "http" (opt (lit "s") (lit ":" k)))
                (lit "//videos.francetv.fr/video/"
                   (id_at_catalog
                      (fun g => one (is_char dquote) (fun _ => Some g)))))))).

(** [(?:data-id|<figure[^<]+\bid)=[\x22']([\da-f]{8}-[\da-f]{4}-[\da-f]{4}-[\da-f]{4}-[\da-f]{12})];
    the boundary before [id] asks for a last character of [[^<]+] that is
    not a word character. *)
Definition uuid_here : string -> option string :=
  alt (lit "data-id")
      (fun k => lit "<figure"
                  (plus_last (not_char "<")
                     (fun prev => if is_word prev then fun _ => None
                                  else lit "id" k)))
    (lit "="
       (one is_quote
          (cap_times 8 is_hex (fun g1 => lit "-"
          (cap_times 4 is_hex (fun g2 => lit "-"
          (cap_times 4 is_hex (fun g3 => lit "-"
          (cap_times 4 is_hex (fun g4 => lit "-"
          (cap_times 12 is_hex (fun g5 _ =>
             Some (g1 ++ "-" ++ g2 ++ "-" ++ g3 ++ "-" ++ g4 ++ "-"
                   ++ g5)%string)))))))))))).

Definition video_id_patterns : list (string -> option string) :=
  [player_load_here; id_video_here; anchor_here; uuid_here].

Section Extract.

Variable H : Helpers.
Variable P : PageHelpers.

(** [self.url_result(url, DailymotionIE.ie_key())] *)
Definition dailymotion_entry (url : string) : playlist_entry :=
  {| pe_url := url; pe_ie_key := "Dailymotion" |}.

(** Lines 408-426. *)
Definition _real_extract (url : string) : page_outcome page_result :=
  match _match_id url with
  | None => Failed NoMatchObject
  | Some display_id =>
      match download_webpage P url display_id with
      | None => Failed DownloadFailed
      | Some webpage =>
          match dailymotion_embed_urls P url webpage with
          | (_ :: _) as dailymotion_urls =>
              Returned (Playlist (map dailymotion_entry dailymotion_urls))
          | [] =>
              match first_pattern video_id_patterns webpage with
              | Some video_id =>
                  Returned
                    (Delegated (_make_url_result H video_id JNull (Some url)))
              | None => Failed (RegexNotFoundError "video id")
              end
          end
      end
  end.

End Extract.

End FranceTVInfoIE.

(** ** More vocabulary: the pages *)

(** The text [t] stands somewhere in [s]. *)
Definition occurs (t s : string) : Prop :=
  exists before after, s = (before ++ t ++ after)%string.

(** What follows the first [@] of [s]. *)
Definition after_at (s : string) : string :=
  match snd (span not_at s) with
  | String _ r => r
  | EmptyString => EmptyString
  end.

(** The text [s] ends with [t]. *)
Definition occurs_suffix (t s : string) : Prop :=
  exists before, s = (before ++ t)%string.

(** [data-main-video], an equal sign and the identifier [id] between two
    quotes [q], with white space [sp1] and [sp2] around the equal sign. *)
Definition main_video_marker (sp1 sp2 : string) (q : ascii) (id : string)
    : string :=
  ("data-main-video" ++ sp1 ++ "=" ++ sp2
   ++ String q (id ++ String q EmptyString))%string.

(** Five runs of 8, 4, 4, 4 and 12 hexadecimal digits in lower case, with a
    hyphen between them. *)
Definition is_uuid (s : string) : bool :=
  match py_split "-" s with
  | [g1; g2; g3; g4; g5] =>
      all_chars is_hex g1 && all_chars is_hex g2 && all_chars is_hex g3
      && all_chars is_hex g4 && all_chars is_hex g5
      && (String.length g1 =? 8)%nat && (String.length g2 =? 4)%nat
      && (String.length g3 =? 4)%nat && (String.length g4 =? 4)%nat
      && (String.length g5 =? 12)%nat
  | _ => false
  end.

(** The extractors of the file whose [_VALID_URL] matches [url]. *)
Definition suitable_extractors (url : string) : list string :=
  (match match_valid_url url with Some _ => ["FranceTV"%string] | None => [] end)
  ++ (match FranceTVSiteIE._match_id url with
      | Some _ => ["FranceTVSite"%string]
      | None => []
      end)
  ++ (match FranceTVInfoIE._match_id url with
      | Some _ => ["FranceTVInfo"%string]
      | None => []
      end).

(** Pages and their addresses, for the examples. *)
Module InputsPages.

(** A site whose pages are all [webpage], with the Dailymotion players
    [embeds]; its [clean_html] takes the white space around a text off. *)
Definition site (webpage : string) (embeds : list string) : PageHelpers :=
  {| download_webpage := fun _ _ => Some webpage;
     clean_html := strip;
     dailymotion_embed_urls := fun _ _ => embeds |}.

Definition france_tv_url : string :=
  "https://www.france.tv/france-2/13h15-le-dimanche/140921-les-mysteres-de-jesus.html".

Definition info_url : string :=
  "https://www.francetvinfo.fr/replay-jt/france-3/soir-3/jt-grand-soir-3-lundi-26-aout-2019_3561461.html".

Definition marker_page : string :=
  "<div class='player' data-main-video = 'ec217ecc-0733-48cf-ac06-af1347b849d1'>".

Definition legacy_page : string :=
  ("<a href=" ++ String dquote "http://videos.francetv.fr/video/NI_983319@Info-web"
   ++ String dquote ">")%string.

Definition twice_at_page : string :=
  ("player.setVideo( "
   ++ String dquote "http://video.francetv.fr/video/NI_983319@Info@web"
   ++ String dquote ")")%string.

Definition figure_page : string :=
  "<figure class='player' id='7c204c9e-a2d3-11e3-9f9c-000d60a4a3ea'>".

Definition dailymotion_page : string :=
  "<iframe src='//www.dailymotion.com/embed/video/x7pn3ow'></iframe> data-id='7c204c9e-a2d3-11e3-9f9c-000d60a4a3ea'".

End InputsPages.
(** ** More vocabulary: the query of a URL *)


(** ** The resolution with its objects

    Python hands dicts around by reference, and [_extract_video] changes
    some in place: the format dicts (lines 194-197) and, through
    [_merge_subtitles], the dict of subtitles.  Here these dicts are objects
    of a store, each at an address, beside the attributes that are set on
    the extractor object; the manifest names its formats and its subtitles
    by address. *)

Definition address : Type := nat.

Record world : Type := {
  (** the attributes set on [self] *)
  w_attrs : pydict;
  (** the dicts, each at its index *)
  w_objects : list pydict
}.

(** The dict at an address. *)
Definition dict_at (w : world) (a : address) : pydict := nth a (w_objects w) [].

(** [l] with [x] at index [n]. *)
Fixpoint set_nth {A} (n : nat) (x : A) (l : list A) : list A :=
  match l, n with
  | [], _ => []
  | _ :: l', O => x :: l'
  | y :: l', S n' => y :: set_nth n' x l'
  end.

(** A computation in a world: its outcome and its calls, and the world it
    leaves; an exception leaves the world as it was when it was raised. *)
Definition W (A : Type) : Type := world -> M A * world.

Definition w_ret {A} (a : A) : W A := fun w => (ret a, w).

Definition w_raise {A} (e : exn) : W A := fun w => (raise e, w).

Definition w_bind {A B} (c : W A) (k : A -> W B) : W B :=
  fun w =>
    match c w with
    | ((Ok a, t), w1) =>
        match k a w1 with
        | ((r, t'), w2) => ((r, t ++ t'), w2)
        end
    | ((Raised e, t), w1) => ((Raised e, t), w1)
    end.

(** A computation that has nothing to do with the world. *)
Definition w_lift {A} (m : M A) : W A := fun w => (m, w).

Declare Scope w_scope.
Delimit Scope w_scope with W.
Notation "x <~ c ;; k" := (w_bind c (fun x => k))
  (at level 61, c at next level, right associativity) : w_scope.
Notation "' p <~ c ;; k" := (w_bind c (fun x => match x with p => k end))
  (at level 61, p pattern, c at next level, right associativity) : w_scope.

Fixpoint w_for_each {A S} (body : S -> A -> W S) (xs : list A) (acc : S)
    : W S :=
  match xs with
  | [] => w_ret acc
  | x :: xs' => (acc' <~ body acc x ;; w_for_each body xs' acc')%W
  end.

(** A dict display makes a new object. *)
Definition new_dict (d : pydict) : W address :=
  fun w =>
    (ret (length (w_objects w)),
     {| w_attrs := w_attrs w; w_objects := w_objects w ++ [d] |}).

Definition read (a : address) : W pydict := fun w => (ret (dict_at w a), w).

(** The object at [a] becomes [d]. *)
Definition write (a : address) (d : pydict) : W unit :=
  fun w =>
    (ret tt,
     {| w_attrs := w_attrs w; w_objects := set_nth a d (w_objects w) |}).

(** How the framework hands out the dicts of a parsed manifest: at which
    addresses, and what becomes of the world. *)
Record Framework : Type := {
  format_objects : list pydict -> world -> list address * world
}.

Section ExtractorObjects.

Variable H : Helpers.
Variable F : Framework.

Local Open Scope w_scope.

(** The formats a call of the framework returned, as objects. *)
Definition objects_of (fmts : list pydict) : W (list address) :=
  fun w => let (objs, w') := format_objects F fmts w in (ret objs, w').

(** The local variables of the second loop. *)
Record resolved_objects : Type := {
  ro_formats : list address;
  ro_subtitles : address;
  ro_video_url : option string
}.

(** [self._merge_subtitles(subs, target=subtitles)]: the target is filled in
    place. *)
Definition merge_subtitles_in_place (subs : pydict) (target : address)
    : W unit :=
  old <~ read target ;;
  write target (merge_subtitles H subs old).

(** Lines 156-183. *)
Definition extract_formats_objects (B : Backend) (video_id : string)
    (acc : resolved_objects) (format_id : json) (video_url : string)
    : W resolved_objects :=
  let ext := determine_ext H video_url in
  if (ext =? "f4m")%string then
    fmts <~ w_lift (call_extract_f4m B video_url video_id format_id) ;;
    objs <~ objects_of fmts ;;
    w_ret {| ro_formats := ro_formats acc ++ objs;
             ro_subtitles := ro_subtitles acc;
             ro_video_url := Some video_url |}
  else if (ext =? "m3u8")%string then
    '(fmts, subs) <~ w_lift (call_extract_m3u8 B video_url video_id format_id) ;;
    objs <~ objects_of fmts ;;
    _ <~ merge_subtitles_in_place subs (ro_subtitles acc) ;;
    w_ret {| ro_formats := ro_formats acc ++ objs;
             ro_subtitles := ro_subtitles acc;
             ro_video_url := Some video_url |}
  else if (ext =? "mpd")%string then
    '(fmts, subs) <~ w_lift (call_extract_mpd B video_url video_id format_id) ;;
    objs <~ objects_of fmts ;;
    _ <~ merge_subtitles_in_place subs (ro_subtitles acc) ;;
    w_ret {| ro_formats := ro_formats acc ++ objs;
             ro_subtitles := ro_subtitles acc;
             ro_video_url := Some video_url |}
  else if startswith "rtmp" video_url then
    f <~ new_dict [("url", JStr video_url);
                   ("format_id", JStr ("rtmp-" ++ py_str H format_id)%string);
                   ("ext", JStr "flv")] ;;
    w_ret {| ro_formats := ro_formats acc ++ [f];
             ro_subtitles := ro_subtitles acc;
             ro_video_url := Some video_url |}
  else
    valid <~ w_lift (call_is_valid_url B video_url video_id format_id) ;;
    if valid : bool then
      f <~ new_dict [("url", JStr video_url); ("format_id", format_id)] ;;
      w_ret {| ro_formats := ro_formats acc ++ [f];
               ro_subtitles := ro_subtitles acc;
               ro_video_url := Some video_url |}
    else
      w_ret {| ro_formats := ro_formats acc;
               ro_subtitles := ro_subtitles acc;
               ro_video_url := Some video_url |}.

(** The body of the loop of line 141; lines 145-154 work on strings. *)
Definition resolve_descriptor_objects (B : Backend) (video_id : string)
    (acc : resolved_objects) (video : pydict) : W resolved_objects :=
  video_url <~ w_lift (sign_url H B video_id video (descriptor_url video)) ;;
  extract_formats_objects B video_id acc (dict_get video "format") video_url.

(** Lines 140-183; the dict of subtitles is made on line 140. *)
Definition resolve_formats_objects (B : Backend) (video_id : string)
    (videos : list pydict) : W resolved_objects :=
  subtitles <~ new_dict [] ;;
  w_for_each (resolve_descriptor_objects B video_id) (filter (has_url H) videos)
    {| ro_formats := []; ro_subtitles := subtitles; ro_video_url := None |}.

(** Lines 187-192; [self._GEO_COUNTRIES] is the attribute of the class, line
    48, which no line of the file sets on an object. *)
Definition check_geo_objects (B : Backend) (video_id : string)
    (r : resolved_objects) : W unit :=
  match ro_formats r, ro_video_url r with
  | [], Some video_url =>
      if negb (is_empty video_url) then
        urlh <~ w_lift (call_request_head B video_url video_id) ;;
        if geo_signalled urlh
        then w_lift (raise_geo_restricted GEO_COUNTRIES)
        else w_ret tt
      else w_ret tt
  | _, _ => w_ret tt
  end.

(** Lines 195-197, on one format: the two assignments, each on the object
    as it is then. *)
Definition rank_in_place (f : address) : W unit :=
  d <~ read f ;;
  if is_audio_description d then
    _ <~ write f (dict_set d "language_preference" (JNum (-10))) ;;
    d1 <~ read f ;;
    write f
      (dict_set d1 "format_note"
         (JStr ("audio description"
                ++ format_field H d1 "format_note" ", %s")%string))
  else w_ret tt.

(** Lines 199-215: the fragments are made first, then the storyboard. *)
Definition add_storyboard_objects (spritesheets : json)
    (formats : list address) : W (list address) :=
  if truthy spritesheets then
    match py_iter spritesheets with
    | Some sheets =>
        f <~ new_dict (storyboard sheets) ;;
        w_ret (formats ++ [f])
    | None => w_raise TypeError
    end
  else w_ret formats.

(** The manifest of lines 217-230 with its formats and its subtitles by
    address; [mo_fields] has the other fields. *)
Record manifest_objects : Type := {
  mo_formats : list address;
  mo_subtitles : address;
  mo_fields : manifest
}.

(** Lines 140-230, from the merged metadata on. *)
Definition resolve_and_assemble_objects (B : Backend) (video_id : string)
    (st : fetched) : W manifest_objects :=
  r <~ resolve_formats_objects B video_id (st_videos st) ;;
  _ <~ check_geo_objects B video_id r ;;
  _ <~ w_for_each (fun _ f => rank_in_place f) (ro_formats r) tt ;;
  formats <~ add_storyboard_objects (st_spritesheets st) (ro_formats r) ;;
  w_ret {| mo_formats := formats;
           mo_subtitles := ro_subtitles r;
           mo_fields := assemble H video_id st [] [] |}.

(** Lines 91-230.  The first loop assigns local variables only, and no line
    of the function sets or reads an attribute of [self]: it uses [self] for
    the methods of the framework and for [_GEO_COUNTRIES]. *)
Definition _extract_video_objects (B : Backend) (video_id : string)
    (catalogue hostname : json) : W manifest_objects :=
  st <~ w_lift (fetch_metadata H B video_id hostname) ;;
  resolve_and_assemble_objects B video_id st.

End ExtractorObjects.

(** ** More vocabulary: objects *)

(** The manifest [m] with the formats and the subtitles given. *)
Definition with_objects (m : manifest) (formats : list pydict)
    (subtitles : pydict) : manifest :=
  {| m_id := m_id m;
     m_title := m_title m;
     m_thumbnail := m_thumbnail m;
     m_duration := m_duration m;
     m_timestamp := m_timestamp m;
     m_is_live := m_is_live m;
     m_formats := formats;
     m_subtitles := subtitles;
     m_episode := m_episode m;
     m_series := m_series m;
     m_episode_number := m_episode_number m;
     m_season_number := m_season_number m |}.

(** What a manifest says, its objects read in the world [w]. *)
Definition manifest_value (w : world) (m : manifest_objects) : manifest :=
  with_objects (mo_fields m) (map (dict_at w) (mo_formats m))
    (dict_at w (mo_subtitles m)).

(** What a resolution gave: the manifest read in the world it left, or the
    exception, and the calls. *)
Definition by_value (r : M manifest_objects * world) : M manifest :=
  match r with
  | ((Ok m, t), w) => (Ok (manifest_value w m), t)
  | ((Raised e, t), _) => (Raised e, t)
  end.

(** The attributes of the extractor and the objects of [w] are in [w'] as
    they were in [w]. *)
Definition untouched (w w' : world) : Prop :=
  w_attrs w' = w_attrs w
  /\ firstn (length (w_objects w)) (w_objects w') = w_objects w.

(** The framework makes new objects for the formats of a parsed manifest,
    one for each, and leaves what is there alone. *)
Definition hands_out_new_objects (F : Framework) : Prop :=
  forall fmts w,
    untouched w (snd (format_objects F fmts w))
    /\ NoDup (fst (format_objects F fmts w))
    /\ Forall (fun a => (length (w_objects w) <= a
                         < length (w_objects (snd (format_objects F fmts w))))
                        %nat)
         (fst (format_objects F fmts w))
    /\ map (dict_at (snd (format_objects F fmts w)))
         (fst (format_objects F fmts w)) = fmts.

(** The addresses [objs] name objects made since [w0], each once. *)
Definition made_since (w0 w : world) (objs : list address) : Prop :=
  NoDup objs
  /\ Forall (fun a => (length (w_objects w0) <= a < length (w_objects w))%nat)
       objs.

(** The local variables of the second loop, by reference and by value. *)
Definition represents (w0 w : world) (r : resolved_objects) (v : resolved)
    : Prop :=
  map (dict_at w) (ro_formats r) = rs_formats v
  /\ dict_at w (ro_subtitles r) = rs_subtitles v
  /\ ro_video_url r = rs_video_url v
  /\ made_since w0 w (ro_subtitles r :: ro_formats r).

(** The computation [c], started in [w], does what [m] does: the same
    calls, the same exception, or results that [R] relates in the world it
    leaves; and it leaves the objects of [w0] alone. *)
Definition does {A A'} (R : world -> A -> A' -> Prop) (w0 : world) (c : W A)
    (m : M A') (w : world) : Prop :=
  trace (fst (c w)) = trace m
  /\ untouched w0 (snd (c w))
  /\ match result (fst (c w)), result m with
     | Ok a, Ok a' => R (snd (c w)) a a'
     | Raised e, Raised e' => e = e'
     | _, _ => False
     end.

(** Frameworks for the examples. *)
Module SampleObjects.

(** New objects behind the ones that are there. *)
Definition allocating : Framework :=
  {| format_objects := fun fmts w =>
       (seq (length (w_objects w)) (length fmts),
        {| w_attrs := w_attrs w; w_objects := w_objects w ++ fmts |}) |}.

(** The addresses under the attribute [formats], as far as they are
    numbers. *)
Definition remembered (w : world) : option (list address) :=
  match dict_lookup (w_attrs w) "formats" with
  | Some (JList l) =>
      Some (flat_map (fun v => match v with
                               | JNum n => [Z.to_nat n]
                               | _ => []
                               end) l)
  | _ => None
  end.

(** A framework that keeps the objects it made under an attribute of the
    extractor and hands them out again. *)
Definition remembering : Framework :=
  {| format_objects := fun fmts w =>
       match remembered w with
       | Some objs => (objs, w)
       | None =>
           let objs := seq (length (w_objects w)) (length fmts) in
           (objs,
            {| w_attrs :=
                 dict_set (w_attrs w) "formats"
                   (JList (map (fun a => JNum (Z.of_nat a)) objs));
               w_objects := w_objects w ++ fmts |})
       end |}.

(** A world with one object and one attribute. *)
Definition used_world : world :=
  {| w_attrs := [("_ready", JBool true)];
     w_objects := [[("format_id", JStr "left-over")]] |}.

Definition empty_world : world := {| w_attrs := []; w_objects := [] |}.

(** The backend of the DASH manifest, which is asked about no URL, and one
    that would answer otherwise about any. *)
Definition first_backend : Backend := Inputs.dash_backend.

Definition second_backend : Backend :=
  Sample.backend (JDict [("video", JDict Inputs.dash_video)]) (JBool false)
    Sample.no_token Inputs.dash_formats (fun _ => true) Sample.no_probe.

(** The resolution of the DASH manifest in a used world, and a second one
    in the world the first leaves. *)
Definition first_run (F : Framework) : M manifest_objects * world :=
  _extract_video_objects Sample.helpers F first_backend "ad" JNull JNull
    used_world.

Definition second_run (F : Framework) : M manifest_objects * world :=
  _extract_video_objects Sample.helpers F second_backend "ad" JNull JNull
    (snd (first_run F)).

End SampleObjects.
(** * Properties *)

(** ** Examples of the helpers *)

Example search_episode_S1E3 : search_episode "S1 E3" = Some ("1", "3").
Proof. reflexivity. Qed.

Example search_episode_inside :
  search_episode "Saison S02E015 - suite" = Some ("02", "015").
Proof. reflexivity. Qed.

Example search_episode_season_only : search_episode "S4" = None.
Proof. reflexivity. Qed.

Example strip_example : strip "  a b   " = "a b".
Proof. reflexivity. Qed.

Example int_or_none_example : int_or_none (Some "015") = Some 15.
Proof. reflexivity. Qed.

(** ** Computations *)

Lemma bind_ok {A B} (m : M A) (k : A -> M B) a :
  result m = Ok a ->
  bind m k = (result (k a), trace m ++ trace (k a)).
Proof.
  destruct m as [r t]; simpl; intros ->.
  unfold result, trace. destruct (k a); reflexivity.
Qed.

Lemma bind_raised {A B} (m : M A) (k : A -> M B) e :
  result m = Raised e -> bind m k = (Raised e, trace m).
Proof. destruct m as [r t]; simpl; intros ->. reflexivity. Qed.

Lemma result_bind_inv {A B} (m : M A) (k : A -> M B) b :
  result (bind m k) = Ok b ->
  exists a, result m = Ok a /\ result (k a) = Ok b.
Proof.
  destruct m as [[a | e] t]; simpl.
  - destruct (k a) as [r t'] eqn:E. simpl. intros ->.
    exists a. rewrite E. auto.
  - discriminate.
Qed.

Lemma trace_bind_head {A B} (m : M A) (k : A -> M B) r :
  In r (trace m) -> In r (trace (bind m k)).
Proof.
  destruct m as [[a | e] t]; simpl; [| auto].
  destruct (k a) as [b t']. simpl. intros I. apply in_or_app. now left.
Qed.

(** ** Strings *)

Lemma span_all p s : all_chars p (fst (span p s)) = true.
Proof.
  induction s as [| c r IH]; simpl; [reflexivity |].
  destruct (p c) eqn:E; [| reflexivity].
  destruct (span p r) as [a b]. unfold all_chars in *. simpl in *.
  now rewrite E.
Qed.

Lemma span_append p s : s = (fst (span p s) ++ snd (span p s))%string.
Proof.
  induction s as [| c r IH]; simpl; [reflexivity |].
  destruct (p c); [| reflexivity].
  destruct (span p r) as [a b]. simpl in *. now rewrite <- IH.
Qed.

(** A prefix whose characters satisfy [p], followed by a character that does
    not, is exactly what [span] splits off. *)
Lemma span_app_stop p a c r :
  all_chars p a = true -> p c = false ->
  span p (a ++ String c r) = (a, String c r).
Proof.
  unfold all_chars. induction a as [| x a IH]; simpl; intros Ha Hc.
  - now rewrite Hc.
  - apply andb_true_iff in Ha as [Hx Ha]. rewrite Hx, (IH Ha Hc). reflexivity.
Qed.

Lemma span_app_end p a :
  all_chars p a = true -> span p a = (a, EmptyString).
Proof.
  unfold all_chars. induction a as [| x a IH]; simpl; intros Ha; [reflexivity |].
  apply andb_true_iff in Ha as [Hx Ha]. rewrite Hx, (IH Ha). reflexivity.
Qed.

Lemma is_empty_false s : is_empty s = false <-> s <> EmptyString.
Proof.
  unfold is_empty. destruct (String.eqb_spec s ""); split; congruence.
Qed.

Lemma span_stop p s c r : snd (span p s) = String c r -> p c = false.
Proof.
  induction s as [| a s IH]; simpl; [discriminate |].
  destruct (p a) eqn:E.
  - destruct (span p s) as [x y]. simpl in *. exact IH.
  - simpl. now intros [= <- _].
Qed.

Lemma span_not_at_contains s : contains_char "@" (fst (span not_at s)) = false.
Proof.
  induction s as [| a s IH]; simpl; [reflexivity |].
  unfold not_at at 1. destruct (Ascii.eqb a "@") eqn:E; simpl; [reflexivity |].
  destruct (span not_at s) as [x y]. simpl in *. now rewrite E.
Qed.

Lemma span_not_at_whole s :
  contains_char "@" s = false -> span not_at s = (s, EmptyString).
Proof.
  induction s as [| a s IH]; simpl; [reflexivity |].
  intros C. apply orb_false_iff in C as [Ca Cs].
  unfold not_at at 1. rewrite Ca. simpl. now rewrite (IH Cs).
Qed.

Lemma span_not_at_rest s :
  contains_char "@" s = true ->
  exists rest, snd (span not_at s) = String "@" rest.
Proof.
  induction s as [| a s IH]; simpl; [discriminate |].
  unfold not_at at 1. destruct (Ascii.eqb_spec a "@") as [-> | N]; simpl.
  - eauto.
  - intros C. destruct (IH C) as (rest & E).
    destruct (span not_at s) as [x y]. simpl in *. eauto.
Qed.

Lemma span_app_all p a r :
  all_chars p a = true ->
  span p (a ++ r) = ((a ++ fst (span p r))%string, snd (span p r)).
Proof.
  unfold all_chars. induction a as [| c a IH]; simpl; intros A.
  - now destruct (span p r).
  - apply andb_true_iff in A as [Hc A]. rewrite Hc, (IH A). reflexivity.
Qed.

Lemma span_snd_head p s :
  match snd (span p s) with
  | String c _ => p c = false
  | EmptyString => True
  end.
Proof.
  destruct (snd (span p s)) as [| c r] eqn:E; [exact I |].
  exact (span_stop p s c r E).
Qed.

(** ** The episode pattern *)

Lemma match_episode_here_digits s season episode :
  match_episode_here s = Some (season, episode) ->
  (is_empty season = false /\ all_chars is_digit season = true)
  /\ (is_empty episode = false /\ all_chars is_digit episode = true).
Proof.
  unfold match_episode_here. destruct s as [| c r]; [discriminate |].
  destruct (Ascii.eqb c "S"); [| discriminate].
  pose proof (span_all is_digit r) as Hs.
  destruct (span is_digit r) as [d1 r1]. simpl in Hs.
  destruct (is_empty d1) eqn:E1; [discriminate |].
  destruct (snd (span is_space r1)) as [| e r3]; [discriminate |].
  destruct (Ascii.eqb e "E"); [| discriminate].
  pose proof (span_all is_digit r3) as He.
  destruct (is_empty (fst (span is_digit r3))) eqn:E2; [discriminate |].
  intros [= <- <-]. auto.
Qed.

(** The groups [re.search] returns are non-empty strings of digits. *)
Lemma search_episode_digits s season episode :
  search_episode s = Some (season, episode) ->
  (is_empty season = false /\ all_chars is_digit season = true)
  /\ (is_empty episode = false /\ all_chars is_digit episode = true).
Proof.
  induction s as [| c r IH].
  - simpl. discriminate.
  - cbn [search_episode].
    destruct (match_episode_here (String c r)) as [[a b] |] eqn:E.
    + intros [= <- <-]. eapply match_episode_here_digits; eauto.
    + exact IH.
Qed.

(** On such a group [int_or_none] is the decimal value. *)
Lemma int_or_none_digits s :
  is_empty s = false -> all_chars is_digit s = true ->
  int_or_none (Some s) = Some (decimal s).
Proof. intros E D. unfold int_or_none. now rewrite E, D. Qed.

(** What [match_episode_here] returns is a match of the pattern, and the
    episode group cannot be extended. *)
Lemma match_episode_here_sound s season episode :
  match_episode_here s = Some (season, episode) ->
  exists rest,
    episode_match s season episode rest
    /\ match rest with String c _ => is_digit c = false | EmptyString => True end.
Proof.
  unfold match_episode_here. destruct s as [| c r]; [discriminate |].
  destruct (Ascii.eqb_spec c "S") as [-> |]; [| discriminate].
  pose proof (span_all is_digit r) as D1.
  pose proof (span_append is_digit r) as A1.
  destruct (span is_digit r) as [d1 r1]. cbn [fst snd] in *.
  destruct (is_empty d1) eqn:N1; [discriminate |].
  pose proof (span_all is_space r1) as W.
  pose proof (span_append is_space r1) as A2.
  destruct (span is_space r1) as [ws r2]. cbn [fst snd] in *.
  destruct r2 as [| e r3]; [discriminate |].
  destruct (Ascii.eqb_spec e "E") as [-> |]; [| discriminate].
  pose proof (span_all is_digit r3) as D2.
  pose proof (span_append is_digit r3) as A3.
  pose proof (span_snd_head is_digit r3) as T.
  destruct (span is_digit r3) as [d2 r4]. cbn [fst snd] in *.
  destruct (is_empty d2) eqn:N2; [discriminate |].
  intros [= <- <-]. exists r4. split; [| exact T].
  exists ws. repeat split; auto.
  rewrite A1, A2, A3. reflexivity.
Qed.

(** Every match of the pattern at the head of [s] has the season that
    [match_episode_here] returns, and an episode that begins the returned
    one: the function returns the greedy match. *)
Lemma match_episode_here_greedy s season episode rest :
  episode_match s season episode rest ->
  match_episode_here s =
    Some (season, (episode ++ fst (span is_digit rest))%string).
Proof.
  intros (ws & -> & N1 & D1 & W & N2 & D2).
  unfold match_episode_here. cbn [append]. rewrite Ascii.eqb_refl.
  assert (S1 : span is_digit (season ++ ws ++ String "E" (episode ++ rest))
               = (season, (ws ++ String "E" (episode ++ rest))%string)).
  { destruct ws as [| w ws'].
    - apply span_app_stop; [exact D1 | reflexivity].
    - cbn [append]. apply span_app_stop; [exact D1 |].
      unfold all_chars in W. simpl in W. apply andb_true_iff in W as [Hw _].
      unfold is_digit, is_space in *.
      destruct (48 <=? code w)%N eqn:E1; [| reflexivity].
      destruct (code w <=? 57)%N eqn:E2; [| reflexivity].
      apply N.leb_le in E1, E2.
      repeat match type of Hw with
             | context [(?a <=? ?b)%N] =>
                 destruct (N.leb_spec a b); try lia
             | context [(?a =? ?b)%N] =>
                 destruct (N.eqb_spec a b); try lia
             end; discriminate. }
  rewrite S1, N1.
  rewrite (span_app_stop is_space ws "E" (episode ++ rest) W eq_refl).
  cbn [snd]. rewrite Ascii.eqb_refl.
  rewrite (span_app_all is_digit episode rest D2). cbn [fst].
  destruct episode as [| e ep]; [discriminate | reflexivity].
Qed.

(** [search_episode] returns a match at some position of the text, and
    [None] only when no position has one. *)
Lemma search_episode_some s g :
  search_episode s = Some g ->
  exists before after,
    s = (before ++ after)%string /\ match_episode_here after = Some g.
Proof.
  induction s as [| c r IH].
  - simpl. discriminate.
  - cbn [search_episode].
    destruct (match_episode_here (String c r)) as [g' |] eqn:E.
    + intros [= <-]. exists EmptyString, (String c r). auto.
    + intros S. destruct (IH S) as (b & a & -> & M).
      exists (String c b), a. auto.
Qed.

Lemma search_episode_none s :
  search_episode s = None ->
  forall before after,
    s = (before ++ after)%string -> match_episode_here after = None.
Proof.
  induction s as [| c r IH]; intros S before after E.
  - destruct before; [| discriminate]. simpl in E. now subst.
  - cbn [search_episode] in S.
    destruct (match_episode_here (String c r)) as [g' |] eqn:M;
      [discriminate |].
    destruct before as [| b before'].
    + simpl in E. now subst.
    + injection E as _ E. exact (IH S before' after E).
Qed.

(** ** Dicts *)

Lemma dict_lookup_set_same d k v : dict_lookup (dict_set d k v) k = Some v.
Proof.
  induction d as [| [k' v'] d IH]; simpl.
  - now rewrite String.eqb_refl.
  - destruct (k' =? k)%string eqn:E; simpl.
    + now rewrite String.eqb_refl.
    + now rewrite E.
Qed.

Lemma dict_lookup_set_other d k v k' :
  k <> k' -> dict_lookup (dict_set d k v) k' = dict_lookup d k'.
Proof.
  intros N. induction d as [| [k0 v0] d IH]; simpl.
  - destruct (String.eqb_spec k k'); [contradiction | reflexivity].
  - destruct (String.eqb_spec k0 k) as [-> | N0]; simpl.
    + destruct (String.eqb_spec k k'); [contradiction | reflexivity].
    + now rewrite IH.
Qed.

(** ** The first loop *)

Section Fetch.

Variable H : Helpers.
Variable B : Backend.
Variables (video_id : string) (hostname : json).

Lemma search_regex_episode_trace v : trace (search_regex_episode v) = [].
Proof.
  destruct v; try reflexivity. simpl.
  destruct (search_episode s) as [[a b] |]; reflexivity.
Qed.

Lemma search_regex_episode_ok v g :
  result (search_regex_episode v) = Ok g -> g = episode_groups v.
Proof.
  destruct v; simpl; try discriminate.
  - now intros [= <-].
  - destruct (search_episode s) as [[a b] |]; now intros [= <-].
Qed.

Lemma merge_meta_trace st dinfo : trace (merge_meta H st dinfo) = [].
Proof.
  unfold merge_meta. destruct (traverse_obj_dict dinfo "meta") as [meta |];
    [| reflexivity].
  destruct (truthy (JDict meta)); [| reflexivity].
  pose proof (search_regex_episode_trace (dict_get meta "pre_title")) as T.
  destruct (search_regex_episode (dict_get meta "pre_title")) as [[[s e] | x] t];
    simpl in *; subst; reflexivity.
Qed.

(** One turn of the loop: one query, then the two merges. *)
Lemma fetch_profile_eq st dev :
  fetch_profile H B video_id hostname st dev =
    (if truthy (profile_answer B video_id hostname dev)
     then result (merge_meta H (merge_video st (profile_answer B video_id hostname dev)) (profile_answer B video_id hostname dev))
     else Ok st,
     [DownloadJSON (player_url video_id) video_id (profile_query dev hostname)]).
Proof.
  unfold fetch_profile, call_download_json, profile_answer. simpl.
  destruct (truthy _); simpl; [| reflexivity].
  match goal with |- context [merge_meta H ?a ?b] =>
    pose proof (merge_meta_trace a b) as T;
    destruct (merge_meta H a b) as [r t] end.
  simpl in *. now subst.
Qed.

(** The merges of one answer in terms of what the answer offers. *)
Lemma merge_video_field st dinfo f :
  truthy dinfo = true ->
  merged f (merge_video st dinfo) =
    match f with
    | Duration | IsLive | Spritesheets => if_none (merged f st) (offered H f dinfo)
    | _ => merged f st
    end.
Proof.
  intros T. unfold merge_video, offered, usable. rewrite T.
  destruct (traverse_obj_dict dinfo "video") as [[| b d] |];
    destruct f; simpl; try reflexivity;
    match goal with |- _ = if_none ?x _ => destruct x; reflexivity end.
Qed.

Lemma merge_video_videos st dinfo :
  truthy dinfo = true ->
  st_videos (merge_video st dinfo) = st_videos st ++ contributed dinfo.
Proof.
  intros T. unfold merge_video, contributed, usable. rewrite T.
  destruct (traverse_obj_dict dinfo "video") as [[| b d] |]; simpl;
    try reflexivity; now rewrite app_nil_r.
Qed.

Lemma merge_video_episode st dinfo :
  st_season_number (merge_video st dinfo) = st_season_number st
  /\ st_episode_number (merge_video st dinfo) = st_episode_number st.
Proof.
  unfold merge_video.
  destruct (traverse_obj_dict dinfo "video") as [[| b d] |]; simpl; auto.
Qed.

Lemma merge_meta_ok st dinfo st' :
  truthy dinfo = true ->
  result (merge_meta H st dinfo) = Ok st' ->
  (forall f, merged f st' =
     match f with
     | Duration | IsLive | Spritesheets => merged f st
     | _ => if_none (merged f st) (offered H f dinfo)
     end)
  /\ st_videos st' = st_videos st
  /\ (st_season_number st', st_episode_number st') =
       match usable dinfo "meta" with
       | Some meta => episode_groups (dict_get meta "pre_title")
       | None => (st_season_number st, st_episode_number st)
       end.
Proof.
  intros T. unfold merge_meta, offered, usable. rewrite T.
  destruct (traverse_obj_dict dinfo "meta") as [[| b d] |].
  - simpl. intros [= <-]. repeat split.
    intros f; destruct f; simpl; try reflexivity;
      match goal with |- ?x = _ => destruct x; reflexivity end.
  - cbn [truthy]. intros R. apply result_bind_inv in R as ([s e] & R1 & R2).
    apply search_regex_episode_ok in R1. simpl in R2. injection R2 as <-.
    repeat split; [| simpl; now rewrite <- R1].
    intros f; destruct f; simpl; reflexivity.
  - simpl. intros [= <-]. repeat split.
    intros f; destruct f; simpl; try reflexivity;
      match goal with |- ?x = _ => destruct x; reflexivity end.
Qed.

Lemma if_none_null v : if_none v JNull = v.
Proof. destruct v; reflexivity. Qed.

(** What one turn does to the merged fields, the descriptors and the
    episode groups. *)
Lemma fetch_profile_ok st dev st' :
  result (fetch_profile H B video_id hostname st dev) = Ok st' ->
  (forall f, merged f st' = if_none (merged f st) (offered H f (profile_answer B video_id hostname dev)))
  /\ st_videos st' = st_videos st ++ contributed (profile_answer B video_id hostname dev)
  /\ (st_season_number st', st_episode_number st') =
       match usable (profile_answer B video_id hostname dev) "meta" with
       | Some meta => episode_groups (dict_get meta "pre_title")
       | None => (st_season_number st, st_episode_number st)
       end.
Proof.
  rewrite fetch_profile_eq. unfold result at 1. cbn [fst].
  destruct (truthy (profile_answer B video_id hostname dev)) eqn:T.
  - intros R. apply merge_meta_ok in R as (F & V & E); [| exact T].
    repeat split.
    + intros f. rewrite F. rewrite (merge_video_field st (profile_answer B video_id hostname dev) f T).
      destruct f; try reflexivity;
        unfold offered, usable; rewrite T.
      all: try (destruct (traverse_obj_dict (profile_answer B video_id hostname dev) "video") as [[| ? ?] |];
                simpl; now rewrite ?if_none_null).
      all: destruct (traverse_obj_dict (profile_answer B video_id hostname dev) "meta") as [[| ? ?] |];
                simpl; now rewrite ?if_none_null.
    + now rewrite V, merge_video_videos.
    + rewrite E. destruct (merge_video_episode st (profile_answer B video_id hostname dev)) as [-> ->].
      reflexivity.
  - intros [= <-]. unfold offered, contributed, usable. rewrite T.
    repeat split.
    + intros f; destruct f; simpl; now rewrite if_none_null.
    + now rewrite app_nil_r.
Qed.

(** The loop makes its two turns, desktop first. *)
Lemma fetch_metadata_ok st :
  result (fetch_metadata H B video_id hostname) = Ok st ->
  exists st1,
    result (fetch_profile H B video_id hostname fetched_init "desktop") = Ok st1
    /\ result (fetch_profile H B video_id hostname st1 "mobile") = Ok st.
Proof.
  unfold fetch_metadata, device_types. cbn [for_each].
  intros R. apply result_bind_inv in R as (st1 & R1 & R2).
  apply result_bind_inv in R2 as (st2 & R2 & R3).
  injection R3 as <-. eauto.
Qed.

Lemma search_regex_episode_returns v :
  text_or_none v = true -> exists g, result (search_regex_episode v) = Ok g.
Proof.
  destruct v; try discriminate; intros _; simpl.
  - eexists. reflexivity.
  - destruct (search_episode s) as [[a b] |]; eexists; reflexivity.
Qed.

Lemma search_regex_episode_raises v :
  text_or_none v = false -> result (search_regex_episode v) = Raised TypeError.
Proof. destruct v; try discriminate; reflexivity. Qed.

(** One turn returns exactly when the pre-title it reads is text or
    missing. *)
Lemma fetch_profile_returns st dev :
  match usable (profile_answer B video_id hostname dev) "meta" with
  | Some meta =>
      if text_or_none (dict_get meta "pre_title")
      then exists st', result (fetch_profile H B video_id hostname st dev) = Ok st'
      else result (fetch_profile H B video_id hostname st dev) = Raised TypeError
  | None =>
      exists st', result (fetch_profile H B video_id hostname st dev) = Ok st'
  end.
Proof.
  rewrite fetch_profile_eq. unfold result at 1 2 3. cbn [fst].
  unfold usable, merge_meta.
  destruct (truthy (profile_answer B video_id hostname dev));
    [| eexists; reflexivity].
  destruct (traverse_obj_dict (profile_answer B video_id hostname dev) "meta")
    as [[| b d] |]; [eexists; reflexivity | | eexists; reflexivity].
  cbn [truthy].
  destruct (text_or_none (dict_get (b :: d) "pre_title")) eqn:T.
  - destruct (search_regex_episode_returns _ T) as ([s e] & R).
    rewrite (bind_ok _ _ (s, e) R). unfold result at 1. cbn [fst].
    eexists. reflexivity.
  - rewrite (bind_raised _ _ TypeError (search_regex_episode_raises _ T)).
    reflexivity.
Qed.

(** The first loop returns when the pre-titles are text or missing. *)
Lemma fetch_metadata_returns :
  pre_titles_are_text B video_id hostname = true ->
  exists st, result (fetch_metadata H B video_id hostname) = Ok st.
Proof.
  unfold pre_titles_are_text, device_types. cbn [forallb].
  rewrite andb_true_r. intros T. apply andb_true_iff in T as [Td Tm].
  pose proof (fetch_profile_returns fetched_init "desktop") as Rd.
  assert (exists st1, result (fetch_profile H B video_id hostname fetched_init
                                "desktop") = Ok st1) as (st1 & R1).
  { destruct (usable (profile_answer B video_id hostname "desktop") "meta");
      [now rewrite Td in Rd | exact Rd]. }
  pose proof (fetch_profile_returns st1 "mobile") as Rm.
  assert (exists st, result (fetch_profile H B video_id hostname st1 "mobile")
                     = Ok st) as (st & R2).
  { destruct (usable (profile_answer B video_id hostname "mobile") "meta");
      [now rewrite Tm in Rm | exact Rm]. }
  exists st. unfold fetch_metadata, device_types. cbn [for_each].
  rewrite (bind_ok _ _ st1 R1). unfold result at 1. cbn [fst].
  rewrite (bind_ok _ _ st R2). reflexivity.
Qed.

(** The two queries are made in profile order, desktop first. *)
Lemma fetch_metadata_trace st :
  result (fetch_metadata H B video_id hostname) = Ok st ->
  trace (fetch_metadata H B video_id hostname) =
    [DownloadJSON (player_url video_id) video_id
       (profile_query "desktop" hostname);
     DownloadJSON (player_url video_id) video_id
       (profile_query "mobile" hostname)].
Proof.
  intros R. apply fetch_metadata_ok in R as (st1 & R1 & R2).
  unfold fetch_metadata, device_types. cbn [for_each].
  rewrite (bind_ok _ _ st1 R1). unfold trace at 1. cbn [snd].
  rewrite (bind_ok _ _ st R2). unfold trace at 2. cbn [snd].
  rewrite !fetch_profile_eq. reflexivity.
Qed.

(** The guarded fields: the first value that is not [None] wins. *)
Lemma merge_first_non_null st f :
  result (fetch_metadata H B video_id hostname) = Ok st ->
  merged f st =
    first_non_null (map (fun dev => offered H f (profile_answer B video_id hostname dev)) device_types).
Proof.
  intros R. apply fetch_metadata_ok in R as (st1 & R1 & R2).
  apply fetch_profile_ok in R1 as (F1 & _ & _).
  apply fetch_profile_ok in R2 as (F2 & _ & _).
  rewrite F2, F1. simpl.
  assert (merged f fetched_init = JNull) as -> by (destruct f; reflexivity).
  destruct (offered H f (profile_answer B video_id hostname "desktop")); simpl; try reflexivity.
  destruct (offered H f (profile_answer B video_id hostname "mobile")); reflexivity.
Qed.

(** The descriptors: what desktop contributes, then what mobile does. *)
Lemma fetch_metadata_videos st :
  result (fetch_metadata H B video_id hostname) = Ok st ->
  st_videos st = contributed (profile_answer B video_id hostname "desktop") ++ contributed (profile_answer B video_id hostname "mobile").
Proof.
  intros R. apply fetch_metadata_ok in R as (st1 & R1 & R2).
  apply fetch_profile_ok in R1 as (_ & V1 & _).
  apply fetch_profile_ok in R2 as (_ & V2 & _).
  now rewrite V2, V1.
Qed.

(** The episode groups: those of the last usable pre-title. *)
Lemma fetch_metadata_episode st :
  result (fetch_metadata H B video_id hostname) = Ok st ->
  (st_season_number st, st_episode_number st) =
    match last_pre_title B video_id hostname with
    | Some pre => episode_groups pre
    | None => (None, None)
    end.
Proof.
  intros R. apply fetch_metadata_ok in R as (st1 & R1 & R2).
  apply fetch_profile_ok in R1 as (_ & _ & E1).
  apply fetch_profile_ok in R2 as (_ & _ & E2).
  rewrite E2. unfold last_pre_title.
  destruct (usable (profile_answer B video_id hostname "mobile") "meta"); [reflexivity |].
  rewrite E1. destruct (usable (profile_answer B video_id hostname "desktop") "meta"); reflexivity.
Qed.

End Fetch.

(** ** Claims on the first loop *)

(** C1.  The merged episode number is not the first non-null value in
    profile order: the desktop answer offers episode [3] of season [1], the
    mobile answer has a [meta] without pre-title, and the loop is left with
    no season and no episode, so that the manifest has none either. *)
Theorem C1_episode_number_overwritten :
  let B := Inputs.overwriting_backend in
  let offers :=
    map (fun dev => offered_episode (profile_answer B "a9050959" JNull dev))
      device_types in
  offers = [(Some "1", Some "3"); (None, None)]
  /\ first_some (map snd offers) = Some "3"
  /\ first_some (map fst offers) = Some "1"
  /\ exists st,
       result (fetch_metadata Sample.helpers B "a9050959" JNull) = Ok st
       /\ st_episode_number st = None
       /\ st_season_number st = None
       /\ forall formats subtitles,
            series_absent (assemble Sample.helpers "a9050959" st formats subtitles).
Proof.
  cbv zeta. repeat split; try reflexivity.
  eexists. split; [vm_compute; reflexivity |].
  repeat split; reflexivity.
Qed.

(** C2, as stated, fails: a desktop answer whose [video] entry lists two
    descriptors and a mobile answer with one leave one raw descriptor, not
    three. *)
Lemma C2_counterexample :
  advertised_descriptors Inputs.desktop_two_descriptors = 2%nat
  /\ advertised_descriptors Inputs.mobile_one_descriptor = 1%nat
  /\ exists st,
       result (fetch_metadata Sample.helpers Inputs.list_backend "162311093"
                 JNull) = Ok st
       /\ length (st_videos st) = 1%nat
       /\ length (st_videos st) <> (2 + 1)%nat.
Proof.
  repeat split; try reflexivity.
  eexists. split; [vm_compute; reflexivity |]. split; [reflexivity |].
  simpl. lia.
Qed.

Lemma contributed_le_1 dinfo : (length (contributed dinfo) <= 1)%nat.
Proof. unfold contributed. destruct (usable dinfo "video"); simpl; lia. Qed.

Lemma contributed_list d l :
  dict_get d "video" = JList l -> contributed (JDict d) = [].
Proof.
  intros E. unfold contributed, usable, traverse_obj_dict. rewrite E.
  destruct (truthy (JDict d)); reflexivity.
Qed.

(** C2, amended.  Each profile answer contributes at most one raw
    descriptor, its [video] entry when that is a non-empty dict (a list of
    descriptors contributes none); the contributions are put one after the
    other in profile order, equal ones included, so that the number of raw
    descriptors the first loop returns is the sum of the two contributions. *)
Theorem C2_descriptors_concatenated (H : Helpers) (B : Backend)
    (video_id : string) (hostname : json) :
  pre_titles_are_text B video_id hostname = true ->
  let desktop := profile_answer B video_id hostname "desktop" in
  let mobile := profile_answer B video_id hostname "mobile" in
  exists st,
    result (fetch_metadata H B video_id hostname) = Ok st
    /\ st_videos st = contributed desktop ++ contributed mobile
    /\ length (st_videos st) =
         (length (contributed desktop) + length (contributed mobile))%nat
    /\ (length (contributed desktop) <= 1)%nat
    /\ (length (contributed mobile) <= 1)%nat
    /\ (forall v, contributed desktop = [v] -> contributed mobile = [v] ->
          st_videos st = [v; v])
    /\ (forall d l, desktop = JDict d -> dict_get d "video" = JList l ->
          st_videos st = contributed mobile).
Proof.
  intros T desktop mobile.
  destruct (fetch_metadata_returns H B video_id hostname T) as (st & R).
  exists st. split; [exact R |].
  pose proof (fetch_metadata_videos H B video_id hostname st R) as V.
  fold desktop mobile in V.
  split; [exact V |].
  split; [rewrite V; apply length_app |].
  split; [apply contributed_le_1 |].
  split; [apply contributed_le_1 |].
  split.
  - intros v Ed Em. now rewrite V, Ed, Em.
  - intros d l Ed El. rewrite V, Ed, (contributed_list d l El). reflexivity.
Qed.

Lemma C2_descriptors_concatenated_witness :
  pre_titles_are_text Inputs.twice_backend "162311093" JNull = true
  /\ exists st,
       result (fetch_metadata Sample.helpers Inputs.twice_backend "162311093"
                 JNull) = Ok st
       /\ st_videos st =
            [[("url", JStr "https://cdn.example/a.m3u8")];
             [("url", JStr "https://cdn.example/a.m3u8")]].
Proof.
  split; [reflexivity |].
  destruct (C2_descriptors_concatenated Sample.helpers Inputs.twice_backend
              "162311093" JNull eq_refl)
    as (st & R & _ & _ & _ & _ & Twice & _).
  exists st. split; [exact R |]. apply Twice; reflexivity.
Defined.




(** The episode of the sample: its manifest fields. *)
Example C4_S1_E3 :
  let m := assemble Sample.helpers "a9050959" Inputs.episode_fetched [] [] in
  result (fetch_metadata Sample.helpers Inputs.episode_backend "a9050959" JNull)
    = Ok Inputs.episode_fetched
  /\ m_season_number m = Some 1
  /\ m_episode_number m = Some 3
  /\ m_episode m = JStr "Duel au vieux port"
  /\ m_series m = JStr "Foot2Rue"
  /\ m_title m = "Foot2Rue - Duel au vieux port".
Proof. repeat split. Qed.

Example C4_season_alone :
  series_absent
    (assemble Sample.helpers "x"
       {| st_is_live := JNull; st_videos := []; st_title := JStr "Journal";
          st_subtitle := JNull;
          st_episode_number := snd (episode_groups (JStr "S4"));
          st_season_number := fst (episode_groups (JStr "S4"));
          st_image := JNull; st_duration := JNull; st_timestamp := JNull;
          st_spritesheets := JNull |} [] []).
Proof. repeat split. Qed.

(** ** The second loop *)

Section Resolve.

Variable H : Helpers.
Variable B : Backend.
Variable video_id : string.

Lemma url_or_none_some v u :
  url_or_none H v = Some u -> exists s, v = JStr s /\ is_empty s = false.
Proof.
  unfold url_or_none. destruct v; try discriminate.
  destruct (is_empty s) eqn:E; [discriminate |]. eauto.
Qed.

(** A descriptor that passes the filter has a non-empty text as its URL. *)
Lemma has_url_str video :
  has_url H video = true ->
  dict_get video "url" = JStr (descriptor_url video)
  /\ is_empty (descriptor_url video) = false.
Proof.
  unfold has_url, descriptor_url, dict_get.
  destruct (dict_lookup video "url") as [u |]; [| discriminate].
  destruct (url_or_none H u) as [s |] eqn:E; [| discriminate].
  apply url_or_none_some in E as (s0 & -> & N). auto.
Qed.

(** The token exchange never raises; it returns the signed URL or the URL
    it was given. *)
Lemma sign_url_ok video video_url :
  exists u, result (sign_url H B video_id video video_url) = Ok u
            /\ (is_empty video_url = false -> is_empty u = false).
Proof.
  unfold sign_url.
  destruct (url_or_none H (dict_get video "token")) as [token_url |];
    [| exists video_url; auto].
  destruct (negb (is_empty token_url) && _); [| exists video_url; auto].
  unfold call_download_json. cbn [bind].
  destruct (traverse_obj_url H _) as [signed |]; [| exists video_url; auto].
  destruct (is_empty signed) eqn:E; simpl.
  - exists video_url; auto.
  - exists signed; auto.
Qed.

(** The formats of one URL: never an exception, the formats so far are kept,
    the URL is remembered, and no JSON download is made. *)
Lemma extract_formats_ok acc format_id video_url :
  exists r,
    result (extract_formats H B video_id acc format_id video_url) = Ok r
    /\ rs_video_url r = Some video_url
    /\ (exists fs, rs_formats r = rs_formats acc ++ fs)
    /\ existsb is_download_json
         (trace (extract_formats H B video_id acc format_id video_url)) = false.
Proof.
  unfold extract_formats.
  destruct (determine_ext H video_url =? "f4m")%string.
  { eexists. repeat split. eexists. reflexivity. }
  destruct (determine_ext H video_url =? "m3u8")%string.
  { unfold call_extract_m3u8. cbn [bind].
    destruct (extract_m3u8_formats_and_subtitles B _ _ _) as [fmts subs].
    eexists. repeat split. eexists. reflexivity. }
  destruct (determine_ext H video_url =? "mpd")%string.
  { unfold call_extract_mpd. cbn [bind].
    destruct (extract_mpd_formats_and_subtitles B _ _ _) as [fmts subs].
    eexists. repeat split. eexists. reflexivity. }
  destruct (startswith "rtmp" video_url).
  { eexists. repeat split. eexists. reflexivity. }
  unfold call_is_valid_url. cbn [bind ret].
  eexists. repeat split.
  destruct (is_valid_url B video_url video_id format_id); cbn [rs_formats].
  - eexists. reflexivity.
  - exists []. now rewrite app_nil_r.
Qed.

(** One turn of the second loop. *)
Lemma resolve_descriptor_ok acc video :
  exists u r,
    result (sign_url H B video_id video (descriptor_url video)) = Ok u
    /\ resolve_descriptor H B video_id acc video =
         logged (trace (sign_url H B video_id video (descriptor_url video)))
           (extract_formats H B video_id acc (dict_get video "format") u)
    /\ result (resolve_descriptor H B video_id acc video) = Ok r
    /\ rs_video_url r = Some u
    /\ exists fs, rs_formats r = rs_formats acc ++ fs.
Proof.
  destruct (sign_url_ok video (descriptor_url video)) as (u & S & _).
  destruct (extract_formats_ok acc (dict_get video "format") u)
    as (r & R & U & F & _).
  exists u, r. split; [exact S |].
  assert (E : resolve_descriptor H B video_id acc video =
              logged (trace (sign_url H B video_id video (descriptor_url video)))
                (extract_formats H B video_id acc (dict_get video "format") u)).
  { unfold resolve_descriptor. rewrite (bind_ok _ _ u S). reflexivity. }
  split; [exact E |]. rewrite E. unfold logged, result at 1. cbn [fst].
  auto.
Qed.

(** The loop never raises.  After it the remembered URL is the (signed) URL
    of the last descriptor, and there is none when there was no descriptor. *)
Lemma resolve_loop_ok videos : forall acc,
  exists r,
    result (for_each (resolve_descriptor H B video_id) videos acc) = Ok r
    /\ (exists fs, rs_formats r = rs_formats acc ++ fs)
    /\ match videos with
       | [] => r = acc
       | _ :: _ =>
           exists u,
             result (sign_url H B video_id (last videos [])
                       (descriptor_url (last videos []))) = Ok u
             /\ rs_video_url r = Some u
       end.
Proof.
  induction videos as [| v vs IH]; intros acc.
  - exists acc. repeat split. exists []. now rewrite app_nil_r.
  - destruct (resolve_descriptor_ok acc v) as (u & r1 & S & _ & R1 & U1 & fs1 & F1).
    destruct (IH r1) as (r & R & (fs & F) & L).
    exists r. cbn [for_each]. rewrite (bind_ok _ _ r1 R1).
    unfold result at 1. cbn [fst]. split; [exact R |]. split.
    + exists (fs1 ++ fs). now rewrite F, F1, app_assoc.
    + destruct vs as [| v' vs'].
      * subst r. exists u. auto.
      * exact L.
Qed.

Lemma resolve_formats_ok videos :
  exists r, result (resolve_formats H B video_id videos) = Ok r.
Proof.
  destruct (resolve_loop_ok (filter (has_url H) videos) resolved_init)
    as (r & R & _). eauto.
Qed.

Lemma resolve_formats_returns videos :
  result (resolve_formats H B video_id videos)
  = Ok (resolved_of H B video_id videos).
Proof.
  unfold resolved_of. destruct (resolve_formats_ok videos) as (r & R).
  now rewrite R.
Qed.

(** With a candidate URL among the descriptors, the loop ends on a non-empty
    URL: that of the last candidate, after its token exchange. *)
Lemma resolve_formats_candidate videos r :
  result (resolve_formats H B video_id videos) = Ok r ->
  filter (has_url H) videos <> [] ->
  exists u,
    result (sign_url H B video_id (last (filter (has_url H) videos) [])
              (descriptor_url (last (filter (has_url H) videos) []))) = Ok u
    /\ rs_video_url r = Some u
    /\ is_empty u = false.
Proof.
  unfold resolve_formats. intros R N.
  destruct (resolve_loop_ok (filter (has_url H) videos) resolved_init)
    as (r' & R' & _ & L).
  rewrite R in R'. injection R' as <-.
  destruct (filter (has_url H) videos) as [| v vs] eqn:E; [congruence |].
  destruct L as (u & S & U). exists u. split; [exact S |]. split; [exact U |].
  assert (In (last (v :: vs) []) (filter (has_url H) videos)) as I.
  { rewrite E. clear. revert v. induction vs as [| w ws IH]; intros v.
    - left. reflexivity.
    - right. apply IH. }
  apply filter_In in I as [_ I]. apply has_url_str in I as [_ I].
  destruct (sign_url_ok (last (v :: vs) []) (descriptor_url (last (v :: vs) [])))
    as (u' & S' & N').
  rewrite S in S'. injection S' as <-. auto.
Qed.

(** Without a candidate URL nothing is resolved and no URL is remembered. *)
Lemma resolve_formats_no_candidate videos :
  filter (has_url H) videos = [] ->
  resolve_formats H B video_id videos = ret resolved_init.
Proof. unfold resolve_formats. now intros ->. Qed.

End Resolve.

(** ** Claims on the second loop and on what follows it *)



Section Assemble.

Variable H : Helpers.
Variable B : Backend.
Variable video_id : string.

(** What follows the second loop, once the loop has returned [r]. *)
Lemma resolve_and_assemble_eq st r :
  result (resolve_formats H B video_id (st_videos st)) = Ok r ->
  resolve_and_assemble H B video_id st =
    logged (trace (resolve_formats H B video_id (st_videos st)))
      (_ <- check_geo B video_id r ;;
       formats <- add_storyboard (st_spritesheets st)
                    (map (rank_format H) (rs_formats r)) ;;
       ret (assemble H video_id st formats (rs_subtitles r))).
Proof.
  intros R. unfold resolve_and_assemble. rewrite (bind_ok _ _ r R).
  reflexivity.
Qed.

(** The probe is made exactly when no format was found although a URL was
    tried. *)
Lemma check_geo_probe r u :
  rs_formats r = [] -> rs_video_url r = Some u -> is_empty u = false ->
  check_geo B video_id r =
    (if geo_signalled (request_webpage_head B u video_id)
     then Raised (GeoRestrictedError GEO_COUNTRIES) else Ok tt,
     [RequestHEAD u video_id]).
Proof.
  intros F U N. unfold check_geo. rewrite F, U, N.
  unfold call_request_head. cbn [negb bind].
  destruct (geo_signalled _); reflexivity.
Qed.

Lemma check_geo_formats r :
  rs_formats r <> [] -> check_geo B video_id r = ret tt.
Proof. unfold check_geo. destruct (rs_formats r); [congruence | reflexivity]. Qed.

Lemma check_geo_result r :
  result (check_geo B video_id r) = Ok tt
  \/ (result (check_geo B video_id r) = Raised (GeoRestrictedError GEO_COUNTRIES)
      /\ rs_formats r = []).
Proof.
  unfold check_geo. destruct (rs_formats r); [| now left].
  destruct (rs_video_url r) as [u |]; [| now left].
  destruct (negb (is_empty u)); [| now left].
  unfold call_request_head. cbn [bind].
  destruct (geo_signalled _); [right | left]; auto.
Qed.

(** The result of the whole from the result of the probe. *)
Lemma resolve_and_assemble_result st r :
  result (resolve_formats H B video_id (st_videos st)) = Ok r ->
  result (resolve_and_assemble H B video_id st) =
    match result (check_geo B video_id r) with
    | Ok _ =>
        match result (add_storyboard (st_spritesheets st)
                        (map (rank_format H) (rs_formats r))) with
        | Ok formats => Ok (assemble H video_id st formats (rs_subtitles r))
        | Raised e => Raised e
        end
    | Raised e => Raised e
    end.
Proof.
  intros R. rewrite (resolve_and_assemble_eq st r R).
  unfold logged, result at 1. cbn [fst].
  destruct (check_geo B video_id r) as [[[] | e] t]; [| reflexivity].
  cbn [bind].
  destruct (add_storyboard _ _) as [[formats | e] t']; reflexivity.
Qed.

End Assemble.




(** The same descriptor behind a regional block: the probe answers with the
    geo header. *)
Example geo_restricted :
  result (_extract_video Sample.helpers Inputs.blocked_backend "clip"
            JNull JNull)
  = Raised (GeoRestrictedError ["FR"]).
Proof. reflexivity. Qed.

(** C8.  When the merged spritesheets are a non-empty list, one format is
    added after the resolved ones, the storyboard: its note is [storyboard],
    it has one fragment per sheet, in order, each with the sheet as URL and
    the duration 200.  It is added in every resolution that returns, which
    is every resolution the geo probe does not stop. *)
Theorem C8_storyboard (H : Helpers) (B : Backend) (video_id : string)
    (st : fetched) (sheets : list json) :
  st_spritesheets st = JList sheets ->
  sheets <> [] ->
  let r := resolved_of H B video_id (st_videos st) in
  (result (check_geo B video_id r) = Ok tt ->
   exists m,
     result (resolve_and_assemble H B video_id st) = Ok m
     /\ m_formats m = map (rank_format H) (rs_formats r) ++ [storyboard sheets])
  /\ (rs_formats r <> [] -> result (check_geo B video_id r) = Ok tt)
  /\ dict_get (storyboard sheets) "format_note" = JStr "storyboard"
  /\ dict_get (storyboard sheets) "fragments" = JList (map fragment sheets)
  /\ length (map fragment sheets) = length sheets
  /\ forall i sheet,
       nth_error sheets i = Some sheet ->
       nth_error (map fragment sheets) i =
         Some (JDict [("url", sheet); ("duration", JNum 200)]).
Proof.
  intros S N r.
  pose proof (resolve_formats_returns H B video_id (st_videos st)) as R.
  fold r in R. split.
  { intros G. rewrite (resolve_and_assemble_result H B video_id st r R), G, S.
    unfold add_storyboard. destruct sheets as [| s0 sheets']; [congruence |].
    eexists. split; reflexivity. }
  split.
  { intros F. now rewrite (check_geo_formats B video_id r F). }
  split; [reflexivity |]. split; [reflexivity |].
  split; [apply length_map |].
  intros i sheet E. rewrite nth_error_map, E. reflexivity.
Qed.

Lemma C8_storyboard_witness :
  let B := Inputs.unreachable_backend in
  let st := Inputs.unreachable_fetched in
  let sheets := [JStr "https://img.example/sheet1.jpg";
                 JStr "https://img.example/sheet2.jpg"] in
  st_spritesheets st = JList sheets
  /\ sheets <> []
  /\ result (check_geo B "clip"
               (resolved_of Sample.helpers B "clip" (st_videos st))) = Ok tt
  /\ exists m,
       result (resolve_and_assemble Sample.helpers B "clip" st) = Ok m
       /\ m_formats m = [storyboard sheets].
Proof.
  cbv zeta. split; [reflexivity |].
  assert (N : [JStr "https://img.example/sheet1.jpg";
               JStr "https://img.example/sheet2.jpg"] <> [])
    by discriminate.
  split; [exact N |]. split; [reflexivity |].
  destruct (C8_storyboard Sample.helpers Inputs.unreachable_backend
              "clip" Inputs.unreachable_fetched _ eq_refl N)
    as (Added & _).
  exact (Added eq_refl).
Defined.

(** ** Audio description *)

Section Rank.

Variable H : Helpers.

Lemma rank_format_other f : is_audio_description f = false -> rank_format H f = f.
Proof. unfold rank_format. now intros ->. Qed.

Lemma rank_format_audio_description f :
  is_audio_description f = true ->
  dict_lookup (rank_format H f) "language_preference" = Some (JNum (-10))
  /\ dict_lookup (rank_format H f) "format_note" =
       Some (JStr ("audio description"
                   ++ format_field H
                        (dict_set f "language_preference" (JNum (-10)))
                        "format_note" ", %s")).
Proof.
  unfold rank_format. intros ->. split.
  - rewrite dict_lookup_set_other by discriminate.
    apply dict_lookup_set_same.
  - apply dict_lookup_set_same.
Qed.

End Rank.

(** C5, as stated, fails: a video-only format tagged [qad] goes through
    unchanged, without preference and without note. *)
Lemma C5_counterexample :
  let m := Inputs.dash_manifest in
  let f := Inputs.video_only_qad in
  result (_extract_video Sample.helpers Inputs.dash_backend "ad"
            JNull JNull) = Ok m
  /\ In f (m_formats m)
  /\ dict_get f "language" = JStr "qad"
  /\ dict_lookup f "language_preference" = None
  /\ dict_lookup f "format_note" = None.
Proof.
  cbv zeta. split; [reflexivity |]. split; [left; reflexivity |].
  repeat split.
Qed.

(** C5, amended.  Every resolved format is in the manifest after the
    ranking.  One that has audio ([acodec] is not [none]) and whose language
    is [qtz] or [qad] gets the preference -10, which is below the preference
    of every format that carries none as soon as the default of the format
    selection is above -10, and its note becomes [audio description]
    followed by what [format_field] makes of the former note.  Every other
    format, and a video-only format whatever its language, is left as it
    is. *)
Theorem C5_audio_description (H : Helpers) (B : Backend) (video_id : string)
    (st : fetched) (default_preference : Z) :
  -10 < default_preference ->
  forall f, In f (rs_formats (resolved_of H B video_id (st_videos st))) ->
    (forall m, result (resolve_and_assemble H B video_id st) = Ok m ->
               In (rank_format H f) (m_formats m))
    /\ (language_is_audio_description f = true ->
        eq_str (dict_get f "acodec") "none" = false ->
        dict_lookup (rank_format H f) "language_preference" = Some (JNum (-10))
        /\ (forall g, dict_lookup g "language_preference" = None ->
              preference default_preference (rank_format H f)
              < preference default_preference g)
        /\ dict_lookup (rank_format H f) "format_note" =
             Some (JStr ("audio description"
                         ++ format_field H
                              (dict_set f "language_preference" (JNum (-10)))
                              "format_note" ", %s")))
    /\ (language_is_audio_description f = false
        \/ eq_str (dict_get f "acodec") "none" = true ->
        rank_format H f = f).
Proof.
  intros D f I.
  pose proof (resolve_formats_returns H B video_id (st_videos st)) as R.
  set (r := resolved_of H B video_id (st_videos st)) in *.
  split; [| split].
  - intros m A.
    rewrite (resolve_and_assemble_result H B video_id st r R) in A.
    destruct (result (check_geo B video_id r)); [| discriminate].
    unfold add_storyboard in A.
    assert (In (rank_format H f) (map (rank_format H) (rs_formats r))) as IM
      by now apply in_map.
    destruct (truthy (st_spritesheets st)).
    + destruct (py_iter (st_spritesheets st)); [| discriminate].
      injection A as <-. cbn [m_formats]. apply in_or_app. now left.
    + injection A as <-. exact IM.
  - intros L C.
    assert (AD : is_audio_description f = true).
    { unfold is_audio_description. rewrite C.
      unfold language_is_audio_description in L. now rewrite L. }
    destruct (rank_format_audio_description H f AD) as [P N].
    split; [exact P |]. split; [| exact N].
    intros g G. unfold preference. now rewrite P, G.
  - intros C. apply rank_format_other. unfold is_audio_description.
    unfold language_is_audio_description in C.
    destruct C as [-> | ->]; [apply andb_false_r | reflexivity].
Qed.

Lemma C5_audio_description_witness :
  let f := Inputs.audio_qad in
  let B := Inputs.dash_backend in
  -10 < -1
  /\ In f (rs_formats (resolved_of Sample.helpers B "ad"
                         (st_videos Inputs.dash_fetched)))
  /\ dict_lookup (rank_format Sample.helpers f) "language_preference"
       = Some (JNum (-10))
  /\ dict_lookup (rank_format Sample.helpers f) "format_note"
       = Some (JStr "audio description, DASH audio")
  /\ preference (-1) (rank_format Sample.helpers f)
     < preference (-1) Inputs.video_only_qad.
Proof.
  cbv zeta.
  assert (D : -10 < -1) by lia.
  assert (I : In Inputs.audio_qad
                (rs_formats (resolved_of Sample.helpers Inputs.dash_backend "ad"
                               (st_videos Inputs.dash_fetched))))
    by (right; left; reflexivity).
  split; [exact D |]. split; [exact I |].
  destruct (C5_audio_description Sample.helpers Inputs.dash_backend "ad"
              Inputs.dash_fetched (-1) D Inputs.audio_qad I)
    as (_ & AD & _).
  destruct (AD eq_refl eq_refl) as (P & Below & N).
  split; [exact P |]. split; [exact N |].
  exact (Below Inputs.video_only_qad eq_refl).
Defined.

(** ** Runs against two backends *)

Section Runs.

Variable H : Helpers.
Variables B1 B2 : Backend.

Lemma same_run_refl {A} (m : M A) : same_run B1 B2 m m.
Proof. intros _. reflexivity. Qed.

Lemma same_run_bind {A B} (m1 m2 : M A) (k1 k2 : A -> M B) :
  same_run B1 B2 m1 m2 ->
  (forall a, same_run B1 B2 (k1 a) (k2 a)) ->
  same_run B1 B2 (bind m1 k1) (bind m2 k2).
Proof.
  intros Sm Sk G.
  assert (E : m1 = m2).
  { apply Sm. intros r I. apply G. now apply trace_bind_head. }
  subst m2. destruct m1 as [[a | e] t]; [| reflexivity].
  assert (Ek : k1 a = k2 a).
  { apply Sk. intros r I. apply G. simpl.
    destruct (k1 a) as [b t']. simpl in *. apply in_or_app. now right. }
  simpl. now rewrite Ek.
Qed.

Lemma same_run_for_each {A S} (body1 body2 : S -> A -> M S) xs :
  (forall acc x, same_run B1 B2 (body1 acc x) (body2 acc x)) ->
  forall acc, same_run B1 B2 (for_each body1 xs acc) (for_each body2 xs acc).
Proof.
  intros Sb. induction xs as [| x xs IH]; intros acc.
  - apply same_run_refl.
  - cbn [for_each]. apply same_run_bind; [apply Sb | exact IH].
Qed.

Lemma same_run_download_json url video_id query :
  same_run B1 B2 (call_download_json B1 url video_id query)
    (call_download_json B2 url video_id query).
Proof.
  intros G. unfold call_download_json.
  now rewrite (G (DownloadJSON url video_id query) (or_introl eq_refl)).
Qed.

Lemma same_run_extract_f4m url video_id item :
  same_run B1 B2 (call_extract_f4m B1 url video_id item)
    (call_extract_f4m B2 url video_id item).
Proof.
  intros G. unfold call_extract_f4m.
  now rewrite (G (ExtractF4M url video_id item) (or_introl eq_refl)).
Qed.

Lemma same_run_extract_m3u8 url video_id item :
  same_run B1 B2 (call_extract_m3u8 B1 url video_id item)
    (call_extract_m3u8 B2 url video_id item).
Proof.
  intros G. unfold call_extract_m3u8.
  now rewrite (G (ExtractM3U8 url video_id item) (or_introl eq_refl)).
Qed.

Lemma same_run_extract_mpd url video_id item :
  same_run B1 B2 (call_extract_mpd B1 url video_id item)
    (call_extract_mpd B2 url video_id item).
Proof.
  intros G. unfold call_extract_mpd.
  now rewrite (G (ExtractMPD url video_id item) (or_introl eq_refl)).
Qed.

Lemma same_run_is_valid_url url video_id item :
  same_run B1 B2 (call_is_valid_url B1 url video_id item)
    (call_is_valid_url B2 url video_id item).
Proof.
  intros G. unfold call_is_valid_url.
  now rewrite (G (IsValidURL url video_id item) (or_introl eq_refl)).
Qed.

Lemma same_run_request_head url video_id :
  same_run B1 B2 (call_request_head B1 url video_id)
    (call_request_head B2 url video_id).
Proof.
  intros G. unfold call_request_head.
  now rewrite (G (RequestHEAD url video_id) (or_introl eq_refl)).
Qed.

Create HintDb runs.

#[local] Hint Resolve same_run_refl same_run_download_json same_run_extract_f4m
  same_run_extract_m3u8 same_run_extract_mpd same_run_is_valid_url
  same_run_request_head : runs.

Lemma same_run_fetch_profile video_id hostname st dev :
  same_run B1 B2 (fetch_profile H B1 video_id hostname st dev)
    (fetch_profile H B2 video_id hostname st dev).
Proof.
  unfold fetch_profile. apply same_run_bind; [auto with runs |].
  intros dinfo. apply same_run_refl.
Qed.

Lemma same_run_sign_url video_id video video_url :
  same_run B1 B2 (sign_url H B1 video_id video video_url)
    (sign_url H B2 video_id video video_url).
Proof.
  unfold sign_url.
  destruct (url_or_none H (dict_get video "token")); [| apply same_run_refl].
  destruct (negb _ && _); [| apply same_run_refl].
  apply same_run_bind; [auto with runs |].
  intros answer. apply same_run_refl.
Qed.

Lemma same_run_extract_formats video_id acc format_id video_url :
  same_run B1 B2 (extract_formats H B1 video_id acc format_id video_url)
    (extract_formats H B2 video_id acc format_id video_url).
Proof.
  unfold extract_formats.
  repeat match goal with
         | |- same_run _ _ (if ?c then _ else _) _ => destruct c
         end;
    try apply same_run_refl;
    (apply same_run_bind; [auto with runs | intros ?; apply same_run_refl]).
Qed.

Lemma same_run_resolve_descriptor video_id acc video :
  same_run B1 B2 (resolve_descriptor H B1 video_id acc video)
    (resolve_descriptor H B2 video_id acc video).
Proof.
  unfold resolve_descriptor.
  apply same_run_bind; [apply same_run_sign_url |].
  intros u. apply same_run_extract_formats.
Qed.

Lemma same_run_check_geo video_id r :
  same_run B1 B2 (check_geo B1 video_id r) (check_geo B2 video_id r).
Proof.
  unfold check_geo. destruct (rs_formats r); [| apply same_run_refl].
  destruct (rs_video_url r) as [u |]; [| apply same_run_refl].
  destruct (negb (is_empty u)); [| apply same_run_refl].
  apply same_run_bind; [auto with runs |].
  intros urlh. apply same_run_refl.
Qed.

Lemma same_run_resolve_and_assemble video_id st :
  same_run B1 B2 (resolve_and_assemble H B1 video_id st)
    (resolve_and_assemble H B2 video_id st).
Proof.
  unfold resolve_and_assemble, resolve_formats.
  apply same_run_bind.
  { apply same_run_for_each. intros acc v. apply same_run_resolve_descriptor. }
  intros r. apply same_run_bind; [apply same_run_check_geo |].
  intros _. apply same_run_refl.
Qed.

Lemma same_run_extract_video video_id catalogue hostname :
  same_run B1 B2 (_extract_video H B1 video_id catalogue hostname)
    (_extract_video H B2 video_id catalogue hostname).
Proof.
  unfold _extract_video, fetch_metadata.
  apply same_run_bind.
  { apply same_run_for_each. intros acc dev. apply same_run_fetch_profile. }
  intros st. apply same_run_resolve_and_assemble.
Qed.

Lemma same_run_real_extract url :
  same_run B1 B2 (_real_extract H B1 url) (_real_extract H B2 url).
Proof.
  unfold _real_extract. apply same_run_bind; [apply same_run_refl |].
  intros [[video_id catalog] hostname]. apply same_run_extract_video.
Qed.

End Runs.

(** ** [_make_url_result] *)

(** C10.  For an identifier that contains [@] the catalog argument is
    ignored: the reference is the one made without catalog, and without an
    origin URL it is [francetv:] followed by the identifier as it is.  The
    video id of the reference is always the part of the identifier before
    its first [@], the whole identifier when it has none. *)
Theorem C10_make_url_result (H : Helpers) (video_or_full_id : string)
    (catalog : json) (url : option string) :
  (contains_char "@" video_or_full_id = true ->
   _make_url_result H video_or_full_id catalog url
   = _make_url_result H video_or_full_id JNull url
   /\ ur_url (_make_url_result H video_or_full_id catalog None)
      = ("francetv:" ++ video_or_full_id)%string
   /\ exists rest,
        video_or_full_id =
          (ur_video_id (_make_url_result H video_or_full_id catalog url)
           ++ String "@" rest)%string)
  /\ contains_char "@"
       (ur_video_id (_make_url_result H video_or_full_id catalog url)) = false
  /\ (contains_char "@" video_or_full_id = false ->
      ur_video_id (_make_url_result H video_or_full_id catalog url)
      = video_or_full_id).
Proof.
  split; [| split].
  - intros C. unfold _make_url_result. rewrite C. cbn [negb andb].
    split; [reflexivity |]. split; [reflexivity |].
    cbn [ur_video_id]. unfold before_at.
    destruct (span_not_at_rest video_or_full_id C) as (rest & E).
    exists rest. rewrite <- E. apply span_append.
  - cbn [_make_url_result ur_video_id]. apply span_not_at_contains.
  - intros C. cbn [_make_url_result ur_video_id]. unfold before_at.
    now rewrite (span_not_at_whole video_or_full_id C).
Qed.

Lemma C10_make_url_result_witness :
  contains_char "@" "NI_1004933@Zouzous" = true
  /\ ur_url (_make_url_result Sample.helpers "NI_1004933@Zouzous"
               (JStr "Regions") None)
     = "francetv:NI_1004933@Zouzous"
  /\ ur_video_id (_make_url_result Sample.helpers "162311093"
                    (JStr "Regions") None)
     = "162311093".
Proof.
  split; [reflexivity |].
  destruct (C10_make_url_result Sample.helpers "NI_1004933@Zouzous"
              (JStr "Regions") None) as (At & _ & _).
  destruct (At eq_refl) as (_ & U & _).
  split; [exact U |].
  destruct (C10_make_url_result Sample.helpers "162311093"
              (JStr "Regions") None) as (_ & _ & Whole).
  exact (Whole eq_refl).
Defined.

(** ** The classifier *)

Lemma match_id_catalog_plain id :
  is_empty id = false -> all_chars not_at id = true ->
  match_id_catalog id = Some (Some id, None).
Proof.
  intros N A. unfold match_id_catalog. rewrite (span_app_end not_at id A).
  now rewrite N.
Qed.

Lemma match_id_catalog_at id catalog :
  is_empty id = false -> all_chars not_at id = true ->
  is_empty catalog = false -> all_chars not_newline catalog = true ->
  match_id_catalog (id ++ String "@" catalog) = Some (Some id, Some catalog).
Proof.
  intros N A NC AC. unfold match_id_catalog.
  rewrite (span_app_stop not_at id "@" catalog A eq_refl).
  rewrite N, (span_app_end not_newline catalog AC). cbn [fst].
  now rewrite NC.
Qed.

(** On the prefixes of the legacy and internal shapes the pattern reads the
    identifier and the catalog. *)
Lemma match_valid_url_reference prefix rest :
  In prefix reference_prefixes ->
  match_valid_url (prefix ++ rest) = match_id_catalog rest.
Proof.
  intros [<- | [<- | [<- | []]]]; reflexivity.
Qed.


Lemma strip_prefix_app p s : strip_prefix p (p ++ s) = Some s.
Proof.
  induction p as [| a p IH]; simpl; [reflexivity |].
  now rewrite Ascii.eqb_refl.
Qed.

Lemma id_diffusion_here_value c rest :
  not_amp c = true ->
  id_diffusion_here ("idDiffusion=" ++ String c rest) = true.
Proof.
  intros A. unfold id_diffusion_here.
  now rewrite (strip_prefix_app "idDiffusion=" (String c rest)).
Qed.

Lemma strip_prefix_some p s r : strip_prefix p s = Some r -> s = (p ++ r)%string.
Proof.
  revert s. induction p as [| a p IH]; intros s; simpl.
  - now intros [= ->].
  - destruct s as [| b s]; [discriminate |].
    destruct (Ascii.eqb_spec a b) as [-> |]; [| discriminate].
    intros E. now rewrite (IH s E).
Qed.

(** [.*?\bidDiffusion=[^&]+] declaratively: some text without newline, ending
    on a character that is not a word character, then [idDiffusion=] and a
    character other than [&]. *)
Lemma lazy_id_diffusion_spec s : forall prev,
  lazy_id_diffusion prev s = true <->
  exists pre c rest,
    s = (pre ++ "idDiffusion=" ++ String c rest)%string
    /\ all_chars not_newline pre = true
    /\ is_word (last_char prev pre) = false
    /\ not_amp c = true.
Proof.
  induction s as [| x s IH]; intros prev.
  - split.
    + cbn [lazy_id_diffusion]. unfold id_diffusion_here. simpl.
      rewrite andb_false_r. discriminate.
    + intros (pre & c & rest & E & _). destruct pre; discriminate.
  - split.
    + cbn [lazy_id_diffusion]. intros L. apply orb_true_iff in L as [L | L].
      * apply andb_true_iff in L as [W Here]. apply negb_true_iff in W.
        unfold id_diffusion_here in Here.
        destruct (strip_prefix "idDiffusion=" (String x s)) as [[| c rest] |]
          eqn:P; try discriminate.
        apply strip_prefix_some in P.
        exists EmptyString, c, rest. auto.
      * apply andb_true_iff in L as [N L].
        apply IH in L as (pre & c & rest & -> & A & W & Amp).
        exists (String x pre), c, rest. repeat split; auto.
        unfold all_chars in *. simpl. now rewrite N, A.
    + intros (pre & c & rest & E & A & W & Amp).
      cbn [lazy_id_diffusion]. destruct pre as [| y pre].
      * cbn [last_char] in W. rewrite W. cbn [negb andb].
        change (String x s = ("idDiffusion=" ++ String c rest)%string) in E.
        rewrite E, (id_diffusion_here_value c rest Amp). reflexivity.
      * injection E as -> E. unfold all_chars in A. simpl in A.
        apply andb_true_iff in A as [N A]. rewrite N. cbn [andb].
        assert (L : lazy_id_diffusion y s = true).
        { apply IH. exists pre, c, rest. auto. }
        rewrite L. apply orb_true_r.
Qed.







(** The URLs of the extractor's own list of tests. *)
Example classify_tests :
  map (fun url => result (classify Sample.helpers url))
    ["https://sivideo.webservices.francetelevisions.fr/tools/getInfosOeuvre/v2/?idDiffusion=162311093&callback=_jsonp_loader_callback_request_0";
     "https://sivideo.webservices.francetelevisions.fr/tools/getInfosOeuvre/v2/?idDiffusion=NI_1004933&catalogue=Zouzous&callback=_jsonp_loader_callback_request_4";
     "http://videos.francetv.fr/video/NI_657393@Regions";
     "francetv:162311093";
     "francetv:NI_983319@Info-web";
     "francetv:SIM_France3"]
  = [Ok ("162311093", None, JNull);
     Ok ("NI_1004933", Some "Zouzous", JNull);
     Ok ("NI_657393", Some "Regions", JNull);
     Ok ("162311093", None, JNull);
     Ok ("NI_983319", Some "Info-web", JNull);
     Ok ("SIM_France3", None, JNull)].
Proof. reflexivity. Qed.

Example classify_no_identifier :
  classify Sample.helpers
    "https://sivideo.webservices.francetelevisions.fr/tools/getInfosOeuvre/v2/?x=idDiffusion=5"
  = raise (ExtractorError "Invalid URL" true).
Proof. reflexivity. Qed.

(** * Further properties of the resolution *)

Lemma result_pair {A} (r : outcome A) (t : list request) : result (r, t) = r.
Proof. reflexivity. Qed.

Lemma trace_pair {A} (r : outcome A) (t : list request) : trace (r, t) = t.
Proof. reflexivity. Qed.

(** ** The first loop *)

(** X1.  Title, subtitle, image, duration, timestamp, live flag and
    spritesheets: the merged value is the first value, in the order desktop
    then mobile, that is not [None]; a desktop value is never replaced, and
    a field the desktop answer lacks comes from the mobile answer. *)
Theorem X1_guarded_fields_first_non_null (H : Helpers) (B : Backend)
    (video_id : string) (hostname : json) :
  pre_titles_are_text B video_id hostname = true ->
  let desktop := profile_answer B video_id hostname "desktop" in
  let mobile := profile_answer B video_id hostname "mobile" in
  exists st,
    result (fetch_metadata H B video_id hostname) = Ok st
    /\ forall f,
         merged f st = first_non_null [offered H f desktop; offered H f mobile]
         /\ (is_none (offered H f desktop) = false ->
             merged f st = offered H f desktop)
         /\ (is_none (offered H f desktop) = true ->
             merged f st = offered H f mobile).
Proof.
  intros T desktop mobile.
  destruct (fetch_metadata_returns H B video_id hostname T) as (st & R).
  exists st. split; [exact R |]. intros f.
  pose proof (merge_first_non_null H B video_id hostname st f R) as M.
  cbn [map device_types] in M. fold desktop mobile in M.
  split; [exact M |]. rewrite M. cbn [first_non_null]. split.
  - now intros ->.
  - intros N. rewrite N. destruct (offered H f mobile); reflexivity.
Qed.

Lemma X1_guarded_fields_first_non_null_witness :
  let B := Inputs.episode_backend in
  pre_titles_are_text B "a9050959" JNull = true
  /\ exists st,
       result (fetch_metadata Sample.helpers B "a9050959" JNull) = Ok st
       /\ merged Title st = JStr "Foot2Rue"
       /\ merged Image st = JStr "https://img.example/f2r.jpg".
Proof.
  cbv zeta. split; [reflexivity |].
  destruct (X1_guarded_fields_first_non_null Sample.helpers
              Inputs.episode_backend "a9050959" JNull eq_refl) as (st & R & F).
  exists st. split; [exact R |]. split.
  - destruct (F Title) as (_ & Kept & _). exact (Kept eq_refl).
  - destruct (F Image) as (_ & _ & Filled). exact (Filled eq_refl).
Defined.

(** X2.  When both metadata queries fail (a false answer), nothing is raised:
    the two queries are the only calls, and the manifest has the id, an
    empty title, no formats, no subtitles and nothing else. *)
Theorem X2_both_profiles_fail (H : Helpers) (B : Backend)
    (video_id : string) (catalogue hostname : json) :
  truthy (profile_answer B video_id hostname "desktop") = false ->
  truthy (profile_answer B video_id hostname "mobile") = false ->
  _extract_video H B video_id catalogue hostname =
    (Ok (bare_manifest video_id),
     [metadata_request video_id hostname "desktop";
      metadata_request video_id hostname "mobile"]).
Proof.
  intros D M. unfold _extract_video, fetch_metadata, device_types.
  cbn [for_each]. rewrite !fetch_profile_eq, D. cbn [bind ret app].
  rewrite fetch_profile_eq, M. reflexivity.
Qed.

Lemma X2_both_profiles_fail_witness :
  let B := InputsResolution.silent_backend in
  truthy (profile_answer B "162311093" JNull "desktop") = false
  /\ truthy (profile_answer B "162311093" JNull "mobile") = false
  /\ result (_extract_video Sample.helpers B "162311093" JNull JNull)
     = Ok (bare_manifest "162311093").
Proof.
  cbv zeta. split; [reflexivity |]. split; [reflexivity |].
  now rewrite (X2_both_profiles_fail Sample.helpers
                 InputsResolution.silent_backend "162311093" JNull JNull
                 eq_refl eq_refl).
Defined.

(** ** The second loop *)

Section ResolveMore.

Variable H : Helpers.
Variable B : Backend.
Variable video_id : string.

(** The formats added for one URL do not depend on the formats so far. *)
Lemma extract_formats_added acc format_id video_url :
  exists fs,
    (forall acc', exists r,
        result (extract_formats H B video_id acc' format_id video_url) = Ok r
        /\ rs_formats r = rs_formats acc' ++ fs)
    /\ trace (extract_formats H B video_id acc format_id video_url)
       = trace (extract_formats H B video_id resolved_init format_id video_url)
    /\ (length (trace (extract_formats H B video_id acc format_id video_url))
        <= 1)%nat
    /\ existsb is_request_head
         (trace (extract_formats H B video_id acc format_id video_url)) = false.
Proof.
  unfold extract_formats.
  destruct (determine_ext H video_url =? "f4m")%string.
  { eexists. split; [intros acc'; eexists; split; reflexivity |].
    split; [reflexivity |]. split; [apply le_n | reflexivity]. }
  destruct (determine_ext H video_url =? "m3u8")%string.
  { unfold call_extract_m3u8. cbn [bind].
    destruct (extract_m3u8_formats_and_subtitles B _ _ _) as [fmts subs].
    eexists. split; [intros acc'; eexists; split; reflexivity |].
    split; [reflexivity |]. split; [apply le_n | reflexivity]. }
  destruct (determine_ext H video_url =? "mpd")%string.
  { unfold call_extract_mpd. cbn [bind].
    destruct (extract_mpd_formats_and_subtitles B _ _ _) as [fmts subs].
    eexists. split; [intros acc'; eexists; split; reflexivity |].
    split; [reflexivity |]. split; [apply le_n | reflexivity]. }
  destruct (startswith "rtmp" video_url).
  { eexists. split; [intros acc'; eexists; split; reflexivity |].
    split; [reflexivity |]. split; [apply le_0_n | reflexivity]. }
  unfold call_is_valid_url. cbn [bind ret].
  destruct (is_valid_url B video_url video_id format_id).
  - eexists. split; [intros acc'; eexists; split; reflexivity |].
    split; [reflexivity |]. split; [apply le_n | reflexivity].
  - exists []. split.
    + intros acc'. eexists. split; [reflexivity |].
      cbn [rs_formats]. now rewrite app_nil_r.
    + split; [reflexivity |]. split; [apply le_n | reflexivity].
Qed.

Lemma sign_url_trace video video_url :
  (length (trace (sign_url H B video_id video video_url)) <= 1)%nat
  /\ existsb is_request_head (trace (sign_url H B video_id video video_url))
     = false.
Proof.
  unfold sign_url.
  destruct (url_or_none H (dict_get video "token")) as [t |];
    [| split; [apply le_0_n | reflexivity]].
  destruct (negb (is_empty t) && _); [| split; [apply le_0_n | reflexivity]].
  unfold call_download_json. cbn [bind].
  destruct (traverse_obj_url H _) as [s |];
    [destruct (negb (is_empty s)) |]; split; first [apply le_n | reflexivity].
Qed.

(** One descriptor: its formats are added to the formats so far, at most two
    calls are made, and none of them is a HEAD request. *)
Lemma resolve_descriptor_added acc video :
  exists r,
    result (resolve_descriptor H B video_id acc video) = Ok r
    /\ rs_formats r = rs_formats acc ++ descriptor_formats H B video_id video
    /\ (length (trace (resolve_descriptor H B video_id acc video)) <= 2)%nat
    /\ existsb is_request_head
         (trace (resolve_descriptor H B video_id acc video)) = false.
Proof.
  destruct (resolve_descriptor_ok H B video_id acc video)
    as (u & r & S & E & R & _ & _).
  destruct (resolve_descriptor_ok H B video_id resolved_init video)
    as (u0 & r0 & S0 & E0 & R0 & _ & _).
  rewrite S in S0. injection S0 as <-.
  destruct (extract_formats_added acc (dict_get video "format") u)
    as (fs & F & _ & L & NH).
  destruct (sign_url_trace video (descriptor_url video)) as (LS & NHS).
  exists r. split; [exact R |]. split; [| split].
  - unfold descriptor_formats. rewrite R0.
    rewrite E in R. unfold logged, result at 1 in R. cbn [fst] in R.
    rewrite E0 in R0. unfold logged, result at 1 in R0. cbn [fst] in R0.
    destruct (F acc) as (ra & Ra & Fa). destruct (F resolved_init) as (ri & Ri & Fi).
    rewrite Ra in R. injection R as <-. rewrite Ri in R0. injection R0 as <-.
    rewrite Fa, Fi. reflexivity.
  - rewrite E. unfold logged, trace at 1. cbn [snd]. rewrite length_app.
    apply (Nat.add_le_mono _ 1 _ 1); assumption.
  - rewrite E. unfold logged, trace at 1. cbn [snd].
    rewrite existsb_app, NHS, NH. reflexivity.
Qed.

Lemma resolve_loop_added videos : forall acc,
  exists r,
    result (for_each (resolve_descriptor H B video_id) videos acc) = Ok r
    /\ rs_formats r
       = rs_formats acc ++ flat_map (descriptor_formats H B video_id) videos
    /\ (length (trace (for_each (resolve_descriptor H B video_id) videos acc))
        <= 2 * length videos)%nat
    /\ existsb is_request_head
         (trace (for_each (resolve_descriptor H B video_id) videos acc)) = false.
Proof.
  induction videos as [| v vs IH]; intros acc.
  - exists acc. cbn. rewrite app_nil_r. repeat split. apply le_n.
  - destruct (resolve_descriptor_added acc v) as (r1 & R1 & F1 & L1 & N1).
    destruct (IH r1) as (r & R & F & L & N).
    exists r. cbn [for_each]. rewrite (bind_ok _ _ r1 R1).
    rewrite result_pair, !trace_pair.
    split; [exact R |]. split; [| split].
    + rewrite F, F1. cbn [flat_map]. now rewrite app_assoc.
    + rewrite length_app. cbn [length]. lia.
    + rewrite existsb_app, N1, N. reflexivity.
Qed.

End ResolveMore.

(** X3.  The resolved formats are the formats of the descriptors that carry
    a resolvable URL, each descriptor resolved on its own, put one after the
    other in the order of the descriptors; a descriptor without such a URL
    gives none. *)
Theorem X3_formats_in_descriptor_order (H : Helpers) (B : Backend)
    (video_id : string) (videos : list pydict) :
  rs_formats (resolved_of H B video_id videos)
  = flat_map (descriptor_formats H B video_id) (filter (has_url H) videos).
Proof.
  pose proof (resolve_formats_returns H B video_id videos) as R.
  unfold resolve_formats in R.
  destruct (resolve_loop_added H B video_id (filter (has_url H) videos)
              resolved_init) as (r & R' & F & _).
  rewrite R in R'. injection R' as <-. exact F.
Qed.

(** X4.  A HEAD request is made exactly when no format was resolved although
    a descriptor carried a resolvable URL; in every other resolution there is
    no probe and no [GeoRestrictedError]. *)
Theorem X4_probe_exactly_when_nothing_resolved (H : Helpers) (B : Backend)
    (video_id : string) (st : fetched) :
  let r := resolved_of H B video_id (st_videos st) in
  (existsb is_request_head (trace (resolve_and_assemble H B video_id st)) = true
   <-> rs_formats r = [] /\ filter (has_url H) (st_videos st) <> [])
  /\ (existsb is_request_head (trace (resolve_and_assemble H B video_id st))
      = false ->
      forall countries,
        result (resolve_and_assemble H B video_id st)
        <> Raised (GeoRestrictedError countries)).
Proof.
  intros r.
  pose proof (resolve_formats_returns H B video_id (st_videos st)) as R.
  fold r in R.
  assert (NH : existsb is_request_head
                 (trace (resolve_formats H B video_id (st_videos st))) = false).
  { unfold resolve_formats.
    destruct (resolve_loop_added H B video_id
                (filter (has_url H) (st_videos st)) resolved_init)
      as (_ & _ & _ & _ & N). exact N. }
  assert (T : forall m : M unit,
             trace (_ <- m ;;
                    formats <- add_storyboard (st_spritesheets st)
                                 (map (rank_format H) (rs_formats r)) ;;
                    ret (assemble H video_id st formats (rs_subtitles r)))
             = trace m).
  { intros [[[] | e] t]; cbn [bind trace snd]; [| reflexivity].
    unfold add_storyboard. destruct (truthy (st_spritesheets st));
      [destruct (py_iter (st_spritesheets st)) |];
      cbn; now rewrite app_nil_r. }
  assert (E : existsb is_request_head
                (trace (resolve_and_assemble H B video_id st))
              = existsb is_request_head (trace (check_geo B video_id r))).
  { rewrite (resolve_and_assemble_eq H B video_id st r R).
    unfold logged, trace at 1. cbn [snd]. rewrite existsb_app, NH, T.
    reflexivity. }
  assert (C : existsb is_request_head (trace (check_geo B video_id r)) = true
              <-> rs_formats r = [] /\ filter (has_url H) (st_videos st) <> []).
  { split.
    - intros P. destruct (rs_formats r) as [| f fs] eqn:F.
      + split; [reflexivity |]. intros N.
        pose proof (resolve_formats_no_candidate H B video_id (st_videos st) N)
          as Z.
        rewrite Z in R. injection R as R. unfold check_geo in P.
        rewrite <- R in P. discriminate.
      + unfold check_geo in P. rewrite F in P. discriminate.
    - intros [F N].
      destruct (resolve_formats_candidate H B video_id (st_videos st) r R N)
        as (u & _ & U & NE).
      now rewrite (check_geo_probe B video_id r u F U NE). }
  split.
  - rewrite E. exact C.
  - rewrite E. intros P countries A.
    rewrite (resolve_and_assemble_result H B video_id st r R) in A.
    unfold check_geo in P, A.
    destruct (rs_formats r) as [| f fs].
    + destruct (rs_video_url r) as [u |].
      * destruct (negb (is_empty u)).
        -- unfold call_request_head in P. cbn in P. 
           destruct (geo_signalled _) in P; discriminate.
        -- cbn in A. unfold add_storyboard in A.
           destruct (truthy (st_spritesheets st));
             [destruct (py_iter (st_spritesheets st)) |]; discriminate.
      * cbn in A. unfold add_storyboard in A.
        destruct (truthy (st_spritesheets st));
          [destruct (py_iter (st_spritesheets st)) |]; discriminate.
    + cbn in A. unfold add_storyboard in A.
      destruct (truthy (st_spritesheets st));
        [destruct (py_iter (st_spritesheets st)) |]; discriminate.
Qed.

Lemma X4_probe_exactly_when_nothing_resolved_witness :
  let B := Inputs.unreachable_backend in
  let st := Inputs.unreachable_fetched in
  rs_formats (resolved_of Sample.helpers B "clip" (st_videos st)) = []
  /\ filter (has_url Sample.helpers) (st_videos st) <> []
  /\ existsb is_request_head
       (trace (resolve_and_assemble Sample.helpers B "clip" st)) = true.
Proof.
  cbv zeta.
  assert (F : rs_formats (resolved_of Sample.helpers Inputs.unreachable_backend
                            "clip" (st_videos Inputs.unreachable_fetched)) = [])
    by reflexivity.
  assert (C : filter (has_url Sample.helpers)
                (st_videos Inputs.unreachable_fetched) <> [])
    by (vm_compute; discriminate).
  split; [exact F |]. split; [exact C |].
  destruct (X4_probe_exactly_when_nothing_resolved Sample.helpers
              Inputs.unreachable_backend "clip" Inputs.unreachable_fetched)
    as ((_ & Probe) & _).
  exact (Probe (conj F C)).
Defined.

(** X5.  When no descriptor carries a resolvable URL, the second half of the
    resolution makes no call at all; it returns a manifest without formats
    and without subtitles when there are no spritesheets, and with the
    storyboard as its one format when the spritesheets are a list. *)
Theorem X5_no_candidate_no_call (H : Helpers) (B : Backend)
    (video_id : string) (st : fetched) :
  filter (has_url H) (st_videos st) = [] ->
  trace (resolve_and_assemble H B video_id st) = []
  /\ (truthy (st_spritesheets st) = false ->
      result (resolve_and_assemble H B video_id st)
      = Ok (assemble H video_id st [] []))
  /\ (forall sheet sheets,
        st_spritesheets st = JList (sheet :: sheets) ->
        result (resolve_and_assemble H B video_id st)
        = Ok (assemble H video_id st [storyboard (sheet :: sheets)] [])).
Proof.
  intros N. unfold resolve_and_assemble.
  rewrite (resolve_formats_no_candidate H B video_id (st_videos st) N).
  cbn [ret bind check_geo resolved_init rs_formats rs_video_url rs_subtitles
       map app].
  unfold add_storyboard. split; [| split].
  - destruct (truthy (st_spritesheets st));
      [destruct (py_iter (st_spritesheets st)) |]; reflexivity.
  - now intros ->.
  - now intros sheet sheets ->.
Qed.

Lemma X5_no_candidate_no_call_witness :
  let B := InputsResolution.no_url_backend in
  let st := InputsResolution.no_url_fetched in
  length (st_videos st) = 1%nat
  /\ filter (has_url Sample.helpers) (st_videos st) = []
  /\ trace (resolve_and_assemble Sample.helpers B "x" st) = [].
Proof.
  cbv zeta. split; [reflexivity |].
  assert (N : filter (has_url Sample.helpers)
                (st_videos InputsResolution.no_url_fetched) = [])
    by reflexivity.
  split; [exact N |].
  destruct (X5_no_candidate_no_call Sample.helpers
              InputsResolution.no_url_backend "x"
              InputsResolution.no_url_fetched N) as (T & _).
  exact T.
Defined.

(** ** The ranking *)

Lemma dict_lookup_rank_other (H : Helpers) f k :
  k <> "language_preference" -> k <> "format_note" ->
  dict_lookup (rank_format H f) k = dict_lookup f k.
Proof.
  intros N1 N2. unfold rank_format. destruct (is_audio_description f);
    [| reflexivity].
  rewrite !dict_lookup_set_other; [reflexivity | |]; congruence.
Qed.

(** X6.  The ranking keeps every resolved format at its place in the
    manifest and changes none of its fields other than
    [language_preference] and [format_note]: URL, format id, codecs and
    language are those the resolution gave. *)
Theorem X6_ranking_keeps_formats (H : Helpers) (B : Backend)
    (video_id : string) (st : fetched) (m : manifest) :
  result (resolve_and_assemble H B video_id st) = Ok m ->
  let r := resolved_of H B video_id (st_videos st) in
  (length (rs_formats r) <= length (m_formats m) <= length (rs_formats r) + 1)%nat
  /\ forall i f,
       nth_error (rs_formats r) i = Some f ->
       nth_error (m_formats m) i = Some (rank_format H f)
       /\ forall k,
            k <> "language_preference" -> k <> "format_note" ->
            dict_lookup (rank_format H f) k = dict_lookup f k.
Proof.
  intros A r.
  pose proof (resolve_formats_returns H B video_id (st_videos st)) as R.
  fold r in R.
  rewrite (resolve_and_assemble_result H B video_id st r R) in A.
  destruct (result (check_geo B video_id r)); [| discriminate].
  assert (P : exists tail,
             m_formats m = map (rank_format H) (rs_formats r) ++ tail
             /\ (length tail <= 1)%nat).
  { unfold add_storyboard in A. destruct (truthy (st_spritesheets st)).
    - destruct (py_iter (st_spritesheets st)) as [sheets |]; [| discriminate].
      injection A as <-. eexists. split; [reflexivity | apply le_n].
    - injection A as <-. exists []. cbn [m_formats].
      rewrite app_nil_r. split; [reflexivity | apply le_0_n]. }
  destruct P as (tail & F & L). split.
  - rewrite F, length_app, length_map. lia.
  - intros i f E. split; [| apply dict_lookup_rank_other].
    rewrite F, nth_error_app1.
    + now rewrite nth_error_map, E.
    + rewrite length_map. apply nth_error_Some. congruence.
Qed.

Lemma X6_ranking_keeps_formats_witness :
  let m := Inputs.dash_manifest in
  result (resolve_and_assemble Sample.helpers Inputs.dash_backend "ad"
            Inputs.dash_fetched) = Ok m
  /\ nth_error (m_formats m) 1 = Some (rank_format Sample.helpers Inputs.audio_qad)
  /\ dict_lookup (rank_format Sample.helpers Inputs.audio_qad) "format_id"
     = Some (JStr "dash-audio_qad").
Proof.
  cbv zeta. split; [reflexivity |].
  destruct (X6_ranking_keeps_formats Sample.helpers Inputs.dash_backend "ad"
              Inputs.dash_fetched Inputs.dash_manifest eq_refl) as (_ & K).
  destruct (K 1%nat Inputs.audio_qad eq_refl) as (P & Other).
  split; [exact P |].
  rewrite (Other "format_id"); [reflexivity | discriminate | discriminate].
Defined.

(** ** The title *)

Lemma rstrip_spec s :
  match rstrip s with
  | EmptyString => True
  | String c r => is_space (last_char c r) = false /\ exists r0, s = String c r0
  end.
Proof.
  induction s as [| a s IH]; cbn [rstrip]; [exact I |].
  destruct (rstrip s) as [| b t].
  - destruct (is_space a) eqn:E; [exact I |]. split; [exact E | eauto].
  - destruct IH as [L _]. split; [exact L | eauto].
Qed.

Lemma strip_spec s :
  match strip s with
  | EmptyString => True
  | String c r => is_space c = false /\ is_space (last_char c r) = false
  end.
Proof.
  unfold strip.
  pose proof (rstrip_spec (lstrip s)) as R.
  destruct (rstrip (lstrip s)) as [| c r]; [exact I |].
  destruct R as [L (r0 & E)]. split; [| exact L].
  pose proof (span_snd_head is_space s) as Hd. unfold lstrip in E.
  rewrite E in Hd. exact Hd.
Qed.

(** X7.  The title of a manifest never begins and never ends with white
    space, whatever title and subtitle the backend gave. *)
Theorem X7_title_is_trimmed (H : Helpers) (video_id : string) (st : fetched)
    (formats : list pydict) (subtitles : pydict) :
  match m_title (assemble H video_id st formats subtitles) with
  | EmptyString => True
  | String c r => is_space c = false /\ is_space (last_char c r) = false
  end.
Proof. cbn [assemble m_title]. apply strip_spec. Qed.

(** ** The classifier and the delegated reference *)

Lemma match_id_catalog_some s oid ocat :
  match_id_catalog s = Some (oid, ocat) ->
  (exists id, oid = Some id /\ is_empty id = false
              /\ contains_char "@" id = false
              /\ id = before_at s)
  /\ (forall cat, ocat = Some cat ->
        is_empty cat = false /\ all_chars not_newline cat = true).
Proof.
  unfold match_id_catalog, before_at.
  pose proof (span_not_at_contains s) as C.
  destruct (span not_at s) as [id r]. cbn [fst] in *.
  destruct (is_empty id) eqn:N; [discriminate |].
  destruct r as [| c r'].
  - intros [= <- <-]. split; [eauto 6 | discriminate].
  - intros [= <- <-]. split; [eauto 6 |].
    intros cat. destruct (Ascii.eqb c "@" && _) eqn:E; [| discriminate].
    intros [= <-]. apply andb_true_iff in E as [_ E].
    apply negb_true_iff in E. split; [exact E | apply span_all].
Qed.

(** X8.  The identifier the classifier hands to [_extract_video] is never
    empty, and the classifier makes no call.  When the pattern itself
    captured the reference (legacy and internal shapes), the identifier has
    no [@], and a catalog, if any, is not empty and stays on one line. *)
Theorem X8_classified_identifier (H : Helpers) (url0 : string)
    (video_id : string) (catalog : option string) (hostname : json) :
  result (classify H url0) = Ok (video_id, catalog, hostname) ->
  is_empty video_id = false
  /\ trace (classify H url0) = []
  /\ hostname = dict_get (snd (unsmuggle_url H url0)) "hostname"
  /\ (match_api_url (fst (unsmuggle_url H url0)) = false ->
      contains_char "@" video_id = false
      /\ forall cat, catalog = Some cat ->
           is_empty cat = false /\ all_chars not_newline cat = true).
Proof.
  unfold classify. destruct (unsmuggle_url H url0) as [url data]. cbn [fst snd].
  assert (Q : forall r,
             result (classify_query H url (dict_get data "hostname")) = Ok r ->
             is_empty (fst (fst r)) = false
             /\ trace (classify_query H url (dict_get data "hostname")) = []
             /\ snd r = dict_get data "hostname").
  { intros r. unfold classify_query.
    destruct (qs_first (parse_qs H url) "idDiffusion") as [v |];
      [| discriminate].
    destruct (is_empty v) eqn:N; [discriminate |].
    intros [= <-]. auto. }
  unfold match_valid_url.
  destruct (match_api_url url) eqn:A.
  { intros R. destruct (Q _ R) as (N & T & Hh). cbn in N, Hh.
    split; [exact N |]. split; [exact T |]. split; [exact Hh |].
    discriminate. }
  set (captured := match after_http "videos.francetv.fr/video/" url with
                   | Some s => match_id_catalog s
                   | None =>
                       match strip_prefix "francetv:" url with
                       | Some s => match_id_catalog s
                       | None => None
                       end
                   end).
  assert (S : forall g, captured = Some g -> exists s, match_id_catalog s = Some g).
  { intros g. unfold captured.
    destruct (after_http "videos.francetv.fr/video/" url) as [s |]; [eauto |].
    destruct (strip_prefix "francetv:" url) as [s |]; [eauto | discriminate]. }
  destruct captured as [[oid ocat] |]; [| discriminate].
  destruct (S _ eq_refl) as (s & E).
  apply match_id_catalog_some in E as ((id & -> & N & C & _) & Cat).
  rewrite N. intros [= <- <- <-]. repeat split; auto; now apply Cat.
Qed.

Lemma X8_classified_identifier_witness :
  result (classify Sample.helpers "francetv:NI_1004933@Zouzous")
    = Ok ("NI_1004933", Some "Zouzous", JNull)
  /\ is_empty "NI_1004933" = false
  /\ contains_char "@" "NI_1004933" = false.
Proof.
  split; [reflexivity |].
  destruct (X8_classified_identifier Sample.helpers
              "francetv:NI_1004933@Zouzous" "NI_1004933" (Some "Zouzous") JNull
              eq_refl) as (N & _ & _ & Captured).
  split; [exact N |]. destruct (Captured eq_refl) as (C & _). exact C.
Defined.

Lemma before_at_app_at s t : before_at (s ++ String "@" t) = before_at s.
Proof.
  unfold before_at. induction s as [| a s IH]; [reflexivity |].
  cbn [append span]. destruct (not_at a); [| reflexivity].
  destruct (span not_at (s ++ String "@" t)) as [x y].
  destruct (span not_at s) as [x' y']. cbn [fst] in *. now rewrite IH.
Qed.

Lemma append_empty_r s : (s ++ "")%string = s.
Proof. induction s as [| a s IH]; [reflexivity |]. cbn. now rewrite IH. Qed.

Lemma append_assoc3 (a b c : string) : ((a ++ b) ++ c)%string = (a ++ b ++ c)%string.
Proof. induction a as [| x a IH]; [reflexivity |]. cbn. now rewrite IH. Qed.

Lemma match_id_catalog_before s :
  is_empty (before_at s) = false ->
  exists c, match_id_catalog s = Some (Some (before_at s), c).
Proof.
  unfold match_id_catalog, before_at. destruct (span not_at s) as [id r].
  cbn [fst]. intros ->. destruct r; eauto.
Qed.

Lemma no_at_all_chars s :
  contains_char "@" s = false -> all_chars not_at s = true.
Proof.
  unfold all_chars. induction s as [| a s IH]; [reflexivity |].
  cbn. intros C. apply orb_false_iff in C as [Ca Cs].
  unfold not_at at 1. now rewrite Ca, (IH Cs).
Qed.

Section Reference.

Variable H : Helpers.

(** The URL of the reference: the plain reference, with the host of the
    origin attached when there is an origin. *)
Lemma make_url_result_url video_or_full_id catalog url :
  ur_url (_make_url_result H video_or_full_id catalog url) =
    match url with
    | Some u =>
        if negb (is_empty u)
        then smuggle_url H (reference_id H video_or_full_id catalog)
               [("hostname", urlparse_hostname H u)]
        else reference_id H video_or_full_id catalog
    | None => reference_id H video_or_full_id catalog
    end.
Proof.
  assert (E : (if negb (contains_char "@" video_or_full_id) && truthy catalog
               then ("francetv:" ++ video_or_full_id ++ "@" ++ py_str H catalog)%string
               else ("francetv:" ++ video_or_full_id)%string)
              = reference_id H video_or_full_id catalog).
  { unfold reference_id.
    destruct (negb (contains_char "@" video_or_full_id) && truthy catalog);
      [reflexivity |]. now rewrite append_empty_r. }
  unfold _make_url_result. cbn [ur_url].
  change (("francetv:" ++ video_or_full_id) ++ "@" ++ py_str H catalog)%string
    with ("francetv:" ++ video_or_full_id ++ "@" ++ py_str H catalog)%string.
  rewrite E. reflexivity.
Qed.

(** The pattern on a plain reference. *)
Lemma match_valid_url_reference_id video_or_full_id catalog :
  is_empty (before_at video_or_full_id) = false ->
  exists c,
    match_valid_url (reference_id H video_or_full_id catalog)
    = Some (Some (before_at video_or_full_id), c)
    /\ (contains_char "@" video_or_full_id = false ->
        (forall cat, catalog = JStr cat -> is_empty cat = false ->
                     all_chars not_newline cat = true -> c = Some cat)
        /\ (truthy catalog = false -> c = None)).
Proof.
  intros N. unfold reference_id.
  rewrite (match_valid_url_reference "francetv:" _ (or_introl eq_refl)).
  destruct (contains_char "@" video_or_full_id) eqn:C.
  - cbn [negb andb]. rewrite append_empty_r.
    destruct (match_id_catalog_before _ N) as (c & E).
    exists c. split; [exact E | discriminate].
  - cbn [negb andb].
    assert (W : before_at video_or_full_id = video_or_full_id).
    { unfold before_at. now rewrite (span_not_at_whole _ C). }
    rewrite W in *. pose proof (no_at_all_chars _ C) as A.
    destruct (truthy catalog) eqn:T.
    + assert (B : is_empty (before_at (video_or_full_id
                                          ++ String "@" (py_str H catalog)))
                  = false)
        by now rewrite before_at_app_at, W.
      destruct (match_id_catalog_before _ B) as (c & E).
      rewrite before_at_app_at, W in E.
      exists c. split; [exact E |]. intros _. split.
      * intros cat -> NC AC. cbn [py_str] in E.
        rewrite (match_id_catalog_at _ _ N A NC AC) in E. now injection E.
      * discriminate.
    + rewrite append_empty_r. exists None.
      split; [exact (match_id_catalog_plain _ N A) |].
      intros _. split; [| reflexivity].
      intros cat -> NC. cbn in T. unfold is_empty in NC. now rewrite NC in T.
Qed.

End Reference.

(** X9.  A reference made by [_make_url_result] comes back from the
    classifier of [FranceTVIE]: once the side data is taken off again, the
    classifier finds the video id of the reference, the catalog that was
    written into it, and the host of the origin.  The identifier must have a
    non-empty part before its first [@]. *)
Theorem X9_reference_round_trip (H : Helpers) (video_or_full_id : string)
    (catalog : json) (url : option string) (data : pydict) :
  let reference := _make_url_result H video_or_full_id catalog url in
  is_empty (before_at video_or_full_id) = false ->
  unsmuggle_url H (ur_url reference)
    = (reference_id H video_or_full_id catalog, data) ->
  exists c,
    classify H (ur_url reference)
    = ret (ur_video_id reference, c, dict_get data "hostname")
    /\ (contains_char "@" video_or_full_id = false ->
        (forall cat, catalog = JStr cat -> is_empty cat = false ->
                     all_chars not_newline cat = true -> c = Some cat)
        /\ (truthy catalog = false -> c = None)).
Proof.
  intros reference N U.
  destruct (match_valid_url_reference_id H video_or_full_id catalog N)
    as (c & E & P).
  exists c. split; [| exact P].
  unfold classify. rewrite U, E, N. reflexivity.
Qed.

Lemma X9_reference_round_trip_witness :
  let reference :=
    _make_url_result Sample.helpers "NI_1004933" (JStr "Zouzous")
      (Some "https://www.france.tv/enfants/zouzous.html") in
  ur_url reference = "francetv:NI_1004933@Zouzous#host=www.france.tv"
  /\ classify Sample.helpers (ur_url reference)
     = ret ("NI_1004933", Some "Zouzous", JStr "www.france.tv").
Proof.
  cbv zeta. split; [reflexivity |].
  destruct (X9_reference_round_trip Sample.helpers "NI_1004933"
              (JStr "Zouzous")
              (Some "https://www.france.tv/enfants/zouzous.html")
              [("hostname", JStr "www.france.tv")] eq_refl eq_refl)
    as (c & E & P).
  destruct (P eq_refl) as (Cat & _).
  rewrite (Cat "Zouzous" eq_refl eq_refl eq_refl) in E. exact E.
Defined.

(** ** Season and episode *)

Lemma digit_val_nonneg c : is_digit c = true -> 0 <= digit_val c <= 9.
Proof.
  unfold is_digit, digit_val. intros D. apply andb_true_iff in D as [L U].
  apply N.leb_le in L, U. lia.
Qed.

Lemma decimal_nonneg s : all_chars is_digit s = true -> 0 <= decimal s.
Proof.
  unfold decimal, all_chars.
  assert (G : forall l acc, forallb is_digit l = true -> 0 <= acc ->
                0 <= fold_left (fun a c => 10 * a + digit_val c) l acc).
  { induction l as [| c l IH]; intros acc D A; [exact A |].
    cbn [forallb fold_left] in *. apply andb_true_iff in D as [Dc Dl].
    apply IH; [exact Dl |]. pose proof (digit_val_nonneg c Dc). lia. }
  intros D. apply G; [exact D | lia].
Qed.

Lemma episode_groups_together v :
  episode_groups v = (None, None)
  \/ exists season episode,
       episode_groups v = (Some season, Some episode)
       /\ int_or_none (Some season) = Some (decimal season)
       /\ int_or_none (Some episode) = Some (decimal episode)
       /\ 0 <= decimal season /\ 0 <= decimal episode
       /\ is_empty episode = false.
Proof.
  destruct v; try (now left). cbn [episode_groups].
  destruct (search_episode s) as [[season episode] |] eqn:S; [| now left].
  right. exists season, episode.
  apply search_episode_digits in S as [[Ns Ds] [Ne De]].
  rewrite (int_or_none_digits _ Ns Ds), (int_or_none_digits _ Ne De).
  repeat split; auto using decimal_nonneg.
Qed.

(** X10.  In a manifest the episode number and the season number are there
    together or not at all, and neither is ever negative; without an
    episode number there is no [episode] and no [series]. *)
Theorem X10_season_and_episode_together (H : Helpers) (B : Backend)
    (video_id : string) (hostname : json) (st : fetched)
    (formats : list pydict) (subtitles : pydict) :
  result (fetch_metadata H B video_id hostname) = Ok st ->
  let m := assemble H video_id st formats subtitles in
  (m_episode_number m = None <-> m_season_number m = None)
  /\ (forall n, m_episode_number m = Some n -> 0 <= n)
  /\ (forall n, m_season_number m = Some n -> 0 <= n)
  /\ (m_episode_number m = None -> m_episode m = JNull /\ m_series m = JNull).
Proof.
  intros R m.
  pose proof (fetch_metadata_episode H B video_id hostname st R) as E.
  assert (G : (st_season_number st, st_episode_number st) = (None, None)
              \/ exists season episode,
                   (st_season_number st, st_episode_number st)
                   = (Some season, Some episode)
                   /\ int_or_none (Some season) = Some (decimal season)
                   /\ int_or_none (Some episode) = Some (decimal episode)
                   /\ 0 <= decimal season /\ 0 <= decimal episode
                   /\ is_empty episode = false).
  { rewrite E. destruct (last_pre_title B video_id hostname) as [pre |];
      [apply episode_groups_together | now left]. }
  unfold m, assemble.
  cbn [m_episode_number m_season_number m_episode m_series].
  destruct G as [[= -> ->] | (season & episode & [= -> ->] & Is & Ie & Ps & Pe & Ne)].
  - cbn. repeat split; auto; discriminate.
  - rewrite Is, Ie. cbn [truthy_ostr]. rewrite Ne.
    repeat split; try discriminate.
    + now intros n [= <-].
    + now intros n [= <-].
Qed.

Lemma X10_season_and_episode_together_witness :
  let m := assemble Sample.helpers "a9050959" Inputs.episode_fetched [] [] in
  result (fetch_metadata Sample.helpers Inputs.episode_backend "a9050959" JNull)
    = Ok Inputs.episode_fetched
  /\ m_episode_number m = Some 3
  /\ 0 <= 3.
Proof.
  cbv zeta. split; [reflexivity |]. split; [reflexivity |].
  destruct (X10_season_and_episode_together Sample.helpers
              Inputs.episode_backend "a9050959" JNull Inputs.episode_fetched
              [] [] eq_refl) as (_ & Pos & _).
  exact (Pos 3 eq_refl).
Defined.

(** X11.  What the search for [S(\d+)\s*E(\d+)] returns, in terms of the
    pattern alone: a result is a match of the pattern somewhere in the text,
    with an episode group that no further digit follows; a text that begins
    with a match gives the season of that match and its episode with all the
    digits that follow; and there is no result only when the pattern matches
    nowhere in the text. *)
Theorem X11_episode_search :
  (forall s season episode,
     search_episode s = Some (season, episode) ->
     exists before after rest,
       s = (before ++ after)%string
       /\ episode_match after season episode rest
       /\ match rest with
          | String c _ => is_digit c = false
          | EmptyString => True
          end)
  /\ (forall s season episode rest,
        episode_match s season episode rest ->
        search_episode s
        = Some (season, (episode ++ fst (span is_digit rest))%string))
  /\ (forall s,
        search_episode s = None ->
        forall before after season episode rest,
          s = (before ++ after)%string ->
          ~ episode_match after season episode rest).
Proof.
  split; [| split].
  - intros s season episode S.
    apply search_episode_some in S as (before & after & -> & M).
    apply match_episode_here_sound in M as (rest & M & T).
    exists before, after, rest. auto.
  - intros s season episode rest M.
    pose proof (match_episode_here_greedy s season episode rest M) as G.
    destruct s as [| c r]; [discriminate |].
    cbn [search_episode]. now rewrite G.
  - intros s S before after season episode rest E M.
    pose proof (search_episode_none s S before after E) as N.
    rewrite (match_episode_here_greedy after season episode rest M) in N.
    discriminate.
Qed.

(** ** The calls of a resolution *)

Lemma bind_trace_le {A B} (m : M A) (k : A -> M B) n :
  (forall a, result m = Ok a -> (length (trace (k a)) <= n)%nat) ->
  (length (trace (bind m k)) <= length (trace m) + n)%nat.
Proof.
  destruct m as [[a | e] t]; cbn [bind]; intros K.
  - specialize (K a eq_refl). destruct (k a) as [r t'].
    rewrite trace_pair, length_app. cbn [trace snd] in *. lia.
  - rewrite trace_pair. cbn [trace snd]. lia.
Qed.

Lemma trace_bind_prefix {A B} (m : M A) (k : A -> M B) :
  exists rest, trace (bind m k) = trace m ++ rest.
Proof.
  destruct m as [[a | e] t]; cbn [bind].
  - destruct (k a) as [r t']. exists t'. reflexivity.
  - exists []. rewrite trace_pair. cbn [trace snd]. now rewrite app_nil_r.
Qed.

Lemma fetch_profile_one_call (H : Helpers) (B : Backend) video_id hostname st dev :
  trace (fetch_profile H B video_id hostname st dev)
  = [metadata_request video_id hostname dev].
Proof. now rewrite fetch_profile_eq. Qed.

(** X12.  A resolution begins with the metadata query of the desktop
    profile; when the first loop returns, the query of the mobile profile is
    the second call.  The queries carry the device type, the browser
    [chrome], and the domain exactly when a host name is known.  In all, a
    resolution makes at most seven calls. *)
Theorem X12_calls_of_a_resolution (H : Helpers) (B : Backend)
    (video_id : string) (catalogue hostname : json) :
  let calls := trace (_extract_video H B video_id catalogue hostname) in
  (length calls <= 7)%nat
  /\ (exists rest, calls = metadata_request video_id hostname "desktop" :: rest)
  /\ (forall st,
        result (fetch_metadata H B video_id hostname) = Ok st ->
        exists rest,
          calls = metadata_request video_id hostname "desktop"
                  :: metadata_request video_id hostname "mobile" :: rest)
  /\ (forall dev,
        profile_query dev hostname =
          [("device_type", JStr dev); ("browser", JStr "chrome")]
          ++ (if is_none hostname then [] else [("domain", hostname)])).
Proof.
  intros calls. split; [| split; [| split]].
  - unfold calls, _extract_video.
    assert (F : (length (trace (fetch_metadata H B video_id hostname)) <= 2)%nat).
    { unfold fetch_metadata, device_types. cbn [for_each].
      eapply Nat.le_trans; [apply (bind_trace_le _ _ 1) |].
      - intros st1 _.
        eapply Nat.le_trans; [apply (bind_trace_le _ _ 0) |].
        + intros; apply le_n.
        + rewrite fetch_profile_one_call. apply le_n.
      - rewrite fetch_profile_one_call. apply le_n. }
    eapply Nat.le_trans; [apply (bind_trace_le _ _ 5) | lia].
    intros st R. unfold resolve_and_assemble.
    pose proof (fetch_metadata_videos H B video_id hostname st R) as V.
    assert (LV : (length (filter (has_url H) (st_videos st)) <= 2)%nat).
    { eapply Nat.le_trans; [apply filter_length_le |].
      rewrite V, length_app.
      pose proof (contributed_le_1 (profile_answer B video_id hostname "desktop")).
      pose proof (contributed_le_1 (profile_answer B video_id hostname "mobile")).
      lia. }
    eapply Nat.le_trans; [apply (bind_trace_le _ _ 1) |].
    + intros r _.
      eapply Nat.le_trans; [apply (bind_trace_le _ _ 0) |].
      * intros _ _. unfold add_storyboard.
        destruct (truthy (st_spritesheets st));
          [destruct (py_iter (st_spritesheets st)) |]; apply le_n.
      * unfold check_geo. destruct (rs_formats r); [| apply le_0_n].
        destruct (rs_video_url r) as [u |]; [| apply le_0_n].
        destruct (negb (is_empty u)); [| apply le_0_n].
        unfold call_request_head. cbn [bind].
        destruct (geo_signalled _); apply le_n.
    + unfold resolve_formats.
      destruct (resolve_loop_added H B video_id
                  (filter (has_url H) (st_videos st)) resolved_init)
        as (_ & _ & _ & L & _). lia.
  - unfold calls, _extract_video, fetch_metadata, device_types.
    cbn [for_each].
    destruct (trace_bind_prefix
                (acc' <- fetch_profile H B video_id hostname fetched_init
                           "desktop" ;;
                 acc'0 <- fetch_profile H B video_id hostname acc' "mobile" ;;
                 ret acc'0)
                (fun st => resolve_and_assemble H B video_id st)) as (r2 & ->).
    destruct (trace_bind_prefix
                (fetch_profile H B video_id hostname fetched_init "desktop")
                (fun acc' =>
                   acc'0 <- fetch_profile H B video_id hostname acc' "mobile" ;;
                   ret acc'0)) as (r1 & ->).
    rewrite fetch_profile_one_call. eexists. reflexivity.
  - intros st R. apply fetch_metadata_trace in R as T.
    unfold calls, _extract_video. rewrite (bind_ok _ _ st R), trace_pair, T.
    eexists. reflexivity.
  - intros dev. unfold profile_query, filter_dict. cbn [filter snd is_none negb].
    destruct hostname; reflexivity.
Qed.

(** * The page extractors *)

(** ** What a found pattern says about the text *)

Section PatternFacts.

Context {A : Type}.

Lemma lit_some l (k : string -> option A) s x :
  lit l k s = Some x -> exists r, s = (l ++ r)%string /\ k r = Some x.
Proof.
  unfold lit. destruct (strip_prefix l s) as [r |] eqn:E; [| discriminate].
  intros K. exists r. split; [now apply strip_prefix_some | exact K].
Qed.

Lemma one_some p (k : string -> option A) s x :
  one p k s = Some x ->
  exists c r, s = String c r /\ p c = true /\ k r = Some x.
Proof.
  destruct s as [| c r]; [discriminate |]. cbn [one].
  destruct (p c) eqn:E; [| discriminate]. eauto.
Qed.

Lemma cap_one_some p (k : ascii -> string -> option A) s x :
  cap_one p k s = Some x ->
  exists c r, s = String c r /\ p c = true /\ k c r = Some x.
Proof.
  destruct s as [| c r]; [discriminate |]. cbn [cap_one].
  destruct (p c) eqn:E; [| discriminate]. eauto.
Qed.

Lemma star_last_some p (k : ascii -> string -> option A) s :
  forall prev x,
    star_last p k prev s = Some x ->
    exists g r last,
      s = (g ++ r)%string /\ all_chars p g = true /\ k last r = Some x.
Proof.
  induction s as [| c s IH]; intros prev x; cbn [star_last].
  - intros K. now exists EmptyString, EmptyString, prev.
  - destruct (p c) eqn:E.
    + destruct (star_last p k c s) as [y |] eqn:D.
      * intros [= ->]. destruct (IH _ _ D) as (g & r & last & -> & G & K).
        exists (String c g), r, last. repeat split; [| exact K].
        unfold all_chars in *. cbn. now rewrite E.
      * intros K. now exists EmptyString, (String c s), prev.
    + intros K. now exists EmptyString, (String c s), prev.
Qed.

Lemma plus_last_some p (k : ascii -> string -> option A) s x :
  plus_last p k s = Some x ->
  exists g r last,
    s = (g ++ r)%string /\ all_chars p g = true /\ k last r = Some x.
Proof.
  destruct s as [| c s]; [discriminate |]. cbn [plus_last].
  destruct (p c) eqn:E; [| discriminate]. intros D.
  destruct (star_last_some _ _ _ _ _ D) as (g & r & last & -> & G & K).
  exists (String c g), r, last. repeat split; [| exact K].
  unfold all_chars in *. cbn. now rewrite E.
Qed.

Lemma star_some p (k : string -> option A) s x :
  star p k s = Some x ->
  exists g r, s = (g ++ r)%string /\ all_chars p g = true /\ k r = Some x.
Proof.
  intros D. destruct (star_last_some _ _ _ _ _ D) as (g & r & _ & E & G & K).
  eauto.
Qed.

Lemma plus_some p (k : string -> option A) s x :
  plus p k s = Some x ->
  exists g r, s = (g ++ r)%string /\ all_chars p g = true /\ k r = Some x.
Proof.
  intros D. destruct (plus_last_some _ _ _ _ D) as (g & r & _ & E & G & K).
  eauto.
Qed.

Lemma cap_star_some p s :
  forall (k : string -> string -> option A) x,
    cap_star p k s = Some x ->
    exists g r, s = (g ++ r)%string /\ all_chars p g = true /\ k g r = Some x.
Proof.
  induction s as [| c s IH]; intros k x; cbn [cap_star].
  - intros K. now exists EmptyString, EmptyString.
  - destruct (p c) eqn:E.
    + destruct (cap_star p (fun g => k (String c g)) s) as [y |] eqn:D.
      * intros [= ->]. destruct (IH _ _ D) as (g & r & -> & G & K).
        exists (String c g), r. repeat split; [| exact K].
        unfold all_chars in *. cbn. now rewrite E.
      * intros K. now exists EmptyString, (String c s).
    + intros K. now exists EmptyString, (String c s).
Qed.

Lemma cap_plus_some p (k : string -> string -> option A) s x :
  cap_plus p k s = Some x ->
  exists g r,
    s = (g ++ r)%string /\ all_chars p g = true /\ is_empty g = false
    /\ k g r = Some x.
Proof.
  destruct s as [| c s]; [discriminate |]. cbn [cap_plus].
  destruct (p c) eqn:E; [| discriminate]. intros D.
  destruct (cap_star_some _ _ _ _ D) as (g & r & -> & G & K).
  exists (String c g), r. repeat split; [| exact K].
  unfold all_chars in *. cbn. now rewrite E.
Qed.

Lemma cap_times_some p n :
  forall (k : string -> string -> option A) s x,
    cap_times n p k s = Some x ->
    exists g r,
      s = (g ++ r)%string /\ all_chars p g = true /\ String.length g = n
      /\ k g r = Some x.
Proof.
  induction n as [| n IH]; intros k s x; cbn [cap_times].
  - intros K. now exists EmptyString, s.
  - destruct s as [| c s]; [discriminate |].
    destruct (p c) eqn:E; [| discriminate]. intros D.
    destruct (IH _ _ _ D) as (g & r & -> & G & L & K).
    exists (String c g), r. repeat split; [| now cbn; rewrite L | exact K].
    unfold all_chars in *. cbn. now rewrite E.
Qed.

Lemma opt_some m (k : string -> option A) s x :
  opt m k s = Some x -> m k s = Some x \/ k s = Some x.
Proof. unfold opt. destruct (m k s); [intros [= ->]; now left | now right]. Qed.

Lemma alt_some m1 m2 (k : string -> option A) s x :
  alt m1 m2 k s = Some x -> m1 k s = Some x \/ m2 k s = Some x.
Proof. unfold alt. destruct (m1 k s); [intros [= ->]; now left | now right]. Qed.

Lemma re_search_some (m : string -> option A) s x :
  re_search m s = Some x ->
  exists before after, s = (before ++ after)%string /\ m after = Some x.
Proof.
  induction s as [| c s IH]; cbn [re_search].
  - destruct (m EmptyString) eqn:E; [| discriminate].
    intros [= ->]. now exists EmptyString, EmptyString.
  - destruct (m (String c s)) eqn:E.
    + intros [= ->]. now exists EmptyString, (String c s).
    + intros D. destruct (IH D) as (b & a & -> & M).
      now exists (String c b), a.
Qed.

(** A pattern that matches somewhere is found. *)
Lemma re_search_found (m : string -> option A) before after :
  m after <> None -> re_search m (before ++ after) <> None.
Proof.
  intros M. induction before as [| c b IH].
  - cbn. destruct after; cbn [re_search]; destruct (m _); congruence.
  - cbn [append re_search]. now destruct (m (String c (b ++ after))).
Qed.

Lemma first_pattern_some (ms : list (string -> option A)) s x :
  first_pattern ms s = Some x -> exists m, In m ms /\ re_search m s = Some x.
Proof.
  induction ms as [| m ms IH]; cbn [first_pattern]; [discriminate |].
  destruct (re_search m s) eqn:E.
  - intros [= ->]. exists m. split; [now left | exact E].
  - intros D. destruct (IH D) as (m' & I & R). exists m'. split; [now right | exact R].
Qed.

Lemma star_found p (k : string -> option A) g r :
  all_chars p g = true -> k r <> None -> star p k (g ++ r) <> None.
Proof.
  unfold star. generalize "000"%char as prev. unfold all_chars.
  induction g as [| c g IH]; intros prev G K.
  - cbn [append]. destruct r as [| c r]; cbn [star_last]; [exact K |].
    destruct (p c); [| exact K].
    now destruct (star_last p (fun _ => k) c r).
  - cbn in G. apply andb_true_iff in G as [Gc G].
    cbn [append star_last]. rewrite Gc.
    specialize (IH c G K).
    destruct (star_last p (fun _ => k) c (g ++ r)); congruence.
Qed.

Lemma cap_star_found p g r :
  forall (k : string -> string -> option A),
    all_chars p g = true -> (forall g', k g' r <> None) ->
    cap_star p k (g ++ r) <> None.
Proof.
  unfold all_chars. induction g as [| c g IH]; intros k G K.
  - cbn [append]. destruct r as [| c r]; cbn [cap_star]; [apply K |].
    destruct (p c); [| apply K].
    destruct (cap_star p (fun g => k (String c g)) r); [congruence | apply K].
  - cbn in G. apply andb_true_iff in G as [Gc G].
    cbn [append cap_star]. rewrite Gc.
    specialize (IH (fun g0 => k (String c g0)) G (fun g' => K (String c g'))).
    destruct (cap_star p (fun g0 => k (String c g0)) (g ++ r)); congruence.
Qed.

End PatternFacts.

(** ** Texts inside texts, and [split] *)

Lemma occurs_here t after : occurs t (t ++ after).
Proof. now exists EmptyString, after. Qed.

Lemma occurs_after t l r : occurs t r -> occurs t (l ++ r).
Proof.
  intros (b & a & ->). exists (l ++ b)%string, a. now rewrite append_assoc3.
Qed.

Lemma occurs_skip t c r : occurs t r -> occurs t (String c r).
Proof. exact (occurs_after t (String c EmptyString) r). Qed.

Lemma all_chars_cons p c s :
  all_chars p (String c s) = p c && all_chars p s.
Proof. reflexivity. Qed.

Lemma all_chars_app p a b :
  all_chars p (a ++ b) = all_chars p a && all_chars p b.
Proof.
  induction a as [| c a IH]; [reflexivity |].
  cbn [append]. now rewrite !all_chars_cons, IH, andb_assoc.
Qed.

Lemma all_not_char_contains c s :
  all_chars (not_char c) s = negb (contains_char c s).
Proof.
  induction s as [| a s IH]; [reflexivity |].
  rewrite all_chars_cons, IH. cbn [contains_char]. unfold not_char.
  now rewrite negb_orb.
Qed.

Lemma all_not_at_contains s :
  all_chars not_at s = negb (contains_char "@" s).
Proof.
  induction s as [| a s IH]; [reflexivity |].
  rewrite all_chars_cons, IH. cbn [contains_char]. unfold not_at.
  now rewrite negb_orb.
Qed.

Lemma py_split_whole sep s :
  contains_char sep s = false -> py_split sep s = [s].
Proof.
  induction s as [| a s IH]; [reflexivity |]. cbn [contains_char py_split].
  intros C. apply orb_false_iff in C as [Ca Cs]. now rewrite Ca, (IH Cs).
Qed.

Lemma py_split_app sep a b :
  contains_char sep a = false ->
  py_split sep (a ++ String sep b) = a :: py_split sep b.
Proof.
  induction a as [| c a IH]; cbn [append contains_char py_split].
  - now rewrite Ascii.eqb_refl.
  - intros C. apply orb_false_iff in C as [Cc Ca]. now rewrite Cc, (IH Ca).
Qed.

Lemma py_split_twice sep s :
  contains_char sep s = true -> exists x y l, py_split sep s = x :: y :: l.
Proof.
  induction s as [| a s IH]; [discriminate |]. cbn [contains_char py_split].
  destruct (Ascii.eqb a sep) eqn:E.
  - intros _. destruct s as [| b s]; [now exists EmptyString, EmptyString, [] |].
    cbn [py_split]. destruct (Ascii.eqb b sep); [eauto |].
    destruct (py_split sep s); eauto.
  - cbn [orb]. intros C. destruct (IH C) as (x & y & l & ->). eauto.
Qed.

(** ** [FranceTVSiteIE] *)

Lemma bind_ret {A B} (a : A) (k : A -> M B) : bind (ret a) k = k a.
Proof. unfold bind, ret. now destruct (k a). Qed.

Lemma quoted_id_some s id :
  star is_space
    (cap_one is_quote
       (fun q => cap_plus (inside_quotes q)
                   (fun id => one (is_char q) (fun _ => Some id)))) s
  = Some id ->
  is_empty id = false
  /\ exists q, is_quote q = true /\ all_chars (inside_quotes q) id = true
       /\ occurs (String q (id ++ String q EmptyString)) s.
Proof.
  intros D.
  destruct (star_some _ _ _ _ D) as (sp & r & -> & _ & D1).
  destruct (cap_one_some _ _ _ _ D1) as (q & r1 & -> & Q & D2).
  destruct (cap_plus_some _ _ _ _ D2) as (g & r2 & -> & G & N & D3).
  destruct (one_some _ _ _ _ D3) as (c & r3 & -> & C & [= <-]).
  apply Ascii.eqb_eq in C as ->.
  split; [exact N |]. exists q. repeat split; [exact Q | exact G |].
  apply occurs_after. exists EmptyString, r3.
  cbn [append]. now rewrite append_assoc3.
Qed.

Lemma video_id_here_some s id :
  FranceTVSiteIE.video_id_here s = Some id ->
  is_empty id = false
  /\ exists q, is_quote q = true /\ all_chars (inside_quotes q) id = true
       /\ occurs (String q (id ++ String q EmptyString)) s.
Proof.
  unfold FranceTVSiteIE.video_id_here. intros D.
  assert (G : exists r,
             occurs_suffix r s
             /\ star is_space
                  (cap_one is_quote
                     (fun q => cap_plus (inside_quotes q)
                        (fun id => one (is_char q) (fun _ => Some id)))) r
                = Some id).
  { apply alt_some in D as [D | D].
    - destruct (lit_some _ _ _ _ D) as (r1 & -> & D1).
      destruct (star_some _ _ _ _ D1) as (sp & r2 & -> & _ & D2).
      destruct (lit_some _ _ _ _ D2) as (r3 & -> & D3).
      exists r3. split; [| exact D3].
      exists ("data-main-video" ++ sp ++ "=")%string.
      now rewrite !append_assoc3.
    - destruct (lit_some _ _ _ _ D) as (r1 & -> & D1).
      apply opt_some in D1 as [D1 | D1].
      + destruct (one_some _ _ _ _ D1) as (c & r2 & -> & _ & D2).
        destruct (star_some _ _ _ _ D2) as (sp & r3 & -> & _ & D3).
        destruct (one_some _ _ _ _ D3) as (c' & r4 & -> & _ & D4).
        exists r4. split; [| exact D4].
        exists ("videoId" ++ String c (sp ++ String c' EmptyString))%string.
        cbn [append]. now rewrite !append_assoc3.
      + destruct (star_some _ _ _ _ D1) as (sp & r3 & -> & _ & D3).
        destruct (one_some _ _ _ _ D3) as (c' & r4 & -> & _ & D4).
        exists r4. split; [| exact D4].
        exists ("videoId" ++ sp ++ String c' EmptyString)%string.
        cbn [append]. now rewrite !append_assoc3. }
  destruct G as (r & (h & ->) & T).
  destruct (quoted_id_some _ _ T) as (N & q & Q & I & O).
  split; [exact N |]. exists q. repeat split; [exact Q | exact I |].
  now apply occurs_after.
Qed.

Lemma http_scheme_some {A} (k : string -> option A) url x :
  http_scheme k url = Some x ->
  is_empty url = false /\ exists r, occurs_suffix r url /\ k r = Some x.
Proof.
  unfold http_scheme. intros D.
  destruct (lit_some _ _ _ _ D) as (r1 & -> & D1).
  split; [reflexivity |].
  apply opt_some in D1 as [D1 | D1].
  - destruct (lit_some _ _ _ _ D1) as (r2 & -> & D2).
    destruct (lit_some _ _ _ _ D2) as (r3 & -> & D3).
    exists r3. split; [| exact D3]. now exists "https://"%string.
  - destruct (lit_some _ _ _ _ D1) as (r3 & -> & D3).
    exists r3. split; [| exact D3]. now exists "http://"%string.
Qed.

Lemma site_match_id_nonempty url display_id :
  FranceTVSiteIE._match_id url = Some display_id -> is_empty url = false.
Proof.
  unfold FranceTVSiteIE._match_id. intros D.
  now destruct (http_scheme_some _ _ _ D).
Qed.

(** X13.  The identifier that [FranceTVSiteIE] reads from the player markup
    of a page is never empty: it is a text of one line that stands in the
    page between two equal quotes and holds no such quote.  So the test for
    an empty identifier never sends a found identifier to the legacy link,
    and the page is delegated to [FranceTVIE] under this identifier, without
    catalog. *)
Theorem X13_site_video_id (H : Helpers) (P : PageHelpers)
    (url display_id webpage video_id : string) :
  FranceTVSiteIE._match_id url = Some display_id ->
  download_webpage P url display_id = Some webpage ->
  re_search FranceTVSiteIE.video_id_here webpage = Some video_id ->
  is_empty video_id = false
  /\ (exists q, is_quote q = true
        /\ all_chars (inside_quotes q) video_id = true
        /\ occurs (String q (video_id ++ String q EmptyString)) webpage)
  /\ FranceTVSiteIE._real_extract H P url
     = Returned (_make_url_result H video_id JNull (Some url)).
Proof.
  intros M D S.
  destruct (re_search_some _ _ _ S) as (b & a & -> & V).
  destruct (video_id_here_some _ _ V) as (N & q & Q & I & O).
  split; [exact N |]. split.
  - exists q. repeat split; [exact Q | exact I | now apply occurs_after].
  - unfold FranceTVSiteIE._real_extract. now rewrite M, D, S, N.
Qed.

Lemma X13_site_video_id_witness :
  FranceTVSiteIE._match_id InputsPages.france_tv_url
  = Some "140921-les-mysteres-de-jesus"%string
  /\ FranceTVSiteIE._real_extract Sample.helpers
       (InputsPages.site InputsPages.marker_page []) InputsPages.france_tv_url
     = Returned
         {| ur_url :=
              "francetv:ec217ecc-0733-48cf-ac06-af1347b849d1#host=www.france.tv";
            ur_ie_key := "FranceTV";
            ur_video_id := "ec217ecc-0733-48cf-ac06-af1347b849d1" |}.
Proof.
  split; [reflexivity |].
  destruct (X13_site_video_id Sample.helpers
              (InputsPages.site InputsPages.marker_page [])
              InputsPages.france_tv_url "140921-les-mysteres-de-jesus"
              InputsPages.marker_page "ec217ecc-0733-48cf-ac06-af1347b849d1"
              eq_refl eq_refl eq_refl) as (_ & _ & E).
  exact E.
Defined.

(** A full identifier as the patterns read it: a non-empty part without
    [@], an [@], and a non-empty part without double quote. *)
Lemma id_at_catalog_some {A} (k : string -> string -> option A) s x :
  id_at_catalog k s = Some x ->
  exists a b r,
    s = (a ++ String "@" (b ++ r))%string
    /\ is_empty a = false /\ contains_char "@" a = false
    /\ is_empty b = false /\ contains_char dquote b = false
    /\ k (a ++ String "@" b)%string r = Some x.
Proof.
  unfold id_at_catalog. intros D.
  destruct (cap_plus_some _ _ _ _ D) as (a & r1 & -> & Aa & Na & D1).
  destruct (lit_some _ _ _ _ D1) as (r2 & -> & D2).
  destruct (cap_plus_some _ _ _ _ D2) as (b & r & -> & Ab & Nb & D3).
  exists a, b, r. rewrite all_not_at_contains in Aa.
  rewrite all_not_char_contains in Ab.
  apply negb_true_iff in Aa, Ab. now repeat split.
Qed.

Lemma video_href_here_some s g :
  FranceTVSiteIE.video_href_here s = Some g ->
  exists a b,
    g = (a ++ String "@" b)%string
    /\ is_empty a = false /\ contains_char "@" a = false
    /\ is_empty b = false /\ contains_char dquote b = false.
Proof.
  unfold FranceTVSiteIE.video_href_here. intros D.
  assert (G : exists r,
             id_at_catalog (fun g => one (is_char dquote) (fun _ => Some g)) r
             = Some g).
  { assert (T : forall r,
               one (is_char dquote)
                 (lit "http://video"
                    (opt (lit "s")
                       (lit ".francetv.fr/video/"
                          (id_at_catalog
                             (fun g => one (is_char dquote)
                                         (fun _ => Some g)))))) r = Some g ->
               exists r',
                 id_at_catalog
                   (fun g => one (is_char dquote) (fun _ => Some g)) r'
                 = Some g).
    { intros r T.
      destruct (one_some _ _ _ _ T) as (c & r1 & -> & _ & T1).
      destruct (lit_some _ _ _ _ T1) as (r2 & -> & T2).
      apply opt_some in T2 as [T2 | T2].
      - destruct (lit_some _ _ _ _ T2) as (r3 & -> & T3).
        destruct (lit_some _ _ _ _ T3) as (r4 & -> & T4). eauto.
      - destruct (lit_some _ _ _ _ T2) as (r4 & -> & T4). eauto. }
    apply alt_some in D as [D | D].
    - destruct (lit_some _ _ _ _ D) as (r1 & -> & D1). eauto.
    - destruct (lit_some _ _ _ _ D) as (r1 & -> & D1).
      destruct (star_some _ _ _ _ D1) as (sp & r2 & -> & _ & D2). eauto. }
  destruct G as (r & G).
  destruct (id_at_catalog_some _ _ _ G) as (a & b & r' & -> & Na & Ca & Nb & Cb & K).
  destruct (one_some _ _ _ _ K) as (c & r3 & -> & _ & [= <-]).
  exists a, b. now repeat split.
Qed.

Lemma span_at_parts a b :
  contains_char "@" a = false ->
  before_at (a ++ String "@" b) = a /\ after_at (a ++ String "@" b) = b.
Proof.
  intros C. unfold before_at, after_at.
  now rewrite (span_app_stop not_at a "@" b (no_at_all_chars a C) eq_refl).
Qed.

(** X14.  When the player markup gives no identifier, [FranceTVSiteIE] reads
    the legacy link to [videos.francetv.fr].  What it reads there has a
    non-empty video id, an [@] and a non-empty catalogue.  If [clean_html]
    leaves this text alone, the page is delegated to [FranceTVIE] with this
    video id and this catalogue exactly when the catalogue holds no further
    [@], and the reference then names the text that was read, with the host
    of the page as side data; with a further [@] the extractor fails with a
    [ValueError]. *)
Theorem X14_site_legacy_link (H : Helpers) (P : PageHelpers)
    (url display_id webpage g : string) :
  FranceTVSiteIE._match_id url = Some display_id ->
  download_webpage P url display_id = Some webpage ->
  re_search FranceTVSiteIE.video_id_here webpage = None ->
  re_search FranceTVSiteIE.video_href_here webpage = Some g ->
  clean_html P g = g ->
  g = (before_at g ++ String "@" (after_at g))%string
  /\ is_empty (before_at g) = false /\ is_empty (after_at g) = false
  /\ FranceTVSiteIE._real_extract H P url
     = if contains_char "@" (after_at g) then Failed ValueError
       else Returned
              {| ur_url := smuggle_url H ("francetv:" ++ g)
                             [("hostname", urlparse_hostname H url)];
                 ur_ie_key := "FranceTV";
                 ur_video_id := before_at g |}.
Proof.
  intros M D S1 S2 C.
  destruct (re_search_some _ _ _ S2) as (b0 & a0 & _ & V).
  destruct (video_href_here_some _ _ V) as (a & b & E & Na & Ca & Nb & _).
  destruct (span_at_parts a b Ca) as (Ea & Eb). rewrite <- E in Ea, Eb.
  rewrite Ea, Eb. repeat split; try assumption.
  unfold FranceTVSiteIE._real_extract.
  rewrite M, D, S1. unfold FranceTVSiteIE.from_href.
  rewrite S2, C, E, (py_split_app "@" a b Ca).
  destruct (contains_char "@" b) eqn:Cb.
  - destruct (py_split_twice "@" b Cb) as (x & y & l & ->). reflexivity.
  - rewrite (py_split_whole "@" b Cb).
    f_equal. unfold _make_url_result.
    rewrite (site_match_id_nonempty _ _ M), Ca.
    assert (T : truthy (JStr b) = true).
    { cbn [truthy]. unfold is_empty in Nb. now rewrite Nb. }
    rewrite T. cbn [negb andb py_str].
    assert (B : before_at a = a).
    { unfold before_at. now rewrite (span_not_at_whole _ Ca). }
    rewrite B, append_assoc3. reflexivity.
Qed.

Lemma X14_site_legacy_link_witness :
  FranceTVSiteIE._real_extract Sample.helpers
    (InputsPages.site InputsPages.legacy_page []) InputsPages.france_tv_url
  = Returned
      {| ur_url := "francetv:NI_983319@Info-web#host=www.france.tv";
         ur_ie_key := "FranceTV";
         ur_video_id := "NI_983319" |}
  /\ FranceTVSiteIE._real_extract Sample.helpers
       (InputsPages.site InputsPages.twice_at_page []) InputsPages.france_tv_url
     = Failed ValueError.
Proof.
  split.
  - destruct (X14_site_legacy_link Sample.helpers
                (InputsPages.site InputsPages.legacy_page [])
                InputsPages.france_tv_url "140921-les-mysteres-de-jesus"
                InputsPages.legacy_page "NI_983319@Info-web"
                eq_refl eq_refl eq_refl eq_refl eq_refl) as (_ & _ & _ & R).
    exact R.
  - destruct (X14_site_legacy_link Sample.helpers
                (InputsPages.site InputsPages.twice_at_page [])
                InputsPages.france_tv_url "140921-les-mysteres-de-jesus"
                InputsPages.twice_at_page "NI_983319@Info@web"
                eq_refl eq_refl eq_refl eq_refl eq_refl) as (_ & _ & _ & R).
    exact R.
Defined.

Section PatternFound.

Context {A : Type}.

Lemma lit_found l (k : string -> option A) r :
  k r <> None -> lit l k (l ++ r) <> None.
Proof. intros K. unfold lit. now rewrite strip_prefix_app. Qed.

Lemma one_found p (k : string -> option A) c r :
  p c = true -> k r <> None -> one p k (String c r) <> None.
Proof. intros C K. cbn [one]. now rewrite C. Qed.

Lemma cap_one_found p (k : ascii -> string -> option A) c r :
  p c = true -> k c r <> None -> cap_one p k (String c r) <> None.
Proof. intros C K. cbn [cap_one]. now rewrite C. Qed.

Lemma cap_plus_found p (k : string -> string -> option A) g r :
  is_empty g = false -> all_chars p g = true ->
  (forall g', k g' r <> None) -> cap_plus p k (g ++ r) <> None.
Proof.
  destruct g as [| c g]; [discriminate |]. intros _ G K.
  rewrite all_chars_cons in G. apply andb_true_iff in G as [Gc G].
  cbn [append cap_plus]. rewrite Gc.
  apply cap_star_found; [exact G | intros g'; apply K].
Qed.

Lemma alt_found m1 m2 (k : string -> option A) s :
  m1 k s <> None -> alt m1 m2 k s <> None.
Proof. unfold alt. now destruct (m1 k s). Qed.

End PatternFound.

Lemma is_quote_not_space q : is_quote q = true -> is_space q = false.
Proof.
  unfold is_quote, is_char. intros Q. apply orb_true_iff in Q as [Q | Q];
    apply Ascii.eqb_eq in Q; now subst q.
Qed.

(** X15.  A page that carries [data-main-video], an equal sign and a quoted
    non-empty identifier of one line, with or without white space around the
    equal sign, is always delegated to [FranceTVIE] by [FranceTVSiteIE]: the
    player markup is found, the legacy link is not consulted and no pattern
    is reported missing.  The identifier is the one of the first player
    markup of the page. *)
Theorem X15_site_marker_is_found (H : Helpers) (P : PageHelpers)
    (url display_id webpage sp1 sp2 id : string) (q : ascii) :
  FranceTVSiteIE._match_id url = Some display_id ->
  download_webpage P url display_id = Some webpage ->
  occurs (main_video_marker sp1 sp2 q id) webpage ->
  all_chars is_space sp1 = true -> all_chars is_space sp2 = true ->
  is_quote q = true ->
  is_empty id = false -> all_chars (inside_quotes q) id = true ->
  exists video_id,
    re_search FranceTVSiteIE.video_id_here webpage = Some video_id
    /\ FranceTVSiteIE._real_extract H P url
       = Returned (_make_url_result H video_id JNull (Some url)).
Proof.
  intros M D (before & after & ->) S1 S2 Q N I.
  assert (F : re_search FranceTVSiteIE.video_id_here
                (before ++ main_video_marker sp1 sp2 q id ++ after) <> None).
  { apply re_search_found.
    assert (E : (main_video_marker sp1 sp2 q id ++ after)%string
                = ("data-main-video"
                   ++ sp1 ++ "=" ++ sp2 ++ String q (id ++ String q after))
                  %string).
    { unfold main_video_marker. rewrite !append_assoc3. cbn [append].
      now rewrite !append_assoc3. }
    rewrite E. unfold FranceTVSiteIE.video_id_here.
    apply alt_found, lit_found, star_found; [exact S1 |].
    apply lit_found, star_found; [exact S2 |].
    apply cap_one_found; [exact Q |].
    apply cap_plus_found; [exact N | exact I |].
    intros g'. apply one_found; [apply Ascii.eqb_refl | discriminate]. }
  destruct (re_search FranceTVSiteIE.video_id_here
              (before ++ main_video_marker sp1 sp2 q id ++ after))
    as [video_id |] eqn:S; [| congruence].
  exists video_id. split; [reflexivity |].
  destruct (re_search_some _ _ _ S) as (b & a & _ & V).
  destruct (video_id_here_some _ _ V) as (Nv & _).
  unfold FranceTVSiteIE._real_extract. now rewrite M, D, S, Nv.
Qed.

Lemma X15_site_marker_is_found_witness :
  occurs
    (main_video_marker " " " " "'" "ec217ecc-0733-48cf-ac06-af1347b849d1")
    InputsPages.marker_page
  /\ exists video_id,
       re_search FranceTVSiteIE.video_id_here InputsPages.marker_page
       = Some video_id
       /\ FranceTVSiteIE._real_extract Sample.helpers
            (InputsPages.site InputsPages.marker_page [])
            InputsPages.france_tv_url
          = Returned
              (_make_url_result Sample.helpers video_id JNull
                 (Some InputsPages.france_tv_url)).
Proof.
  assert (O : occurs
                (main_video_marker " " " " "'"
                   "ec217ecc-0733-48cf-ac06-af1347b849d1")
                InputsPages.marker_page)
    by now exists "<div class='player' "%string, ">"%string.
  split; [exact O |].
  exact (X15_site_marker_is_found Sample.helpers
           (InputsPages.site InputsPages.marker_page [])
           InputsPages.france_tv_url "140921-les-mysteres-de-jesus"
           InputsPages.marker_page " " " "
           "ec217ecc-0733-48cf-ac06-af1347b849d1" "'"
           eq_refl eq_refl O eq_refl eq_refl eq_refl eq_refl eq_refl).
Defined.

(** X22.  A page that [FranceTVSiteIE] delegates through its legacy link
    resolves as the video and the catalogue of the link: the classifier of
    [FranceTVIE] reads from the URL of the reference the video id, the
    catalogue and the host of the page, and [FranceTVIE] extracts from the
    reference what it extracts for this video in this catalogue with this
    host.  The catalogue must be of one line and without [@], [clean_html]
    must leave the link alone, and the side data must come back from the URL
    as it was put in. *)
Theorem X22_site_legacy_resolution (H : Helpers) (P : PageHelpers)
    (B : Backend) (url display_id webpage g : string) :
  FranceTVSiteIE._match_id url = Some display_id ->
  download_webpage P url display_id = Some webpage ->
  re_search FranceTVSiteIE.video_id_here webpage = None ->
  re_search FranceTVSiteIE.video_href_here webpage = Some g ->
  clean_html P g = g ->
  contains_char "@" (after_at g) = false ->
  all_chars not_newline (after_at g) = true ->
  unsmuggle_url H
    (smuggle_url H ("francetv:" ++ g) [("hostname", urlparse_hostname H url)])
  = (("francetv:" ++ g)%string, [("hostname", urlparse_hostname H url)]) ->
  exists reference,
    FranceTVSiteIE._real_extract H P url = Returned reference
    /\ classify H (ur_url reference)
       = ret (before_at g, Some (after_at g), urlparse_hostname H url)
    /\ _real_extract H B (ur_url reference)
       = _extract_video H B (before_at g) (JStr (after_at g))
           (urlparse_hostname H url).
Proof.
  intros M D S1 S2 C Cb L U.
  destruct (re_search_some _ _ _ S2) as (b0 & a0 & _ & V).
  destruct (video_href_here_some _ _ V) as (a & b & E & Na & Ca & Nb & _).
  destruct (span_at_parts a b Ca) as (Ea & Eb). rewrite <- E in Ea, Eb.
  rewrite Ea, Eb in *.
  assert (Ba : before_at a = a).
  { unfold before_at. now rewrite (span_not_at_whole _ Ca). }
  assert (K : classify H
                (smuggle_url H ("francetv:" ++ g)
                   [("hostname", urlparse_hostname H url)])
              = ret (a, Some b, urlparse_hostname H url)).
  { assert (N' : is_empty (before_at a) = false) by now rewrite Ba.
    destruct (match_valid_url_reference_id H a (JStr b) N') as (c & W & Q).
    destruct (Q Ca) as (Q' & _).
    rewrite (Q' b eq_refl Nb L), Ba in W.
    unfold reference_id in W. rewrite Ca in W.
    assert (T : truthy (JStr b) = true).
    { cbn [truthy]. unfold is_empty in Nb. now rewrite Nb. }
    rewrite T in W. cbn [negb andb py_str] in W.
    change ("@" ++ b)%string with (String "@" b) in W. rewrite <- E in W.
    unfold classify. rewrite U, W, Na. reflexivity. }
  eexists. split; [| split].
  - unfold FranceTVSiteIE._real_extract.
    rewrite M, D, S1. unfold FranceTVSiteIE.from_href.
    rewrite S2, C, E, (py_split_app "@" a b Ca), (py_split_whole "@" b Cb).
    reflexivity.
  - unfold _make_url_result.
    rewrite (site_match_id_nonempty _ _ M), Ca.
    assert (T : truthy (JStr b) = true).
    { cbn [truthy]. unfold is_empty in Nb. now rewrite Nb. }
    rewrite T. cbn [negb andb py_str ur_url].
    rewrite append_assoc3.
    change ("@" ++ b)%string with (String "@" b). rewrite <- E. exact K.
  - unfold _make_url_result.
    rewrite (site_match_id_nonempty _ _ M), Ca.
    assert (T : truthy (JStr b) = true).
    { cbn [truthy]. unfold is_empty in Nb. now rewrite Nb. }
    rewrite T. cbn [negb andb py_str ur_url].
    rewrite append_assoc3.
    change ("@" ++ b)%string with (String "@" b). rewrite <- E.
    unfold _real_extract. rewrite K, bind_ret. reflexivity.
Qed.

Lemma X22_site_legacy_resolution_witness :
  exists reference,
    FranceTVSiteIE._real_extract Sample.helpers
      (InputsPages.site InputsPages.legacy_page []) InputsPages.france_tv_url
    = Returned reference
    /\ classify Sample.helpers (ur_url reference)
       = ret ("NI_983319"%string, Some "Info-web"%string,
              JStr "www.france.tv")
    /\ _real_extract Sample.helpers Inputs.episode_backend (ur_url reference)
       = _extract_video Sample.helpers Inputs.episode_backend "NI_983319"
           (JStr "Info-web") (JStr "www.france.tv").
Proof.
  exact (X22_site_legacy_resolution Sample.helpers
           (InputsPages.site InputsPages.legacy_page [])
           Inputs.episode_backend InputsPages.france_tv_url
           "140921-les-mysteres-de-jesus" InputsPages.legacy_page
           "NI_983319@Info-web"
           eq_refl eq_refl eq_refl eq_refl eq_refl eq_refl eq_refl eq_refl).
Defined.

(** ** [FranceTVInfoIE] *)

Lemma player_load_here_some s g :
  FranceTVInfoIE.player_load_here s = Some g ->
  is_empty g = false /\ all_chars not_quote g = true.
Proof.
  unfold FranceTVInfoIE.player_load_here. intros D.
  destruct (lit_some _ _ _ _ D) as (r1 & -> & D1).
  destruct (plus_some _ _ _ _ D1) as (x & r2 & -> & _ & D2).
  destruct (lit_some _ _ _ _ D2) as (r3 & -> & D3).
  destruct (star_some _ _ _ _ D3) as (sp & r4 & -> & _ & D4).
  destruct (one_some _ _ _ _ D4) as (q & r5 & -> & _ & D5).
  destruct (cap_plus_some _ _ _ _ D5) as (g' & r6 & -> & G & N & [= <-]).
  now split.
Qed.

Lemma id_video_here_some s g :
  FranceTVInfoIE.id_video_here s = Some g ->
  exists a b,
    g = (a ++ String "@" b)%string
    /\ is_empty a = false /\ contains_char "@" a = false
    /\ is_empty b = false /\ contains_char dquote b = false.
Proof.
  unfold FranceTVInfoIE.id_video_here. intros D.
  destruct (lit_some _ _ _ _ D) as (r1 & -> & D1).
  destruct (id_at_catalog_some _ _ _ D1)
    as (a & b & r' & -> & Na & Ca & Nb & Cb & [= <-]).
  exists a, b. now repeat split.
Qed.

Lemma anchor_here_some s g :
  FranceTVInfoIE.anchor_here s = Some g ->
  exists a b,
    g = (a ++ String "@" b)%string
    /\ is_empty a = false /\ contains_char "@" a = false
    /\ is_empty b = false /\ contains_char dquote b = false.
Proof.
  unfold FranceTVInfoIE.anchor_here. intros D.
  destruct (lit_some _ _ _ _ D) as (r1 & -> & D1).
  destruct (plus_some _ _ _ _ D1) as (x & r2 & -> & _ & D2).
  destruct (lit_some _ _ _ _ D2) as (r3 & -> & D3).
  destruct (one_some _ _ _ _ D3) as (q & r4 & -> & _ & D4).
  assert (G : exists r,
             lit "//videos.francetv.fr/video/"
               (id_at_catalog
                  (fun g => one (is_char dquote) (fun _ => Some g))) r
             = Some g).
  { apply opt_some in D4 as [D4 | D4]; [| eauto].
    destruct (lit_some _ _ _ _ D4) as (r5 & -> & D5).
    apply opt_some in D5 as [D5 | D5].
    - destruct (lit_some _ _ _ _ D5) as (r6 & -> & D6).
      destruct (lit_some _ _ _ _ D6) as (r7 & -> & D7). eauto.
    - destruct (lit_some _ _ _ _ D5) as (r7 & -> & D7). eauto. }
  destruct G as (r & G).
  destruct (lit_some _ _ _ _ G) as (r8 & -> & D8).
  destruct (id_at_catalog_some _ _ _ D8)
    as (a & b & r' & -> & Na & Ca & Nb & Cb & K).
  destruct (one_some _ _ _ _ K) as (c & r9 & -> & _ & [= <-]).
  exists a, b. now repeat split.
Qed.

Lemma hex_no_hyphen g :
  all_chars is_hex g = true -> contains_char "-" g = false.
Proof.
  induction g as [| c g IH]; [reflexivity |].
  rewrite all_chars_cons. intros G. apply andb_true_iff in G as [Gc G].
  cbn [contains_char]. rewrite (IH G), orb_false_r.
  destruct (Ascii.eqb_spec c "-") as [-> | _]; [discriminate | reflexivity].
Qed.

Lemma uuid_here_some s g :
  FranceTVInfoIE.uuid_here s = Some g -> is_uuid g = true.
Proof.
  unfold FranceTVInfoIE.uuid_here. intros D.
  assert (G : exists r,
             cap_times 8 is_hex (fun g1 => lit "-"
             (cap_times 4 is_hex (fun g2 => lit "-"
             (cap_times 4 is_hex (fun g3 => lit "-"
             (cap_times 4 is_hex (fun g4 => lit "-"
             (cap_times 12 is_hex (fun g5 _ =>
                Some (g1 ++ "-" ++ g2 ++ "-" ++ g3 ++ "-" ++ g4 ++ "-"
                      ++ g5)%string))))))))) r = Some g).
  { assert (T : forall r,
               lit "="
                 (one is_quote
                    (cap_times 8 is_hex (fun g1 => lit "-"
                    (cap_times 4 is_hex (fun g2 => lit "-"
                    (cap_times 4 is_hex (fun g3 => lit "-"
                    (cap_times 4 is_hex (fun g4 => lit "-"
                    (cap_times 12 is_hex (fun g5 _ =>
                       Some (g1 ++ "-" ++ g2 ++ "-" ++ g3 ++ "-" ++ g4 ++ "-"
                             ++ g5)%string))))))))))) r = Some g ->
               exists r',
                 cap_times 8 is_hex (fun g1 => lit "-"
                 (cap_times 4 is_hex (fun g2 => lit "-"
                 (cap_times 4 is_hex (fun g3 => lit "-"
                 (cap_times 4 is_hex (fun g4 => lit "-"
                 (cap_times 12 is_hex (fun g5 _ =>
                    Some (g1 ++ "-" ++ g2 ++ "-" ++ g3 ++ "-" ++ g4 ++ "-"
                          ++ g5)%string))))))))) r' = Some g).
    { intros r T. destruct (lit_some _ _ _ _ T) as (r1 & -> & T1).
      destruct (one_some _ _ _ _ T1) as (q & r2 & -> & _ & T2). eauto. }
    apply alt_some in D as [D | D].
    - destruct (lit_some _ _ _ _ D) as (r1 & -> & D1). eauto.
    - destruct (lit_some _ _ _ _ D) as (r1 & -> & D1).
      destruct (plus_last_some _ _ _ _ D1) as (x & r2 & last & -> & _ & D2).
      destruct (is_word last); [discriminate |].
      destruct (lit_some _ _ _ _ D2) as (r3 & -> & D3). eauto. }
  destruct G as (r & G).
  destruct (cap_times_some _ _ _ _ _ G) as (g1 & r1 & -> & H1 & L1 & K1).
  destruct (lit_some _ _ _ _ K1) as (r1' & -> & K1').
  destruct (cap_times_some _ _ _ _ _ K1') as (g2 & r2 & -> & H2 & L2 & K2).
  destruct (lit_some _ _ _ _ K2) as (r2' & -> & K2').
  destruct (cap_times_some _ _ _ _ _ K2') as (g3 & r3 & -> & H3 & L3 & K3).
  destruct (lit_some _ _ _ _ K3) as (r3' & -> & K3').
  destruct (cap_times_some _ _ _ _ _ K3') as (g4 & r4 & -> & H4 & L4 & K4).
  destruct (lit_some _ _ _ _ K4) as (r4' & -> & K4').
  destruct (cap_times_some _ _ _ _ _ K4') as (g5 & r5 & -> & H5 & L5 & [= <-]).
  unfold is_uuid.
  change (g1 ++ "-" ++ g2 ++ "-" ++ g3 ++ "-" ++ g4 ++ "-" ++ g5)%string
    with (g1 ++ String "-" (g2 ++ String "-" (g3 ++ String "-"
            (g4 ++ String "-" g5))))%string.
  rewrite !py_split_app, py_split_whole by now apply hex_no_hyphen.
  rewrite H1, H2, H3, H4, H5, L1, L2, L3, L4, L5. reflexivity.
Qed.

Lemma info_match_id_nonempty url display_id :
  FranceTVInfoIE._match_id url = Some display_id -> is_empty url = false.
Proof.
  unfold FranceTVInfoIE._match_id. intros D.
  now destruct (http_scheme_some _ _ _ D).
Qed.

Lemma is_empty_app a b : is_empty a = false -> is_empty (a ++ b) = false.
Proof. now destruct a. Qed.

Lemma py_split_join sep s :
  join (String sep EmptyString) (py_split sep s) = s.
Proof.
  induction s as [| a s IH]; [reflexivity |]. cbn [py_split].
  destruct (Ascii.eqb_spec a sep) as [-> | N].
  - destruct (py_split sep s) as [| p ps] eqn:E.
    + destruct s; cbn [py_split] in E; [discriminate |].
      destruct (Ascii.eqb a sep); [discriminate |].
      destruct (py_split sep s); discriminate.
    + change (String sep (join (String sep EmptyString) (p :: ps))
              = String sep s).
      now rewrite IH.
  - destruct (py_split sep s) as [| p [| q ps]] eqn:E.
    + destruct s; cbn [py_split] in E; [discriminate |].
      destruct (Ascii.eqb a0 sep); [discriminate |].
      destruct (py_split sep s); discriminate.
    + change (String a (join (String sep EmptyString) [p]) = String a s).
      now rewrite IH.
    + change (String a (join (String sep EmptyString) (p :: q :: ps))
              = String a s).
      now rewrite IH.
Qed.

(** An identifier of the shape of a UUID is not empty and holds no [@]. *)
Lemma is_uuid_plain g :
  is_uuid g = true -> is_empty g = false /\ contains_char "@" g = false.
Proof.
  unfold is_uuid. intros U. pose proof (py_split_join "-" g) as J.
  destruct (py_split "-" g) as [| g1 [| g2 [| g3 [| g4 [| g5 [| ? ?]]]]]];
    try discriminate.
  repeat (apply andb_true_iff in U as [U ?]).
  assert (NA : forall x, all_chars is_hex x = true ->
                         all_chars not_at x = true).
  { induction x as [| c x IH]; [reflexivity |]. rewrite !all_chars_cons.
    intros G. apply andb_true_iff in G as [Gc G]. rewrite (IH G), andb_true_r.
    unfold not_at. destruct (Ascii.eqb_spec c "@") as [-> | _];
      [discriminate | reflexivity]. }
  cbn [join] in J. subst g. split.
  - destruct g1; [discriminate | reflexivity].
  - apply negb_true_iff. rewrite <- all_not_at_contains.
    rewrite !all_chars_app, !all_chars_cons.
    now rewrite !NA.
Qed.

(** The reference of a page: the identifier as it was read, the host of the
    page as side data. *)
Lemma make_url_result_page (H : Helpers) video_id url :
  is_empty url = false ->
  _make_url_result H video_id JNull (Some url)
  = {| ur_url := smuggle_url H ("francetv:" ++ video_id)
                   [("hostname", urlparse_hostname H url)];
       ur_ie_key := "FranceTV";
       ur_video_id := before_at video_id |}.
Proof.
  intros N. unfold _make_url_result. rewrite N. cbn [truthy negb].
  now rewrite andb_false_r.
Qed.

(** X16.  When a page of [francetvinfo.fr] has no Dailymotion player,
    [FranceTVInfoIE] delegates it to [FranceTVIE] under the identifier of the
    first of its four patterns that is found, as it was read and without
    catalog, with the host of the page as side data.  The identifier is never
    empty, and it is a text without quotes (the player source), or a
    non-empty video id, an [@] and a non-empty catalogue (the two links), or
    a UUID in lower case (the [data-id] and [figure] markup). *)
Theorem X16_info_video_id (H : Helpers) (P : PageHelpers)
    (url display_id webpage video_id : string) :
  FranceTVInfoIE._match_id url = Some display_id ->
  download_webpage P url display_id = Some webpage ->
  dailymotion_embed_urls P url webpage = [] ->
  first_pattern FranceTVInfoIE.video_id_patterns webpage = Some video_id ->
  FranceTVInfoIE._real_extract H P url
  = Returned
      (Delegated
         {| ur_url := smuggle_url H ("francetv:" ++ video_id)
                        [("hostname", urlparse_hostname H url)];
            ur_ie_key := "FranceTV";
            ur_video_id := before_at video_id |})
  /\ is_empty video_id = false
  /\ (all_chars not_quote video_id = true
      \/ (video_id
          = (before_at video_id ++ String "@" (after_at video_id))%string
          /\ is_empty (before_at video_id) = false
          /\ is_empty (after_at video_id) = false)
      \/ is_uuid video_id = true).
Proof.
  intros M D E F. split.
  - unfold FranceTVInfoIE._real_extract. rewrite M, D, E, F.
    now rewrite (make_url_result_page H _ _ (info_match_id_nonempty _ _ M)).
  - assert (AB : forall a b,
               video_id = (a ++ String "@" b)%string ->
               is_empty a = false -> contains_char "@" a = false ->
               is_empty b = false ->
               is_empty video_id = false
               /\ (all_chars not_quote video_id = true
                   \/ (video_id
                       = (before_at video_id
                          ++ String "@" (after_at video_id))%string
                       /\ is_empty (before_at video_id) = false
                       /\ is_empty (after_at video_id) = false)
                   \/ is_uuid video_id = true)).
    { intros a b -> Na Ca Nb. split; [now apply is_empty_app |].
      right. left. destruct (span_at_parts a b Ca) as (-> & ->).
      now repeat split. }
    destruct (first_pattern_some _ _ _ F) as (m & I & S).
    destruct (re_search_some _ _ _ S) as (b0 & a0 & _ & V).
    cbn [FranceTVInfoIE.video_id_patterns In] in I.
    destruct I as [<- | [<- | [<- | [<- | []]]]].
    + destruct (player_load_here_some _ _ V) as (N & Q). auto.
    + destruct (id_video_here_some _ _ V) as (a & b & G & Na & Ca & Nb & _).
      exact (AB a b G Na Ca Nb).
    + destruct (anchor_here_some _ _ V) as (a & b & G & Na & Ca & Nb & _).
      exact (AB a b G Na Ca Nb).
    + pose proof (uuid_here_some _ _ V) as U.
      destruct (is_uuid_plain _ U) as (N & _). auto.
Qed.

Lemma X16_info_video_id_witness :
  FranceTVInfoIE._match_id InputsPages.info_url
  = Some "jt-grand-soir-3-lundi-26-aout-2019_3561461"%string
  /\ FranceTVInfoIE._real_extract Sample.helpers
       (InputsPages.site InputsPages.figure_page []) InputsPages.info_url
     = Returned
         (Delegated
            {| ur_url :=
                 "francetv:7c204c9e-a2d3-11e3-9f9c-000d60a4a3ea#host=www.francetvinfo.fr";
               ur_ie_key := "FranceTV";
               ur_video_id := "7c204c9e-a2d3-11e3-9f9c-000d60a4a3ea" |}).
Proof.
  split; [reflexivity |].
  destruct (X16_info_video_id Sample.helpers
              (InputsPages.site InputsPages.figure_page [])
              InputsPages.info_url
              "jt-grand-soir-3-lundi-26-aout-2019_3561461"
              InputsPages.figure_page "7c204c9e-a2d3-11e3-9f9c-000d60a4a3ea"
              eq_refl eq_refl eq_refl eq_refl) as (R & _).
  exact R.
Defined.

(** X17.  A page of [francetvinfo.fr] whose identifier is a UUID resolves as
    the video of this UUID: the reference that [FranceTVInfoIE] returns
    carries the UUID as video id, the classifier of [FranceTVIE] reads from
    its URL the same UUID, no catalog and the host of the page, and
    [FranceTVIE] extracts from the reference what it extracts for this video
    with this host.  The side data must come back from the URL as it was put
    in. *)
Theorem X17_info_uuid_resolution (H : Helpers) (P : PageHelpers) (B : Backend)
    (url display_id webpage video_id : string) :
  FranceTVInfoIE._match_id url = Some display_id ->
  download_webpage P url display_id = Some webpage ->
  dailymotion_embed_urls P url webpage = [] ->
  first_pattern FranceTVInfoIE.video_id_patterns webpage = Some video_id ->
  is_uuid video_id = true ->
  unsmuggle_url H
    (smuggle_url H ("francetv:" ++ video_id)
       [("hostname", urlparse_hostname H url)])
  = (("francetv:" ++ video_id)%string,
     [("hostname", urlparse_hostname H url)]) ->
  exists reference,
    FranceTVInfoIE._real_extract H P url = Returned (Delegated reference)
    /\ ur_video_id reference = video_id
    /\ classify H (ur_url reference)
       = ret (video_id, None, urlparse_hostname H url)
    /\ _real_extract H B (ur_url reference)
       = _extract_video H B video_id JNull (urlparse_hostname H url).
Proof.
  intros M D E F U S.
  destruct (is_uuid_plain _ U) as (N & C).
  assert (W : before_at video_id = video_id).
  { unfold before_at. now rewrite (span_not_at_whole _ C). }
  assert (K : classify H
                (smuggle_url H ("francetv:" ++ video_id)
                   [("hostname", urlparse_hostname H url)])
              = ret (video_id, None, urlparse_hostname H url)).
  { assert (N' : is_empty (before_at video_id) = false) by now rewrite W.
    destruct (match_valid_url_reference_id H video_id JNull N')
      as (c & V & Q).
    destruct (Q C) as (_ & Q'). rewrite (Q' eq_refl), W in V.
    unfold reference_id in V. cbn [truthy] in V.
    rewrite andb_false_r, append_empty_r in V.
    unfold classify. rewrite S, V, N. reflexivity. }
  eexists. split; [| split; [| split]].
  - unfold FranceTVInfoIE._real_extract. rewrite M, D, E, F.
    now rewrite (make_url_result_page H _ _ (info_match_id_nonempty _ _ M)).
  - exact W.
  - exact K.
  - unfold _real_extract. cbn [ur_url]. rewrite K, bind_ret. reflexivity.
Qed.

Lemma X17_info_uuid_resolution_witness :
  exists reference,
    FranceTVInfoIE._real_extract Sample.helpers
      (InputsPages.site InputsPages.figure_page []) InputsPages.info_url
    = Returned (Delegated reference)
    /\ ur_video_id reference
       = "7c204c9e-a2d3-11e3-9f9c-000d60a4a3ea"%string
    /\ classify Sample.helpers (ur_url reference)
       = ret ("7c204c9e-a2d3-11e3-9f9c-000d60a4a3ea"%string, None,
              JStr "www.francetvinfo.fr")
    /\ _real_extract Sample.helpers Inputs.episode_backend (ur_url reference)
       = _extract_video Sample.helpers Inputs.episode_backend
           "7c204c9e-a2d3-11e3-9f9c-000d60a4a3ea" JNull
           (JStr "www.francetvinfo.fr").
Proof.
  exact (X17_info_uuid_resolution Sample.helpers
           (InputsPages.site InputsPages.figure_page []) Inputs.episode_backend
           InputsPages.info_url "jt-grand-soir-3-lundi-26-aout-2019_3561461"
           InputsPages.figure_page "7c204c9e-a2d3-11e3-9f9c-000d60a4a3ea"
           eq_refl eq_refl eq_refl eq_refl eq_refl eq_refl).
Defined.

(** X18.  Dailymotion players come first on a page of [francetvinfo.fr]:
    when the page has any, [FranceTVInfoIE] returns a playlist with one entry
    for each player, in their order, each for the Dailymotion extractor, and
    the patterns for a FranceTV identifier are not looked at.  A playlist is
    never empty, and a page without Dailymotion player never gives one. *)
Theorem X18_info_dailymotion_first (H : Helpers) (P : PageHelpers)
    (url display_id webpage : string) :
  FranceTVInfoIE._match_id url = Some display_id ->
  download_webpage P url display_id = Some webpage ->
  (dailymotion_embed_urls P url webpage <> [] ->
   exists entries,
     FranceTVInfoIE._real_extract H P url = Returned (Playlist entries)
     /\ map pe_url entries = dailymotion_embed_urls P url webpage
     /\ Forall (fun e => pe_ie_key e = "Dailymotion"%string) entries)
  /\ (forall entries,
        FranceTVInfoIE._real_extract H P url = Returned (Playlist entries) ->
        entries <> []
        /\ map pe_url entries = dailymotion_embed_urls P url webpage).
Proof.
  intros M D.
  assert (U : forall l, map pe_url (map FranceTVInfoIE.dailymotion_entry l) = l).
  { induction l as [| u l IH]; [reflexivity |]. cbn. now rewrite IH. }
  unfold FranceTVInfoIE._real_extract. rewrite M, D.
  destruct (dailymotion_embed_urls P url webpage) as [| u l] eqn:E; split.
  - intros N. now contradiction N.
  - intros entries R.
    destruct (first_pattern FranceTVInfoIE.video_id_patterns webpage);
      discriminate.
  - intros _. eexists. split; [reflexivity |]. split; [exact (U (u :: l)) |].
    apply Forall_forall. intros e I. apply in_map_iff in I as (x & <- & _).
    reflexivity.
  - intros entries [= <-]. split; [discriminate | exact (U (u :: l))].
Qed.

Lemma X18_info_dailymotion_first_witness :
  exists entries,
    FranceTVInfoIE._real_extract Sample.helpers
      (InputsPages.site InputsPages.dailymotion_page
         ["https://www.dailymotion.com/embed/video/x7pn3ow"%string])
      InputsPages.info_url
    = Returned (Playlist entries)
    /\ map pe_url entries
       = ["https://www.dailymotion.com/embed/video/x7pn3ow"%string]
    /\ Forall (fun e => pe_ie_key e = "Dailymotion"%string) entries.
Proof.
  destruct (X18_info_dailymotion_first Sample.helpers
              (InputsPages.site InputsPages.dailymotion_page
                 ["https://www.dailymotion.com/embed/video/x7pn3ow"%string])
              InputsPages.info_url
              "jt-grand-soir-3-lundi-26-aout-2019_3561461"
              InputsPages.dailymotion_page eq_refl eq_refl) as (Found & _).
  apply Found. discriminate.
Defined.

(** ** The addresses of the pages *)

Ltac pattern_cases D :=
  repeat (cbv beta in D;
          first [ apply lit_some in D as (? & -> & D)
                | apply opt_some in D as [D | D]
                | apply alt_some in D as [D | D] ]).

Section Segments.

Context {A : Type}.

Lemma star_last_ext p (k1 k2 : ascii -> string -> option A) s :
  forall prev,
    (forall c r, (String.length r <= String.length s)%nat -> k1 c r = k2 c r) ->
    star_last p k1 prev s = star_last p k2 prev s.
Proof.
  induction s as [| c s IH]; intros prev E; cbn [star_last].
  - apply E. apply Nat.le_refl.
  - rewrite (IH c).
    + now rewrite (E prev (String c s) (Nat.le_refl _)).
    + intros c' r L. apply E. cbn [String.length]. lia.
Qed.

Lemma strip_prefix_length l s r :
  strip_prefix l s = Some r ->
  (String.length r + String.length l = String.length s)%nat.
Proof.
  revert s. induction l as [| a l IH]; intros s; cbn [strip_prefix].
  - intros [= ->]. cbn. lia.
  - destruct s as [| b s]; [discriminate |].
    destruct (Ascii.eqb a b); [| discriminate].
    intros D. specialize (IH _ D). cbn [String.length]. lia.
Qed.

(** A path segment hands on a text that is shorter than its own. *)
Lemma segment_ext (k1 k2 : string -> option A) s :
  (forall r, (String.length r < String.length s)%nat -> k1 r = k2 r) ->
  path_segment k1 s = path_segment k2 s.
Proof.
  intros E. unfold path_segment, plus, plus_last. destruct s as [| c s]; [reflexivity |].
  destruct (not_char "/" c); [| reflexivity].
  apply star_last_ext. intros _ r L. unfold lit.
  destruct (strip_prefix "/" r) as [r' |] eqn:S; [| reflexivity].
  apply E. apply strip_prefix_length in S. cbn [String.length] in *. lia.
Qed.

(** The bound on the repetitions is never what ends them: any two bounds
    that are at least the length of the text give the same match. *)
Lemma path_segments_bound (k : string -> option A) n :
  forall m s,
    (String.length s <= n)%nat -> (String.length s <= m)%nat ->
    group_star n path_segment k s = group_star m path_segment k s.
Proof.
  assert (Z : forall m, group_star m path_segment k EmptyString
                        = k EmptyString)
    by now destruct m.
  induction n as [| n IH]; intros m s Ln Lm.
  - destruct s; [| cbn in Ln; lia]. now rewrite !Z.
  - destruct m as [| m].
    + destruct s; [| cbn in Lm; lia]. now rewrite !Z.
    + cbn [group_star].
      rewrite (segment_ext (group_star n path_segment k)
                 (group_star m path_segment k)); [reflexivity |].
      intros r L. apply IH; lia.
Qed.

(** What the segments leave is the text itself or follows a slash of it. *)
Lemma path_segments_some (k : string -> option A) n :
  forall s x,
    group_star n path_segment k s = Some x ->
    k s = Some x
    \/ exists h r, s = (h ++ String "/" r)%string /\ k r = Some x.
Proof.
  induction n as [| n IH]; intros s x; cbn [group_star]; [now left |].
  destruct (path_segment (group_star n path_segment k) s) as [y |] eqn:D;
    [| now left].
  intros [= ->]. right. unfold path_segment in D.
  destruct (plus_some _ _ _ _ D) as (g & r1 & -> & _ & D1).
  destruct (lit_some _ _ _ _ D1) as (r2 & -> & D2).
  destruct (IH _ _ D2) as [K | (h & r & -> & K)].
  - now exists g, r2.
  - exists (g ++ String "/" h)%string, r. split; [| exact K].
    now rewrite append_assoc3.
Qed.

End Segments.

Ltac with_host h :=
  match goal with
  | D : _ ?r = Some _ |- _ =>
      exists h, r; split; [cbn; tauto | split; [cbn; tauto | exact D]]
  end.

(** The six beginnings of an address of [FranceTVSiteIE]. *)
Lemma site_url_prefix url display_id :
  FranceTVSiteIE._match_id url = Some display_id ->
  exists host r,
    In host ["www.france.tv"; "france.tv"; "mobile.france.tv"]%string
    /\ (url = ("https://" ++ host ++ "/" ++ r)%string
        \/ url = ("http://" ++ host ++ "/" ++ r)%string)
    /\ path_segments url
         (cap_plus (not_char "/") (fun id => lit ".html" (fun _ => Some id))) r
       = Some display_id.
Proof.
  unfold FranceTVSiteIE._match_id, http_scheme. intros D.
  generalize dependent (path_segments url
    (cap_plus (not_char "/") (fun id => lit ".html" (fun _ => Some id)))).
  intros K D. pattern_cases D;
    [> with_host "www.france.tv"%string | with_host "france.tv"%string
     | with_host "mobile.france.tv"%string | with_host "www.france.tv"%string
     | with_host "france.tv"%string | with_host "mobile.france.tv"%string ].
Qed.

(** The six beginnings of an address of [FranceTVInfoIE]. *)
Lemma info_url_prefix url display_id :
  FranceTVInfoIE._match_id url = Some display_id ->
  exists host r,
    In host ["www.francetvinfo.fr"; "mobile.francetvinfo.fr";
             "france3-regions.francetvinfo.fr"]%string
    /\ (url = ("https://" ++ host ++ "/" ++ r)%string
        \/ url = ("http://" ++ host ++ "/" ++ r)%string)
    /\ path_segments url (cap_plus is_id_char (fun id _ => Some id)) r
       = Some display_id.
Proof.
  unfold FranceTVInfoIE._match_id, http_scheme. intros D.
  generalize dependent (path_segments url
    (cap_plus is_id_char (fun id (_ : string) => Some id))).
  intros K D. pattern_cases D;
    [> with_host "www.francetvinfo.fr"%string
     | with_host "mobile.francetvinfo.fr"%string
     | with_host "france3-regions.francetvinfo.fr"%string
     | with_host "www.francetvinfo.fr"%string
     | with_host "mobile.francetvinfo.fr"%string
     | with_host "france3-regions.francetvinfo.fr"%string ].
Qed.

(** A text that begins what the path segments leave stands after a slash. *)
Lemma occurs_after_segments {A} (k : string -> option A) url t r x :
  path_segments url k r = Some x ->
  (forall r', k r' = Some x -> exists rest, r' = (t ++ rest)%string) ->
  occurs (String "/" t) (String "/" r).
Proof.
  unfold path_segments. intros D K.
  destruct (path_segments_some _ _ _ _ D) as [E | (h & r' & -> & E)];
    destruct (K _ E) as (rest & ->).
  - now exists EmptyString, rest.
  - now exists (String "/" h), rest.
Qed.

(** X19.  The display id that [FranceTVSiteIE] takes from the address of a
    page is not empty and holds no slash, and the address has it after a
    slash and before [.html]. *)
Theorem X19_site_display_id (url display_id : string) :
  FranceTVSiteIE._match_id url = Some display_id ->
  is_empty display_id = false
  /\ contains_char "/" display_id = false
  /\ occurs ("/" ++ display_id ++ ".html") url.
Proof.
  intros M. destruct (site_url_prefix _ _ M) as (host & r & _ & U & S).
  assert (K : forall r',
             cap_plus (not_char "/")
               (fun id => lit ".html" (fun _ => Some id)) r'
             = Some display_id ->
             is_empty display_id = false
             /\ contains_char "/" display_id = false
             /\ exists rest, r' = ((display_id ++ ".html") ++ rest)%string).
  { intros r' D.
    destruct (cap_plus_some _ _ _ _ D) as (g & r1 & -> & G & N & D1).
    destruct (lit_some _ _ _ _ D1) as (r2 & -> & [= <-]).
    rewrite all_not_char_contains in G. apply negb_true_iff in G.
    repeat split; [exact N | exact G |].
    exists r2. now rewrite append_assoc3. }
  assert (O : occurs (String "/" (display_id ++ ".html")) (String "/" r)).
  { apply (occurs_after_segments _ _ _ _ _ S). intros r' D.
    now destruct (K r' D) as (_ & _ & R). }
  unfold path_segments in S.
  destruct (path_segments_some _ _ _ _ S) as [E | (h & r' & _ & E)];
    destruct (K _ E) as (N & C & _); (repeat split; [exact N | exact C |]);
    destruct U as [-> | ->];
    (apply (occurs_after _ "https://") || apply (occurs_after _ "http://"));
    apply occurs_after; exact O.
Qed.

Lemma X19_site_display_id_witness :
  is_empty "140921-les-mysteres-de-jesus" = false
  /\ contains_char "/" "140921-les-mysteres-de-jesus" = false
  /\ occurs ("/" ++ "140921-les-mysteres-de-jesus" ++ ".html")
       InputsPages.france_tv_url.
Proof.
  exact (X19_site_display_id InputsPages.france_tv_url
           "140921-les-mysteres-de-jesus" eq_refl).
Defined.

(** X20.  The display id that [FranceTVInfoIE] takes from the address of a
    page is not empty, holds none of [/], [?], [#], [&] and [.], and stands
    in the address after a slash. *)
Theorem X20_info_display_id (url display_id : string) :
  FranceTVInfoIE._match_id url = Some display_id ->
  is_empty display_id = false
  /\ all_chars is_id_char display_id = true
  /\ occurs ("/" ++ display_id) url.
Proof.
  intros M. destruct (info_url_prefix _ _ M) as (host & r & _ & U & S).
  assert (K : forall r',
             cap_plus is_id_char (fun id (_ : string) => Some id) r'
             = Some display_id ->
             is_empty display_id = false
             /\ all_chars is_id_char display_id = true
             /\ exists rest, r' = (display_id ++ rest)%string).
  { intros r' D.
    destruct (cap_plus_some _ _ _ _ D) as (g & r1 & -> & G & N & [= <-]).
    repeat split; [exact N | exact G |]. now exists r1. }
  assert (O : occurs (String "/" display_id) (String "/" r)).
  { apply (occurs_after_segments _ _ _ _ _ S). intros r' D.
    now destruct (K r' D) as (_ & _ & R). }
  unfold path_segments in S.
  destruct (path_segments_some _ _ _ _ S) as [E | (h & r' & _ & E)];
    destruct (K _ E) as (N & C & _); (repeat split; [exact N | exact C |]);
    destruct U as [-> | ->];
    (apply (occurs_after _ "https://") || apply (occurs_after _ "http://"));
    apply occurs_after; exact O.
Qed.

Lemma X20_info_display_id_witness :
  is_empty "jt-grand-soir-3-lundi-26-aout-2019_3561461" = false
  /\ all_chars is_id_char "jt-grand-soir-3-lundi-26-aout-2019_3561461" = true
  /\ occurs ("/" ++ "jt-grand-soir-3-lundi-26-aout-2019_3561461")
       InputsPages.info_url.
Proof.
  exact (X20_info_display_id InputsPages.info_url
           "jt-grand-soir-3-lundi-26-aout-2019_3561461" eq_refl).
Defined.

(** X21.  No address is taken by two of the three extractors of the file:
    the patterns of [FranceTVIE], [FranceTVSiteIE] and [FranceTVInfoIE]
    exclude each other. *)
Theorem X21_one_extractor_per_url (url : string) :
  (length (suitable_extractors url) <= 1)%nat.
Proof.
  unfold suitable_extractors.
  destruct (FranceTVSiteIE._match_id url) as [id |] eqn:S.
  - destruct (site_url_prefix _ _ S) as (host & r & I & U & _).
    cbn [In] in I.
    destruct I as [<- | [<- | [<- | []]]]; destruct U as [-> | ->];
      cbn; lia.
  - destruct (FranceTVInfoIE._match_id url) as [id |] eqn:F.
    + destruct (info_url_prefix _ _ F) as (host & r & I & U & _).
      cbn [In] in I.
      destruct I as [<- | [<- | [<- | []]]]; destruct U as [-> | ->];
        cbn; lia.
    + destruct (match_valid_url url); cbn; lia.
Qed.

(** * The resolution with its objects *)

(** ** Lists by index *)

Lemma set_nth_length {A} n (x : A) l : length (set_nth n x l) = length l.
Proof.
  revert n. induction l as [| y l IH]; intros [| n]; cbn; auto.
Qed.

Lemma nth_set_nth_same {A} n (x d : A) l :
  (n < length l)%nat -> nth n (set_nth n x l) d = x.
Proof.
  revert n. induction l as [| y l IH]; intros [| n] L; cbn in *;
    try lia; [reflexivity |]. apply IH. lia.
Qed.

Lemma nth_set_nth_other {A} n m (x d : A) l :
  n <> m -> nth m (set_nth n x l) d = nth m l d.
Proof.
  revert n m. induction l as [| y l IH]; intros [| n] [| m] D; cbn;
    try reflexivity; try congruence. apply IH. congruence.
Qed.

Lemma firstn_set_nth {A} k n (x : A) l :
  (k <= n)%nat -> firstn k (set_nth n x l) = firstn k l.
Proof.
  revert k n. induction l as [| y l IH]; intros [| k] [| n] L; cbn;
    try reflexivity; try lia. f_equal. apply IH. lia.
Qed.

Lemma set_nth_twice {A} n (x y : A) l :
  set_nth n x (set_nth n y l) = set_nth n x l.
Proof.
  revert n. induction l as [| z l IH]; intros [| n]; cbn; try reflexivity.
  now rewrite IH.
Qed.

Lemma set_nth_same {A} n (d : A) l : set_nth n (nth n l d) l = l.
Proof.
  revert n. induction l as [| z l IH]; intros [| n]; cbn; try reflexivity.
  now rewrite IH.
Qed.

(** ** Worlds *)

Lemma untouched_refl w : untouched w w.
Proof. split; [reflexivity | apply firstn_all]. Qed.

Lemma untouched_length w w' :
  untouched w w' -> (length (w_objects w) <= length (w_objects w'))%nat.
Proof.
  intros [_ E]. apply (f_equal (@length _)) in E.
  rewrite length_firstn in E. lia.
Qed.

Lemma untouched_dict_at w w' a :
  untouched w w' -> (a < length (w_objects w))%nat ->
  dict_at w' a = dict_at w a.
Proof.
  intros [_ E] L. unfold dict_at.
  rewrite <- (firstn_skipn (length (w_objects w)) (w_objects w')).
  rewrite E. apply app_nth1. exact L.
Qed.

Lemma untouched_trans w0 w w' :
  untouched w0 w -> untouched w w' -> untouched w0 w'.
Proof.
  intros U1 U2. pose proof (untouched_length _ _ U1) as L.
  destruct U1 as [A1 E1], U2 as [A2 E2]. split; [congruence |].
  transitivity (firstn (length (w_objects w0))
                  (firstn (length (w_objects w)) (w_objects w'))).
  - rewrite firstn_firstn. f_equal. lia.
  - rewrite E2. exact E1.
Qed.

Lemma untouched_more w l :
  untouched w {| w_attrs := w_attrs w; w_objects := w_objects w ++ l |}.
Proof.
  split; [reflexivity |]. cbn [w_objects].
  rewrite firstn_app, Nat.sub_diag, firstn_all. cbn. apply app_nil_r.
Qed.

Lemma untouched_write w0 w a d :
  (length (w_objects w0) <= a)%nat -> untouched w0 w ->
  untouched w0
    {| w_attrs := w_attrs w; w_objects := set_nth a d (w_objects w) |}.
Proof.
  intros L [A E]. split; [exact A |]. cbn [w_objects].
  now rewrite firstn_set_nth.
Qed.

Lemma map_dict_at_untouched w w' l :
  untouched w w' ->
  Forall (fun a => (a < length (w_objects w))%nat) l ->
  map (dict_at w') l = map (dict_at w) l.
Proof.
  intros U B. induction B as [| a l La B IH]; [reflexivity |].
  cbn. now rewrite IH, (untouched_dict_at _ _ _ U La).
Qed.

(** ** Computations in a world beside computations by value *)

Section Does.

Context {A A' : Type}.

Lemma does_ret (R : world -> A -> A' -> Prop) w0 w a a' :
  untouched w0 w -> R w a a' -> does R w0 (w_ret a) (ret a') w.
Proof. intros U Ra. split; [reflexivity | split; [exact U | exact Ra]]. Qed.

Lemma does_raise (R : world -> A -> A' -> Prop) w0 w e :
  untouched w0 w -> does R w0 (w_raise e) (raise e) w.
Proof. intros U. split; [reflexivity | split; [exact U | reflexivity]]. Qed.

End Does.

Lemma does_lift {A} (R : world -> A -> A -> Prop) w0 w (m : M A) :
  untouched w0 w -> (forall a, R w a a) -> does R w0 (w_lift m) m w.
Proof.
  intros U Ra. unfold does, w_lift. cbn [fst snd].
  split; [reflexivity |]. split; [exact U |].
  destruct (result m); [apply Ra | reflexivity].
Qed.

Lemma does_bind {A A' B B'} (R1 : world -> A -> A' -> Prop)
    (R2 : world -> B -> B' -> Prop) w0 w (c : W A) (m : M A')
    (k : A -> W B) (k' : A' -> M B') :
  does R1 w0 c m w ->
  (forall a a' w', untouched w0 w' -> R1 w' a a' ->
                   does R2 w0 (k a) (k' a') w') ->
  does R2 w0 (w_bind c k) (bind m k') w.
Proof.
  unfold does, w_bind, bind, result, trace.
  destruct (c w) as [[o t] w1], m as [o' t']. cbn [fst snd].
  intros (-> & U & Rel) K.
  destruct o as [a | e], o' as [a' | e']; try contradiction.
  - specialize (K a a' w1 U Rel).
    destruct (k a w1) as [[r t1] w2], (k' a') as [r' t1'].
    cbn [fst snd] in *. destruct K as (-> & U2 & Rel2).
    split; [reflexivity | split; [exact U2 | exact Rel2]].
  - subst e'. cbn [fst snd].
    split; [reflexivity | split; [exact U | reflexivity]].
Qed.

Lemma does_for_each {A S S'} (R : world -> S -> S' -> Prop) w0
    (body : S -> A -> W S) (body' : S' -> A -> M S') xs :
  (forall acc acc' x w, untouched w0 w -> R w acc acc' ->
                        does R w0 (body acc x) (body' acc' x) w) ->
  forall acc acc' w,
    untouched w0 w -> R w acc acc' ->
    does R w0 (w_for_each body xs acc) (for_each body' xs acc') w.
Proof.
  intros Body. induction xs as [| x xs IH]; intros acc acc' w U Ra.
  - now apply does_ret.
  - cbn [w_for_each for_each].
    apply (does_bind R R); [now apply Body |].
    intros a a' w' U' Ra'. now apply IH.
Qed.

(** A relation that holds in a world holds after a computation that does
    as much as one by value whose result it relates. *)
Lemma does_weaken {A A'} (R R' : world -> A -> A' -> Prop) w0 w
    (c : W A) (m : M A') :
  (forall w' a a', untouched w0 w' -> R w' a a' -> R' w' a a') ->
  does R w0 c m w -> does R' w0 c m w.
Proof.
  unfold does. intros K (T & U & Rel). split; [exact T |]. split; [exact U |].
  destruct (result (fst (c w))), (result m); try contradiction;
    [now apply K | exact Rel].
Qed.

Lemma does_lift_here {A} w0 w (m : M A) :
  untouched w0 w ->
  does (fun w' a a' => a = a' /\ w' = w) w0 (w_lift m) m w.
Proof. intros U. apply does_lift; [exact U | now split]. Qed.

(** A step that makes no call and raises nothing has no counterpart by
    value. *)
Lemma does_silent {A B B'} (R : world -> B -> B' -> Prop) w0 w (c : W A) a w1
    (k : A -> W B) (m : M B') :
  c w = ((Ok a, []), w1) -> does R w0 (k a) m w1 ->
  does R w0 (w_bind c k) m w.
Proof.
  unfold does, w_bind, result, trace. intros ->.
  destruct (k a w1) as [[r t] w2]. cbn [fst snd app]. auto.
Qed.

(** ** The second loop, by reference and by value *)

Lemma nth_middle_end {A} (l : list A) (x d : A) : nth (length l) (l ++ [x]) d = x.
Proof. rewrite app_nth2, Nat.sub_diag; [reflexivity | lia]. Qed.

Lemma represents_length w0 w r v :
  represents w0 w r v ->
  (length (w_objects w0) < length (w_objects w))%nat.
Proof.
  intros (_ & _ & _ & _ & B). inversion B as [| a l Ba _]; subst. lia.
Qed.

Lemma represents_extend w0 w w' r v objs fs u :
  represents w0 w r v -> untouched w w' -> NoDup objs ->
  Forall (fun a => (length (w_objects w) <= a < length (w_objects w'))%nat)
    objs ->
  map (dict_at w') objs = fs ->
  represents w0 w'
    {| ro_formats := ro_formats r ++ objs;
       ro_subtitles := ro_subtitles r;
       ro_video_url := u |}
    {| rs_formats := rs_formats v ++ fs;
       rs_subtitles := rs_subtitles v;
       rs_video_url := u |}.
Proof.
  intros Rep U N B E. pose proof (represents_length _ _ _ _ Rep) as L0.
  pose proof (untouched_length _ _ U) as L1.
  destruct Rep as (Ef & Es & _ & N0 & B0).
  assert (Old : Forall (fun a => (a < length (w_objects w))%nat)
                  (ro_subtitles r :: ro_formats r)).
  { eapply Forall_impl; [| exact B0]. cbn. intros a Ba. lia. }
  inversion Old as [| s l Ls Lf]; subst.
  unfold represents. cbn [ro_formats ro_subtitles ro_video_url rs_formats
                          rs_subtitles rs_video_url].
  rewrite map_app, (map_dict_at_untouched _ _ _ U Lf), Ef.
  rewrite (untouched_dict_at _ _ _ U Ls), Es.
  repeat split.
  - change (NoDup ((ro_subtitles r :: ro_formats r) ++ objs)).
    apply NoDup_app; [exact N0 | exact N |].
    intros a Ia Io. rewrite Forall_forall in Old, B.
    specialize (Old a Ia). specialize (B a Io). lia.
  - change (Forall (fun a => (length (w_objects w0) <= a
                              < length (w_objects w'))%nat)
              ((ro_subtitles r :: ro_formats r) ++ objs)).
    apply Forall_app. split.
    + eapply Forall_impl; [| exact B0]. cbn. intros a Ba. lia.
    + eapply Forall_impl; [| exact B]. cbn. intros a Ba. lia.
Qed.

Lemma represents_subtitles w0 w r v d :
  represents w0 w r v ->
  represents w0
    {| w_attrs := w_attrs w;
       w_objects := set_nth (ro_subtitles r) d (w_objects w) |}
    r
    {| rs_formats := rs_formats v;
       rs_subtitles := d;
       rs_video_url := rs_video_url v |}.
Proof.
  intros (Ef & Es & Eu & N0 & B0).
  inversion N0 as [| s l Ns Nf]; subst.
  inversion B0 as [| s' l' Bs Bf]; subst.
  unfold represents, dict_at.
  cbn [w_objects rs_formats rs_subtitles rs_video_url].
  repeat split.
  - rewrite <- Ef. apply map_ext_in. intros a Ia.
    apply nth_set_nth_other. intros E. apply Ns. now rewrite E.
  - apply nth_set_nth_same. lia.
  - exact Eu.
  - exact N0.
  - eapply Forall_impl; [| exact B0]. cbn [w_objects]. intros a Ba.
    rewrite set_nth_length. exact Ba.
Qed.

Section ObjectsRefine.

Variable H : Helpers.
Variable F : Framework.
Hypothesis Fresh : hands_out_new_objects F.

Lemma objects_of_extend w0 w r v fmts u :
  represents w0 w r v -> untouched w0 w ->
  untouched w0 (snd (format_objects F fmts w))
  /\ represents w0 (snd (format_objects F fmts w))
       {| ro_formats := ro_formats r ++ fst (format_objects F fmts w);
          ro_subtitles := ro_subtitles r;
          ro_video_url := u |}
       {| rs_formats := rs_formats v ++ fmts;
          rs_subtitles := rs_subtitles v;
          rs_video_url := u |}.
Proof.
  intros Rep U. destruct (Fresh fmts w) as (U1 & N & B & E). split.
  - exact (untouched_trans _ _ _ U U1).
  - exact (represents_extend _ _ _ _ _ _ _ u Rep U1 N B E).
Qed.

Lemma new_dict_extend w0 w r v d u :
  represents w0 w r v -> untouched w0 w ->
  untouched w0
    {| w_attrs := w_attrs w; w_objects := w_objects w ++ [d] |}
  /\ represents w0
       {| w_attrs := w_attrs w; w_objects := w_objects w ++ [d] |}
       {| ro_formats := ro_formats r ++ [length (w_objects w)];
          ro_subtitles := ro_subtitles r;
          ro_video_url := u |}
       {| rs_formats := rs_formats v ++ [d];
          rs_subtitles := rs_subtitles v;
          rs_video_url := u |}.
Proof.
  intros Rep U. split.
  - exact (untouched_trans _ _ _ U (untouched_more w [d])).
  - apply (represents_extend _ _ _ _ _ _ _ u Rep (untouched_more w [d])).
    + constructor; [intros [] | constructor].
    + constructor; [| constructor]. cbn [w_objects].
      rewrite length_app. cbn. lia.
    + cbn [map]. unfold dict_at. cbn [w_objects].
      now rewrite nth_middle_end.
Qed.

Lemma merge_in_place_does {B B'} (R : world -> B -> B' -> Prop) w0 w r
    subs (k : unit -> W B) (m : M B') :
  does R w0 (k tt) m
    {| w_attrs := w_attrs w;
       w_objects :=
         set_nth (ro_subtitles r)
           (merge_subtitles H subs (dict_at w (ro_subtitles r)))
           (w_objects w) |} ->
  does R w0 (w_bind (merge_subtitles_in_place H subs (ro_subtitles r)) k) m w.
Proof. apply does_silent. reflexivity. Qed.

End ObjectsRefine.

Section SecondLoop.

Variable H : Helpers.
Variable F : Framework.
Hypothesis Fresh : hands_out_new_objects F.

(** After a manifest with subtitles: new format objects, and the subtitles
    merged in place. *)
Lemma manifest_objects_extend w0 w r v fmts subs u :
  represents w0 w r v -> untouched w0 w ->
  let w1 := snd (format_objects F fmts w) in
  let w2 :=
    {| w_attrs := w_attrs w1;
       w_objects :=
         set_nth (ro_subtitles r)
           (merge_subtitles H subs (dict_at w1 (ro_subtitles r)))
           (w_objects w1) |} in
  untouched w0 w2
  /\ represents w0 w2
       {| ro_formats := ro_formats r ++ fst (format_objects F fmts w);
          ro_subtitles := ro_subtitles r;
          ro_video_url := u |}
       {| rs_formats := rs_formats v ++ fmts;
          rs_subtitles := merge_subtitles H subs (rs_subtitles v);
          rs_video_url := u |}.
Proof.
  intros Rep U w1 w2.
  destruct (objects_of_extend F Fresh w0 w r v fmts u Rep U) as (U1 & R1).
  fold w1 in U1, R1. split.
  - apply untouched_write; [| exact U1].
    destruct Rep as (_ & _ & _ & _ & B). inversion B; subst. lia.
  - pose proof (represents_subtitles _ _ _ _
                  (merge_subtitles H subs (dict_at w1 (ro_subtitles r))) R1)
      as R2.
    cbn [ro_subtitles rs_formats rs_video_url] in R2.
    destruct R1 as (_ & Es & _). cbn [ro_subtitles rs_subtitles] in Es.
    rewrite <- Es. exact R2.
Qed.

Lemma extract_formats_objects_does B video_id w0 w r v format_id video_url :
  untouched w0 w -> represents w0 w r v ->
  does (represents w0) w0
    (extract_formats_objects H F B video_id r format_id video_url)
    (extract_formats H B video_id v format_id video_url) w.
Proof.
  intros U Rep. unfold extract_formats_objects, extract_formats.
  destruct (determine_ext H video_url =? "f4m")%string;
    [| destruct (determine_ext H video_url =? "m3u8")%string;
       [| destruct (determine_ext H video_url =? "mpd")%string;
          [| destruct (startswith "rtmp" video_url)]]].
  - destruct (objects_of_extend F Fresh w0 w r v
                (extract_f4m_formats B video_url video_id format_id)
                (Some video_url) Rep U) as (U1 & R1).
    unfold does, w_bind, w_lift, w_ret, objects_of, call_extract_f4m, bind,
      ret, result, trace. cbn [fst snd].
    destruct (format_objects F _ w) as [objs w1]. cbn [fst snd app] in *.
    split; [reflexivity | split; [exact U1 | exact R1]].
  - unfold call_extract_m3u8.
    destruct (extract_m3u8_formats_and_subtitles B video_url video_id
                format_id) as [fmts subs].
    destruct (manifest_objects_extend w0 w r v fmts subs (Some video_url)
                Rep U) as (U1 & R1).
    unfold does, w_bind, w_lift, w_ret, objects_of, merge_subtitles_in_place,
      read, write, bind, ret, result, trace. cbn [fst snd].
    destruct (format_objects F fmts w) as [objs w1]. cbn [fst snd app] in *.
    split; [reflexivity | split; [exact U1 | exact R1]].
  - unfold call_extract_mpd.
    destruct (extract_mpd_formats_and_subtitles B video_url video_id
                format_id) as [fmts subs].
    destruct (manifest_objects_extend w0 w r v fmts subs (Some video_url)
                Rep U) as (U1 & R1).
    unfold does, w_bind, w_lift, w_ret, objects_of, merge_subtitles_in_place,
      read, write, bind, ret, result, trace. cbn [fst snd].
    destruct (format_objects F fmts w) as [objs w1]. cbn [fst snd app] in *.
    split; [reflexivity | split; [exact U1 | exact R1]].
  - destruct (new_dict_extend w0 w r v
                [("url", JStr video_url);
                 ("format_id", JStr ("rtmp-" ++ py_str H format_id)%string);
                 ("ext", JStr "flv")] (Some video_url) Rep U) as (U1 & R1).
    split; [reflexivity | split; [exact U1 | exact R1]].
  - unfold call_is_valid_url.
    destruct (is_valid_url B video_url video_id format_id).
    + destruct (new_dict_extend w0 w r v
                  [("url", JStr video_url); ("format_id", format_id)]
                  (Some video_url) Rep U) as (U1 & R1).
      split; [reflexivity | split; [exact U1 | exact R1]].
    + destruct Rep as (Ef & Es & Eu & M).
      split; [reflexivity | split; [exact U |]].
      unfold w_bind, w_lift, w_ret, bind, ret, result. cbn [fst snd].
      unfold represents.
      cbn [ro_formats ro_subtitles ro_video_url rs_formats rs_subtitles
           rs_video_url].
      split; [exact Ef | split; [exact Es | split; [reflexivity | exact M]]].
Qed.

Lemma resolve_descriptor_objects_does B video_id w0 w r v video :
  untouched w0 w -> represents w0 w r v ->
  does (represents w0) w0
    (resolve_descriptor_objects H F B video_id r video)
    (resolve_descriptor H B video_id v video) w.
Proof.
  intros U Rep. unfold resolve_descriptor_objects, resolve_descriptor.
  eapply does_bind; [apply (does_lift_here w0 w); exact U |].
  intros a a' w' _ (<- & ->).
  now apply extract_formats_objects_does.
Qed.

Lemma resolve_formats_objects_does B video_id w videos :
  does (represents w) w
    (resolve_formats_objects H F B video_id videos)
    (resolve_formats H B video_id videos) w.
Proof.
  unfold resolve_formats_objects, resolve_formats.
  eapply does_silent; [reflexivity |].
  apply does_for_each.
  - intros acc acc' x w' U Rep. now apply resolve_descriptor_objects_does.
  - apply untouched_more.
  - unfold represents, resolved_init, made_since, dict_at.
    cbn [ro_formats ro_subtitles ro_video_url rs_formats rs_subtitles
         rs_video_url w_objects map].
    rewrite nth_middle_end, length_app. cbn [length].
    repeat split.
    + constructor; [intros [] | constructor].
    + constructor; [lia | constructor].
Qed.

End SecondLoop.

(** ** The probe, the ranking in place and the storyboard *)

Lemma check_geo_objects_does B video_id w0 w r v :
  untouched w0 w -> represents w0 w r v ->
  does (fun w' _ _ => w' = w) w0
    (check_geo_objects B video_id r) (check_geo B video_id v) w.
Proof.
  intros U (Ef & _ & Eu & _). unfold check_geo_objects, check_geo.
  rewrite <- Eu, <- Ef.
  destruct (ro_formats r) as [| f fs]; cbn [map];
    [| now apply does_ret].
  destruct (ro_video_url r) as [video_url |]; [| now apply does_ret].
  destruct (negb (is_empty video_url)); [| now apply does_ret].
  unfold call_request_head, raise_geo_restricted, does, w_bind, w_lift, w_ret,
    bind, ret, raise, result, trace. cbn [fst snd].
  destruct (geo_signalled (request_webpage_head B video_url video_id));
    cbn [fst snd app]; split; try reflexivity; split; auto.
Qed.

Section Ranking.

Variable H : Helpers.

Lemma rank_in_place_run w f :
  (f < length (w_objects w))%nat ->
  rank_in_place H f w
  = ((Ok tt, []),
     {| w_attrs := w_attrs w;
        w_objects := set_nth f (rank_format H (dict_at w f)) (w_objects w) |}).
Proof.
  intros L. unfold rank_in_place, rank_format, w_bind, read, write, w_ret, ret.
  cbn [fst snd app].
  destruct (is_audio_description (dict_at w f)).
  - cbn [fst snd app]. unfold dict_at. cbn [w_objects w_attrs].
    rewrite !(nth_set_nth_same f _ [] (w_objects w) L), set_nth_twice.
    reflexivity.
  - unfold dict_at. rewrite set_nth_same. now destruct w.
Qed.

Lemma rank_loop_run objs :
  forall w,
    NoDup objs ->
    Forall (fun a => (a < length (w_objects w))%nat) objs ->
    exists w',
      w_for_each (fun _ f => rank_in_place H f) objs tt w = ((Ok tt, []), w')
      /\ w_attrs w' = w_attrs w
      /\ length (w_objects w') = length (w_objects w)
      /\ (forall a, In a objs -> dict_at w' a = rank_format H (dict_at w a))
      /\ (forall a, ~ In a objs -> dict_at w' a = dict_at w a)
      /\ (forall k, Forall (fun a => (k <= a)%nat) objs ->
                    firstn k (w_objects w') = firstn k (w_objects w)).
Proof.
  induction objs as [| f objs IH]; intros w N B.
  - exists w. repeat split; auto. intros a [].
  - inversion N as [| ? ? Nf No]; subst. inversion B as [| ? ? Bf Bo]; subst.
    set (w1 := {| w_attrs := w_attrs w;
                  w_objects := set_nth f (rank_format H (dict_at w f))
                                 (w_objects w) |}).
    assert (Bo1 : Forall (fun a => (a < length (w_objects w1))%nat) objs).
    { eapply Forall_impl; [| exact Bo]. cbn [w1 w_objects]. intros a La.
      now rewrite set_nth_length. }
    destruct (IH w1 No Bo1) as (w' & E & A & L & In' & Out' & Low).
    exists w'. split; [| split; [| split; [| split; [| split]]]].
    + cbn [w_for_each]. unfold w_bind. rewrite (rank_in_place_run w f Bf).
      fold w1. rewrite E. reflexivity.
    + exact A.
    + rewrite L. cbn [w1 w_objects]. apply set_nth_length.
    + intros a [<- | Ia].
      * rewrite (Out' f Nf). unfold dict_at. cbn [w1 w_objects].
        now apply nth_set_nth_same.
      * rewrite (In' a Ia). f_equal. unfold dict_at. cbn [w1 w_objects].
        apply nth_set_nth_other. intros ->. contradiction.
    + intros a Na. rewrite (Out' a); [| intros I; apply Na; now right].
      unfold dict_at. cbn [w1 w_objects]. apply nth_set_nth_other.
      intros ->. apply Na. now left.
    + intros k K. inversion K as [| ? ? Kf Ko]; subst.
      rewrite (Low k Ko). cbn [w1 w_objects]. now apply firstn_set_nth.
Qed.

End Ranking.

Lemma add_storyboard_objects_does w0 w spritesheets objs fmts s subs :
  untouched w0 w ->
  map (dict_at w) objs = fmts -> dict_at w s = subs ->
  Forall (fun a => (a < length (w_objects w))%nat) (s :: objs) ->
  does (fun w' objs' fmts' =>
          map (dict_at w') objs' = fmts' /\ dict_at w' s = subs)
    w0 (add_storyboard_objects spritesheets objs)
    (add_storyboard spritesheets fmts) w.
Proof.
  intros U Ef Es B. unfold add_storyboard_objects, add_storyboard.
  destruct (truthy spritesheets); [| now apply does_ret].
  destruct (py_iter spritesheets) as [sheets |]; [| now apply does_raise].
  eapply does_silent; [reflexivity |].
  pose proof (untouched_more w [storyboard sheets]) as U1.
  apply does_ret; [exact (untouched_trans _ _ _ U U1) |].
  inversion B as [| ? ? Bs Bo]; subst. split.
  - rewrite map_app, (map_dict_at_untouched _ _ _ U1 Bo). cbn [map].
    unfold dict_at at 2. cbn [w_objects]. now rewrite nth_middle_end.
  - exact (untouched_dict_at _ _ _ U1 Bs).
Qed.

(** ** The resolution by reference and the resolution by value *)

Section Refinement.

Variable H : Helpers.
Variable F : Framework.
Hypothesis Fresh : hands_out_new_objects F.

Lemma resolve_and_assemble_objects_does B video_id st w0 w :
  untouched w0 w ->
  does (fun w' m v => manifest_value w' m = v) w0
    (resolve_and_assemble_objects H F B video_id st)
    (resolve_and_assemble H B video_id st) w.
Proof.
  intros U0. unfold resolve_and_assemble_objects, resolve_and_assemble.
  apply (does_bind (fun w' r v => represents w w' r v /\ untouched w w')
           (fun w' m v => manifest_value w' m = v)).
  { pose proof (resolve_formats_objects_does H F Fresh B video_id w
                  (st_videos st)) as D.
    destruct D as (T & U & Rel). split; [exact T |]. split.
    - exact (untouched_trans _ _ _ U0 U).
    - destruct (result (fst (resolve_formats_objects H F B video_id
                               (st_videos st) w))),
        (result (resolve_formats H B video_id (st_videos st)));
        try contradiction; [now split | exact Rel]. }
  intros r v w1 U1 (Rep & Uw).
  apply (does_bind (fun w' (_ _ : unit) => w' = w1)
           (fun w' m v => manifest_value w' m = v)).
  { apply (check_geo_objects_does B video_id w0 w1 r v U1).
    destruct Rep as (Ef & Es & Eu & N & Bd).
    repeat split; try assumption.
    eapply Forall_impl; [| exact Bd]. cbn. intros a Ba.
    pose proof (untouched_length _ _ U0). lia. }
  intros _ _ ? _ ->.
  destruct Rep as (Ef & Es & Eu & N & Bd).
  inversion N as [| ? ? Ns Nf]; subst.
  inversion Bd as [| ? ? Bs Bf]; subst.
  assert (Bf' : Forall (fun a => (a < length (w_objects w1))%nat)
                  (ro_formats r)).
  { eapply Forall_impl; [| exact Bf]. cbn. intros a Ba. lia. }
  destruct (rank_loop_run H (ro_formats r) w1 Nf Bf')
    as (w2 & E & A & L & Inside & Outside & Low).
  apply (does_silent _ w0 w1 _ tt w2); [exact E |].
  assert (U2 : untouched w0 w2).
  { split; [rewrite A; apply U1 |].
    rewrite (Low (length (w_objects w0))).
    - apply U1.
    - eapply Forall_impl; [| exact Bf]. cbn. intros a Ba.
      pose proof (untouched_length _ _ U0). lia. }
  apply (does_bind
           (fun w' objs' fmts' =>
              map (dict_at w') objs' = fmts'
              /\ dict_at w' (ro_subtitles r) = rs_subtitles v)
           (fun w' m v => manifest_value w' m = v)).
  { apply add_storyboard_objects_does; [exact U2 | | |].
    - rewrite <- Ef, map_map. apply map_ext_in. exact Inside.
    - rewrite (Outside _ Ns). exact Es.
    - rewrite L. constructor; [lia | exact Bf']. }
  intros objs fmts w3 U3 (Ef3 & Es3).
  apply does_ret; [exact U3 |].
  unfold manifest_value. cbn [mo_formats mo_subtitles mo_fields].
  now rewrite Ef3, Es3.
Qed.

Lemma extract_video_objects_does B video_id catalogue hostname w :
  does (fun w' m v => manifest_value w' m = v) w
    (_extract_video_objects H F B video_id catalogue hostname)
    (_extract_video H B video_id catalogue hostname) w.
Proof.
  unfold _extract_video_objects, _extract_video.
  eapply does_bind; [apply (does_lift_here w w), untouched_refl |].
  intros st ? w' U (<- & ->).
  now apply resolve_and_assemble_objects_does.
Qed.

(** With a framework that hands out new objects, the resolution with its
    objects gives, read by value, what the resolution by value gives, from
    whatever world it starts, and leaves that world's attributes and objects
    as they were. *)
Lemma extract_video_by_value B video_id catalogue hostname w :
  by_value (_extract_video_objects H F B video_id catalogue hostname w)
  = _extract_video H B video_id catalogue hostname
  /\ untouched w
       (snd (_extract_video_objects H F B video_id catalogue hostname w)).
Proof.
  pose proof (extract_video_objects_does B video_id catalogue hostname w) as D.
  unfold does, result, trace in D. unfold by_value.
  destruct (_extract_video_objects H F B video_id catalogue hostname w)
    as [[o t] w'].
  destruct (_extract_video H B video_id catalogue hostname) as [o' t'].
  cbn [fst snd] in *. destruct D as (-> & U & Rel). split; [| exact U].
  destruct o as [m | e], o' as [v | e']; try contradiction; now subst.
Qed.

End Refinement.

Lemma trace_by_value r : trace (by_value r) = trace (fst r).
Proof. now destruct r as [[[m | e] t] w]. Qed.

Lemma allocating_new_objects :
  hands_out_new_objects SampleObjects.allocating.
Proof.
  intros fmts w. cbn [SampleObjects.allocating format_objects fst snd].
  split; [apply untouched_more |]. split; [apply seq_NoDup |]. split.
  - apply Forall_forall. intros a I. apply in_seq in I.
    cbn [w_objects]. rewrite length_app. lia.
  - unfold dict_at. cbn [w_objects]. generalize (w_objects w) as l.
    induction fmts as [| x fmts IH]; intros l; [reflexivity |].
    cbn [length seq map]. f_equal.
    + rewrite app_nth2, Nat.sub_diag; [reflexivity | lia].
    + specialize (IH (l ++ [x])). rewrite length_app in IH. cbn [length] in IH.
      rewrite Nat.add_1_r, <- app_assoc in IH. exact IH.
Qed.

(** C9.  A resolution is deterministic and keeps no state.  Run with its
    objects, in any world and with a framework that hands out new objects
    for the formats it parsed, it leaves the attributes of the extractor and
    every object that was there as they were; and two resolutions of the
    same reference, in any two worlds (the second may be the one the first
    left), against backends that answer the calls of the first in the same
    way, make the same calls and end in the same exception or in manifests
    that say the same, formats and subtitles read where they are. *)
Theorem C9_deterministic (H : Helpers) (F1 F2 : Framework) (B1 B2 : Backend)
    (video_id : string) (catalogue hostname : json) (w1 w2 : world) :
  hands_out_new_objects F1 -> hands_out_new_objects F2 ->
  (forall r,
     In r (trace (fst (_extract_video_objects H F1 B1 video_id catalogue
                         hostname w1))) ->
     agree B1 B2 r) ->
  by_value (_extract_video_objects H F1 B1 video_id catalogue hostname w1)
  = by_value (_extract_video_objects H F2 B2 video_id catalogue hostname w2)
  /\ untouched w1
       (snd (_extract_video_objects H F1 B1 video_id catalogue hostname w1))
  /\ untouched w2
       (snd (_extract_video_objects H F2 B2 video_id catalogue hostname w2)).
Proof.
  intros N1 N2 Same.
  destruct (extract_video_by_value H F1 N1 B1 video_id catalogue hostname w1)
    as (V1 & U1).
  destruct (extract_video_by_value H F2 N2 B2 video_id catalogue hostname w2)
    as (V2 & U2).
  split; [| split; [exact U1 | exact U2]].
  rewrite V1, V2. apply same_run_extract_video.
  intros r I. apply Same. now rewrite <- trace_by_value, V1.
Qed.

Lemma C9_deterministic_witness :
  by_value (SampleObjects.first_run SampleObjects.allocating)
  = by_value (SampleObjects.second_run SampleObjects.allocating)
  /\ untouched SampleObjects.used_world
       (snd (SampleObjects.first_run SampleObjects.allocating))
  /\ untouched (snd (SampleObjects.first_run SampleObjects.allocating))
       (snd (SampleObjects.second_run SampleObjects.allocating)).
Proof.
  apply (C9_deterministic Sample.helpers SampleObjects.allocating
           SampleObjects.allocating SampleObjects.first_backend
           SampleObjects.second_backend "ad" JNull JNull
           SampleObjects.used_world
           (snd (SampleObjects.first_run SampleObjects.allocating))
           allocating_new_objects allocating_new_objects).
  intros r I. cbv in I.
  repeat (destruct I as [<- | I]; [reflexivity |]). destruct I.
Defined.

(** The condition on the framework is needed.  With a framework that hands
    out again the objects it made, the ranking of lines 194-197 finds its
    own note in the second resolution and writes it once more, in the
    manifest of the first resolution too. *)
Example shared_objects_are_remembered :
  map (fun f => dict_lookup f "format_note")
    (match result (by_value (SampleObjects.first_run
                               SampleObjects.remembering)) with
     | Ok m => m_formats m
     | Raised _ => []
     end)
  = [None; Some (JStr "audio description, DASH audio")]
  /\ map (fun f => dict_lookup f "format_note")
       (match result (by_value (SampleObjects.second_run
                                  SampleObjects.remembering)) with
        | Ok m => m_formats m
        | Raised _ => []
        end)
     = [None;
        Some (JStr "audio description, audio description, DASH audio")]
  /\ ~ untouched SampleObjects.used_world
         (snd (SampleObjects.first_run SampleObjects.remembering)).
Proof.
  split; [reflexivity |]. split; [reflexivity |].
  intros [A _]. discriminate A.
Qed.
